(** * Financial Performance dashboard: classification and aggregation engine

    A shallow embedding of [data.py], [metrics.py] and the computations of
    [app.py], with the properties of the engine proved over it.

    Conventions of the embedding.
    - A pandas [DataFrame] is a list of column names and a list of rows; a row
      is a record with one optional cell per column the program reads or
      writes, [None] being a missing cell (NaN, NaT or Python [None]).
    - Amounts are exact integers (currency in its minor unit); ratios are
      rationals inside a small model of float results that keeps the
      infinite and NaN outcomes of a division by zero apart.
    - Text is a sequence of 8-bit characters with the ASCII letter cases and
      the ASCII white space of Python's [str]. *)

From Stdlib Require Import ZArith List Bool String Ascii Lia Permutation Sorted.
From Stdlib Require Import QArith Qabs OrderedTypeEx.
Import ListNotations.

Open Scope string_scope.
Open Scope Z_scope.

(* ================================================================== *)
(** * Python text operations *)
(* ================================================================== *)

Module PyStr.

(** [c.isspace()] on the ASCII range: TAB, LF, VT, FF, CR, the four
    separators FS GS RS US, and SPACE. *)
Definition isspace (c : ascii) : bool :=
  let n := N_of_ascii c in
  ((9 <=? n) && (n <=? 13) || (28 <=? n) && (n <=? 32))%N.

Definition lower_char (c : ascii) : ascii :=
  let n := N_of_ascii c in
  if ((65 <=? n) && (n <=? 90))%N then ascii_of_N (n + 32) else c.

Definition upper_char (c : ascii) : ascii :=
  let n := N_of_ascii c in
  if ((97 <=? n) && (n <=? 122))%N then ascii_of_N (n - 32) else c.

Fixpoint map_chars (f : ascii -> ascii) (s : string) : string :=
  match s with
  | EmptyString => EmptyString
  | String c t => String (f c) (map_chars f t)
  end.

(** [s.lower()] and [s.upper()]. *)
Definition lower : string -> string := map_chars lower_char.
Definition upper : string -> string := map_chars upper_char.

Fixpoint lstrip (s : string) : string :=
  match s with
  | EmptyString => EmptyString
  | String c t => if isspace c then lstrip t else s
  end.

Fixpoint rstrip (s : string) : string :=
  match s with
  | EmptyString => EmptyString
  | String c t =>
      match rstrip t with
      | EmptyString => if isspace c then EmptyString else String c EmptyString
      | t' => String c t'
      end
  end.

(** [s.strip()]. *)
Definition strip (s : string) : string := lstrip (rstrip s).

(** [s.startswith(p)]. *)
Fixpoint startswith (p s : string) : bool :=
  match p, s with
  | EmptyString, _ => true
  | String a p', String b s' => Ascii.eqb a b && startswith p' s'
  | String _ _, EmptyString => false
  end.

(** [sub in s]. *)
Fixpoint contains (sub s : string) : bool :=
  startswith sub s ||
  match s with
  | EmptyString => false
  | String _ t => contains sub t
  end.

(** [x in (a, b, ...)] for strings. *)
Definition mem (x : string) (l : list string) : bool :=
  existsb (String.eqb x) l.

End PyStr.

(* ================================================================== *)
(** * Tables *)
(* ================================================================== *)

(** A calendar month; a parsed date always carries one of the twelve. *)
Inductive Month : Type :=
| Jan | Feb | Mar | Apr | May | Jun | Jul | Aug | Sep | Oct | Nov | Dec.

Definition month_number (m : Month) : Z :=
  match m with
  | Jan => 1 | Feb => 2 | Mar => 3 | Apr => 4 | May => 5 | Jun => 6
  | Jul => 7 | Aug => 8 | Sep => 9 | Oct => 10 | Nov => 11 | Dec => 12
  end.

(** What [pd.to_datetime] yields for a cell it can parse. *)
Record Timestamp : Type := mkTimestamp {
  ts_year : Z;
  ts_month : Month;
  ts_day : Z
}.

(** One row of a frame.  The fields are the columns the program names; a
    cell of a date column holds the result of [pd.to_datetime(...,
    errors="coerce")] on it ([None] for NaT).  Descriptive columns the
    program only passes through (NAME, PROJECT, ...) appear in the column
    list of a frame and carry no data here. *)
Record Row : Type := mkRow {
  Date : option Timestamp;
  DATE : option Timestamp;
  AMOUNT : option Z;
  BUDGET : option Z;
  REVENUE_EXPENSES : option string;
  Short_CLASS : option string;
  CLASS : option string;
  ACCOUNT : option string;
  date : option Timestamp;
  year : option Z;
  month : option Z;
  account_group : option string;
  signed_amount : option Z;
  budget_amount : option Z
}.

Record DataFrame : Type := mkFrame {
  columns : list string;
  rows : list Row
}.

(** What a call may raise: [ValueError] with its message, [KeyError] with
    the missing column. *)
Inductive exn : Type :=
| ValueError (msg : string)
| KeyError (col : string).

(** The outcome of a call that may raise. *)
Inductive result (A : Type) : Type :=
| Ok (a : A)
| Raise (e : exn).
Arguments Ok {A} a.
Arguments Raise {A} e.

Definition bind {A B : Type} (x : result A) (f : A -> result B) : result B :=
  match x with
  | Ok a => f a
  | Raise e => Raise e
  end.

Notation "x <- c1 ;; c2" := (bind c1 (fun x => c2))
  (at level 61, c1 at next level, right associativity).

Module Frame.

Definition blank : Row :=
  mkRow None None None None None None None None None None None None None None.

(** Column setters: the row with one cell replaced. *)
Definition set_AMOUNT (v : option Z) (r : Row) : Row :=
  mkRow (Date r) (DATE r) v (BUDGET r) (REVENUE_EXPENSES r) (Short_CLASS r)
        (CLASS r) (ACCOUNT r) (date r) (year r) (month r) (account_group r)
        (signed_amount r) (budget_amount r).
Definition set_BUDGET (v : option Z) (r : Row) : Row :=
  mkRow (Date r) (DATE r) (AMOUNT r) v (REVENUE_EXPENSES r) (Short_CLASS r)
        (CLASS r) (ACCOUNT r) (date r) (year r) (month r) (account_group r)
        (signed_amount r) (budget_amount r).
Definition set_REVENUE_EXPENSES (v : option string) (r : Row) : Row :=
  mkRow (Date r) (DATE r) (AMOUNT r) (BUDGET r) v (Short_CLASS r)
        (CLASS r) (ACCOUNT r) (date r) (year r) (month r) (account_group r)
        (signed_amount r) (budget_amount r).
Definition set_Short_CLASS (v : option string) (r : Row) : Row :=
  mkRow (Date r) (DATE r) (AMOUNT r) (BUDGET r) (REVENUE_EXPENSES r) v
        (CLASS r) (ACCOUNT r) (date r) (year r) (month r) (account_group r)
        (signed_amount r) (budget_amount r).
Definition set_CLASS (v : option string) (r : Row) : Row :=
  mkRow (Date r) (DATE r) (AMOUNT r) (BUDGET r) (REVENUE_EXPENSES r)
        (Short_CLASS r) v (ACCOUNT r) (date r) (year r) (month r)
        (account_group r) (signed_amount r) (budget_amount r).
Definition set_date (v : option Timestamp) (r : Row) : Row :=
  mkRow (Date r) (DATE r) (AMOUNT r) (BUDGET r) (REVENUE_EXPENSES r)
        (Short_CLASS r) (CLASS r) (ACCOUNT r) v (year r) (month r)
        (account_group r) (signed_amount r) (budget_amount r).
Definition set_year (v : option Z) (r : Row) : Row :=
  mkRow (Date r) (DATE r) (AMOUNT r) (BUDGET r) (REVENUE_EXPENSES r)
        (Short_CLASS r) (CLASS r) (ACCOUNT r) (date r) v (month r)
        (account_group r) (signed_amount r) (budget_amount r).
Definition set_month (v : option Z) (r : Row) : Row :=
  mkRow (Date r) (DATE r) (AMOUNT r) (BUDGET r) (REVENUE_EXPENSES r)
        (Short_CLASS r) (CLASS r) (ACCOUNT r) (date r) (year r) v
        (account_group r) (signed_amount r) (budget_amount r).
Definition set_account_group (v : option string) (r : Row) : Row :=
  mkRow (Date r) (DATE r) (AMOUNT r) (BUDGET r) (REVENUE_EXPENSES r)
        (Short_CLASS r) (CLASS r) (ACCOUNT r) (date r) (year r) (month r)
        v (signed_amount r) (budget_amount r).
Definition set_signed_amount (v : option Z) (r : Row) : Row :=
  mkRow (Date r) (DATE r) (AMOUNT r) (BUDGET r) (REVENUE_EXPENSES r)
        (Short_CLASS r) (CLASS r) (ACCOUNT r) (date r) (year r) (month r)
        (account_group r) v (budget_amount r).
Definition set_budget_amount (v : option Z) (r : Row) : Row :=
  mkRow (Date r) (DATE r) (AMOUNT r) (BUDGET r) (REVENUE_EXPENSES r)
        (Short_CLASS r) (CLASS r) (ACCOUNT r) (date r) (year r) (month r)
        (account_group r) (signed_amount r) v.

(** ["c" in df.columns]. *)
Definition has (c : string) (df : DataFrame) : bool :=
  PyStr.mem c (columns df).

(** [df[c] = ...]: every row gets its new cell; the name joins the column
    list, at the end, when it is new. *)
Definition assign (c : string) (f : Row -> Row) (df : DataFrame) : DataFrame :=
  mkFrame (if has c df then columns df else columns df ++ [c])
          (map f (rows df)).

(** [df[mask]]: the rows where the mask holds, in order. *)
Definition where_rows (mask : Row -> bool) (df : DataFrame) : DataFrame :=
  mkFrame (columns df) (filter mask (rows df)).

(** [series.sum()]: missing cells are skipped, the empty sum is 0. *)
Definition cell_value (v : option Z) : Z :=
  match v with Some z => z | None => 0 end.

Definition sum_cells (l : list (option Z)) : Z :=
  fold_right (fun v acc => cell_value v + acc) 0 l.

(** [series.eq(s)] on one cell: a missing cell equals nothing. *)
Definition cell_eq (v : option string) (s : string) : bool :=
  match v with Some x => String.eqb x s | None => false end.

Definition keep_cell {A : Type} (cols : list string) (c : string)
           (v : option A) : option A :=
  if PyStr.mem c cols then v else None.

(** A row cut down to the named columns: the other cells are gone. *)
Definition project (cols : list string) (r : Row) : Row :=
  mkRow (keep_cell cols "Date" (Date r))
        (keep_cell cols "DATE" (DATE r))
        (keep_cell cols "AMOUNT" (AMOUNT r))
        (keep_cell cols "BUDGET" (BUDGET r))
        (keep_cell cols "REVENUE/EXPENSES" (REVENUE_EXPENSES r))
        (keep_cell cols "Short_CLASS" (Short_CLASS r))
        (keep_cell cols "CLASS" (CLASS r))
        (keep_cell cols "ACCOUNT" (ACCOUNT r))
        (keep_cell cols "date" (date r))
        (keep_cell cols "year" (year r))
        (keep_cell cols "month" (month r))
        (keep_cell cols "account_group" (account_group r))
        (keep_cell cols "signed_amount" (signed_amount r))
        (keep_cell cols "budget_amount" (budget_amount r)).

Fixpoint first_missing (cols : list string) (df : DataFrame) : option string :=
  match cols with
  | [] => None
  | c :: t => if has c df then first_missing t df else Some c
  end.

(** [df[cols]] for a list of names: the frame with these columns, in this
    order; [KeyError] when a name is no column of the frame. *)
Definition getitem (cols : list string) (df : DataFrame) : result DataFrame :=
  match first_missing cols df with
  | Some c => Raise (KeyError c)
  | None => Ok (mkFrame cols (map (project cols) (rows df)))
  end.

(** [pd.concat([a, b], ignore_index=True)]: the rows of [a], then the rows
    of [b]; the columns of [a], then those of [b] that [a] lacks. *)
Definition concat (a b : DataFrame) : DataFrame :=
  mkFrame (columns a ++ filter (fun c => negb (has c a)) (columns b))
          (rows a ++ rows b).

(** [df.empty]: no rows or no columns. *)
Definition empty (df : DataFrame) : bool :=
  match rows df, columns df with
  | [], _ => true
  | _, [] => true
  | _, _ => false
  end.

End Frame.

(* ================================================================== *)
(** * Grouping *)
(* ================================================================== *)

(** Group keys are ordered: pandas sorts the groups of a [groupby] and the
    index of a pivot by key. *)
Class Ord (K : Type) : Type := cmp : K -> K -> comparison.

#[export] Instance Ord_Z : Ord Z := Z.compare.
#[export] Instance Ord_string : Ord string := String.compare.

(** Tuples of keys compare lexicographically. *)
#[export] Instance Ord_pair {A B : Type} `{Ord A} `{Ord B} : Ord (A * B) :=
  fun x y =>
    match cmp (fst x) (fst y) with
    | Eq => cmp (snd x) (snd y)
    | c => c
    end.

(** With [dropna=False] the group of the missing key comes last. *)
#[export] Instance Ord_option {A : Type} `{Ord A} : Ord (option A) :=
  fun x y =>
    match x, y with
    | Some a, Some b => cmp a b
    | Some _, None => Lt
    | None, Some _ => Gt
    | None, None => Eq
    end.

Module Group.
Section Grouping.
Context {K : Type} `{Ord K}.

Definition same (a b : K) : bool :=
  match cmp a b with Eq => true | _ => false end.

(** Insertion into an ascending list without repetition. *)
Fixpoint insert_key (k : K) (l : list K) : list K :=
  match l with
  | [] => [k]
  | h :: t =>
      match cmp k h with
      | Lt => k :: l
      | Eq => l
      | Gt => h :: insert_key k t
      end
  end.

(** The distinct keys of a column, ascending. *)
Definition sorted_keys (l : list K) : list K :=
  fold_right insert_key [] l.

(** The keys of the rows that have one: a row whose key has a missing
    cell belongs to no group ([dropna=True]). *)
Fixpoint present_keys (key : Row -> option K) (rs : list Row) : list K :=
  match rs with
  | [] => []
  | r :: t =>
      match key r with
      | Some k => k :: present_keys key t
      | None => present_keys key t
      end
  end.

Definition in_group (key : Row -> option K) (k : K) (r : Row) : bool :=
  match key r with
  | Some k' => same k' k
  | None => false
  end.

(** [df.groupby(keys, as_index=False)[col].sum()]: one entry per distinct
    key, ascending, with the sum of the column over the rows of the
    group. *)
Definition groupby_sum (key : Row -> option K) (col : Row -> option Z)
           (rs : list Row) : list (K * Z) :=
  map (fun k => (k, Frame.sum_cells (map col (filter (in_group key k) rs))))
      (sorted_keys (present_keys key rs)).

(** The entry of a grouped table at a key, when there is one. *)
Fixpoint lookup (k : K) (g : list (K * Z)) : option Z :=
  match g with
  | [] => None
  | (k', v) :: t => if same k' k then Some v else lookup k t
  end.

End Grouping.
End Group.

(* ================================================================== *)
(** * data.py *)
(* ================================================================== *)

Module Data.

(** [str(cell)] for a text cell: a missing cell prints as ["nan"]. *)
Definition str (v : option string) : string :=
  match v with Some s => s | None => "nan" end.

Definition _norm_cols (df : DataFrame) : DataFrame :=
  mkFrame (map PyStr.strip (columns df)) (rows df).

Definition _infer_group (row : Row) : option string :=
  let side := PyStr.lower (PyStr.strip (str (REVENUE_EXPENSES row))) in
  let short := PyStr.upper (PyStr.strip (str (Short_CLASS row))) in
  let full := PyStr.lower (PyStr.strip (str (CLASS row))) in
  if (side =? "revenue")%string then Some "Revenue"
  else if (side =? "expenses")%string then
    if (short =? "COS")%string then Some "COGS"
    else if PyStr.mem short ["G&A"; "GA"; "GNA"] then Some "OPEX"
    else if PyStr.startswith "cost of sales" full then Some "COGS"
    else if PyStr.contains "general & administrative" full
            || PyStr.contains "general and administrative" full
    then Some "OPEX"
    else None
  else None.

(** [abs] of a numeric cell; NaN stays NaN. *)
Definition abs_cell (v : option Z) : option Z := option_map Z.abs v.
Definition neg_cell (v : option Z) : option Z := option_map Z.opp v.

Definition sign_amt (row : Row) : option Z :=
  let grp := account_group row in
  let amt := AMOUNT row in
  if Frame.cell_eq grp "Revenue" then abs_cell amt
  else if Frame.cell_eq grp "COGS" || Frame.cell_eq grp "OPEX"
  then neg_cell (abs_cell amt)
  else None.

Definition notna {A : Type} (v : option A) : bool :=
  match v with Some _ => true | None => false end.

(** The transaction half of [load_all], after the required columns have
    been found. *)
Definition load_tx (tx : DataFrame) : DataFrame :=
  let tx := Frame.assign "date" (fun r => Frame.set_date (Date r) r) tx in
  let tx := Frame.assign "year"
              (fun r => Frame.set_year (option_map ts_year (date r)) r) tx in
  let tx := Frame.assign "month"
              (fun r => Frame.set_month
                          (option_map (fun t => month_number (ts_month t)) (date r)) r)
              tx in
  let tx := if Frame.has "Short_CLASS" tx then tx
            else Frame.assign "Short_CLASS" (Frame.set_Short_CLASS (Some "")) tx in
  let tx := if Frame.has "CLASS" tx then tx
            else Frame.assign "CLASS" (Frame.set_CLASS (Some "")) tx in
  let tx := Frame.assign "account_group"
              (fun r => Frame.set_account_group (_infer_group r) r) tx in
  let tx := Frame.assign "signed_amount"
              (fun r => Frame.set_signed_amount (sign_amt r) r) tx in
  Frame.where_rows (fun r => notna (signed_amount r)) tx.

(** One row of the aggregated budget table. *)
Definition budget_row (e : (Z * string) * Z) : Row :=
  Frame.set_year (Some (fst (fst e)))
    (Frame.set_account_group (Some (snd (fst e)))
       (Frame.set_budget_amount (Some (snd e)) Frame.blank)).

Definition year_group (r : Row) : option (Z * string) :=
  match year r, account_group r with
  | Some y, Some g => Some (y, g)
  | _, _ => None
  end.

(** The budget half of [load_all] for a budget file that exists. *)
Definition load_budget (b : DataFrame) : DataFrame :=
  let b := _norm_cols b in
  let b := if Frame.has "DATE" b
           then Frame.assign "date" (fun r => Frame.set_date (DATE r) r) b
           else if Frame.has "Date" b
           then Frame.assign "date" (fun r => Frame.set_date (Date r) r) b
           else Frame.assign "date" (Frame.set_date None) b in
  let b := Frame.assign "year"
             (fun r => Frame.set_year (option_map ts_year (date r)) r) b in
  let b := if Frame.has "REVENUE/EXPENSES" b then b
           else Frame.assign "REVENUE/EXPENSES"
                  (Frame.set_REVENUE_EXPENSES (Some "")) b in
  let b := if Frame.has "Short_CLASS" b then b
           else Frame.assign "Short_CLASS" (Frame.set_Short_CLASS (Some "")) b in
  let b := if Frame.has "CLASS" b then b
           else Frame.assign "CLASS" (Frame.set_CLASS (Some "")) b in
  let b := Frame.assign "account_group"
             (fun r => Frame.set_account_group (_infer_group r) r) b in
  let use_BUDGET := Frame.has "BUDGET" b in
  let b := if use_BUDGET then b
           else if Frame.has "budget_amount" b then b
           else Frame.assign "budget_amount" (Frame.set_budget_amount (Some 0)) b in
  let bud_col := fun r => if use_BUDGET then BUDGET r else budget_amount r in
  let b := Frame.where_rows (fun r => notna (account_group r)) b in
  mkFrame ["year"; "account_group"; "budget_amount"]
          (map budget_row (Group.groupby_sum year_group bud_col (rows b))).

(** [load_all]: the workbook of transactions and, when its file exists,
    the workbook of budgets. *)
Definition load_all (txn : DataFrame) (budget : option DataFrame)
  : result (DataFrame * DataFrame) :=
  let tx := _norm_cols txn in
  if negb (Frame.has "Date" tx) || negb (Frame.has "AMOUNT" tx)
     || negb (Frame.has "REVENUE/EXPENSES" tx)
  then Raise (ValueError "01.xlsx must contain 'Date', 'AMOUNT', and 'REVENUE/EXPENSES' columns.")
  else
    let tx := load_tx tx in
    let bd := match budget with
              | Some b => load_budget b
              | None => mkFrame ["year"; "account_group"; "budget_amount"] []
              end in
    Ok (tx, bd).

End Data.

(* ================================================================== *)
(** * metrics.py *)
(* ================================================================== *)

Module Metrics.

Record KPIs : Type := mkKPIs {
  Revenue : Z;
  Gross_Profit : Z;
  EBIT : Z
}.

(** [df.loc[df["account_group"].eq(g), "signed_amount"].sum()]. *)
Definition group_sum (g : string) (df : DataFrame) : Z :=
  Frame.sum_cells
    (map signed_amount
         (filter (fun r => Frame.cell_eq (account_group r) g) (rows df))).

Definition kpis (df : DataFrame) : KPIs :=
  let rev := group_sum "Revenue" df in
  let cogs := group_sum "COGS" df in
  let opex := group_sum "OPEX" df in
  let gross_profit := rev + cogs in
  let ebit := gross_profit + opex in
  mkKPIs rev gross_profit ebit.

(** The key of a row in [groupby(["year", "month", "account_group"])]. *)
Definition year_month_group (r : Row) : option (Z * Z * string) :=
  match year r, month r, account_group r with
  | Some y, Some m, Some g => Some (y, m, g)
  | _, _, _ => None
  end.

(** One row of the monthly pivot.  A group outside the three gets a
    column of its own in pandas, which nothing reads; the model leaves it
    out. *)
Record PivotRow : Type := mkPivotRow {
  pv_year : Z;
  pv_month : Z;
  pv_Revenue : Z;
  pv_COGS : Z;
  pv_OPEX : Z;
  pv_Gross_Profit : Z;
  pv_EBIT : Z
}.

(** [col in pivot.columns]: some entry of the grouped table has the
    group. *)
Definition pivot_has_column (g : list ((Z * Z * string) * Z)) (col : string) : bool :=
  existsb (fun e => String.eqb (snd (fst e)) col) g.

(** A cell of [pivot_table(index=["year","month"], columns="account_group",
    values="signed_amount", fill_value=0)]: the grouped table has at most
    one entry per key, which the default mean returns; where it has none
    the cell is filled with 0. *)
Definition pivot_cell (g : list ((Z * Z * string) * Z)) (ym : Z * Z) (col : string) : Z :=
  match Group.lookup (ym, col) g with
  | Some v => v
  | None => 0
  end.

Definition monthly_pnl (df : DataFrame) : list PivotRow :=
  let g := Group.groupby_sum year_month_group signed_amount (rows df) in
  let index := Group.sorted_keys (map (fun e => fst (fst e)) g) in
  let column := fun col ym =>
                  if pivot_has_column g col then pivot_cell g ym col else 0 in
  map (fun ym =>
         let revenue := column "Revenue" ym in
         let cogs := column "COGS" ym in
         let opex := column "OPEX" ym in
         let gross_profit := revenue + cogs in
         mkPivotRow (fst ym) (snd ym) revenue cogs opex
                    gross_profit (gross_profit + opex))
      index.

End Metrics.

(* ================================================================== *)
(** * Float results *)
(* ================================================================== *)

(** The value of a float expression: a finite number, an infinity or NaN.
    A numpy division by zero gives an infinity, or NaN for 0/0, where a
    division of Python floats raises [ZeroDivisionError]; both are the
    outcomes the guards of the program are there to avoid.  Finite values
    are exact rationals, and the sign of an infinity is not kept. *)
Inductive fval : Type :=
| Fin (q : Q)
| Inf
| NaN.

Module Float.

Definition of_Z (z : Z) : fval := Fin (inject_Z z).

Definition is_zero (q : Q) : bool := Qeq_bool q 0.

Definition div (a b : fval) : fval :=
  match a, b with
  | NaN, _ | _, NaN => NaN
  | Inf, Inf => NaN
  | Inf, Fin _ => Inf
  | Fin _, Inf => Fin 0
  | Fin x, Fin y =>
      if is_zero y then (if is_zero x then NaN else Inf) else Fin (x / y)
  end.

Definition mul (a b : fval) : fval :=
  match a, b with
  | NaN, _ | _, NaN => NaN
  | Inf, Inf => Inf
  | Inf, Fin y => if is_zero y then NaN else Inf
  | Fin x, Inf => if is_zero x then NaN else Inf
  | Fin x, Fin y => Fin (x * y)
  end.

Definition sub (a b : fval) : fval :=
  match a, b with
  | NaN, _ | _, NaN => NaN
  | Inf, Inf => NaN
  | Inf, Fin _ | Fin _, Inf => Inf
  | Fin x, Fin y => Fin (x - y)
  end.

(** The truth value of a number in [x if d else y]: anything but zero. *)
Definition truthy (a : fval) : bool :=
  match a with
  | Fin q => negb (is_zero q)
  | _ => true
  end.

Definition finite (a : fval) : Prop := exists q, a = Fin q.

End Float.

(* ================================================================== *)
(** * app.py *)
(* ================================================================== *)

Module App.

Import Float.

Definition sum_column (col : Row -> option Z) (df : DataFrame) : Z :=
  Frame.sum_cells (map col (rows df)).

(** [df[df["account_group"].eq(g)]]. *)
Definition of_group (g : string) (df : DataFrame) : DataFrame :=
  Frame.where_rows (fun r => Frame.cell_eq (account_group r) g) df.

(** [series.eq(n)] on a numeric cell. *)
Definition num_eq (v : option Z) (n : Z) : bool :=
  match v with Some x => Z.eqb x n | None => false end.

(** [series.isin(l)] on a numeric cell. *)
Definition isin (v : option Z) (l : list Z) : bool :=
  match v with Some x => existsb (Z.eqb x) l | None => false end.

(** [a / b * 100]. *)
Definition pct (a b : fval) : fval := mul (div a b) (Fin 100).

(** ** Upload of monthly data *)

Definition _ensure_period_cols (df : DataFrame) : DataFrame :=
  if Frame.has "date" df then
    let df := Frame.assign "date" (fun r => Frame.set_date (date r) r) df in
    let df := Frame.assign "year"
                (fun r => Frame.set_year (option_map ts_year (date r)) r) df in
    Frame.assign "month"
      (fun r => Frame.set_month
                  (option_map (fun t => month_number (ts_month t)) (date r)) r)
      df
  else df.

(** [fillna(0)] on a numeric cell. *)
Definition fillna0 (v : option Z) : option Z :=
  match v with Some z => Some z | None => Some 0 end.

Definition _normalize_uploaded_tx (df tx_template : DataFrame) : result DataFrame :=
  let df := _ensure_period_cols df in
  let df :=
    if negb (Frame.has "signed_amount" df) && Frame.has "AMOUNT" df then
      if Frame.has "account_group" df then
        Frame.assign "signed_amount"
          (fun r => Frame.set_signed_amount
                      (if Frame.cell_eq (account_group r) "Revenue"
                       then AMOUNT r
                       else Data.neg_cell (Data.abs_cell (AMOUNT r))) r)
          df
      else
        Frame.assign "signed_amount"
          (fun r => Frame.set_signed_amount (AMOUNT r) r) df
    else df in
  let keep := filter (fun c => Frame.has c tx_template) (columns df) in
  df <- Frame.getitem keep df ;;
  Ok (if Frame.has "signed_amount" df
      then Frame.assign "signed_amount"
             (fun r => Frame.set_signed_amount (fillna0 (signed_amount r)) r) df
      else df).

(** The transaction half of "Apply uploads": the new value of
    [st.session_state.tx_user]. *)
Definition apply_tx_upload (mode : string) (tx : DataFrame)
           (up_tx tx_user : option DataFrame) : result (option DataFrame) :=
  match up_tx with
  | Some tx_new =>
      tx_new <- _normalize_uploaded_tx tx_new tx ;;
      if (mode =? "Replace")%string then Ok (Some tx_new)
      else
        let aligned_cols := filter (fun c => Frame.has c tx) (columns tx_new) in
        tx_append <- Frame.getitem aligned_cols tx_new ;;
        tx_old <- Frame.getitem aligned_cols tx ;;
        Ok (Some (Frame.concat tx_old tx_append))
  | None =>
      Ok (if (mode =? "Replace")%string then None else tx_user)
  end.

(** ** Overview page *)

Definition actual_cogs_spend (DF : DataFrame) : Z :=
  Z.abs (Metrics.group_sum "COGS" DF).







(** ** Revenue page.  [year_rev] is [None] for "All". *)

Definition rev_all (DF : DataFrame) : DataFrame := of_group "Revenue" DF.

Definition month_filter (month_sel : list Z) (df : DataFrame) : DataFrame :=
  match month_sel with
  | [] => df
  | _ => Frame.where_rows (fun r => isin (month r) month_sel) df
  end.

Definition year_filter (year_rev : option Z) (df : DataFrame) : DataFrame :=
  match year_rev with
  | Some y => Frame.where_rows (fun r => num_eq (year r) y) df
  | None => df
  end.

Definition total_rev (DF : DataFrame) (year_rev : option Z) (month_sel : list Z) : Z :=
  sum_column signed_amount (month_filter month_sel (year_filter year_rev (rev_all DF))).



Definition has_month (b : DataFrame) : bool :=
  Frame.has "month" b && existsb (fun r => Data.notna (month r)) (rows b).

Definition year_key (r : Row) : option Z := year r.

Definition budget_val (bd : DataFrame) (year_rev : option Z) (month_sel : list Z) : fval :=
  if negb (Frame.empty bd) then
    let b := if negb (Frame.has "year" bd) && Frame.has "date" bd
             then Frame.assign "year"
                    (fun r => Frame.set_year (option_map ts_year (date r)) r) bd
             else bd in
    let b_rev := year_filter year_rev (of_group "Revenue" b) in
    if has_month b then
      of_Z (sum_column budget_amount (month_filter month_sel b_rev))
    else
      let months_in_slice :=
        match month_sel with [] => 12 | _ => Z.of_nat (List.length month_sel) end in
      let ann := Group.groupby_sum year_key budget_amount (rows b_rev) in
      mul (div (of_Z (fold_right Z.add 0 (map snd ann))) (Fin 12))
          (of_Z months_in_slice)
  else Fin 0.


(** The concentration note: [total = s.sum() or 1], then
    [top5 / total * 100]. *)
Definition top5_share (values : list Z) : fval :=
  let total := fold_right Z.add 0 values in
  let total := if Z.eqb total 0 then 1 else total in
  pct (of_Z (fold_right Z.add 0 (firstn 5 values))) (of_Z total).

(** ** Statement of profit and loss *)

Inductive Quarter : Type := Q1 | Q2 | Q3 | Q4.

Definition qmap (q : Quarter) : list Z :=
  match q with
  | Q1 => [1; 2; 3]
  | Q2 => [4; 5; 6]
  | Q3 => [7; 8; 9]
  | Q4 => [10; 11; 12]
  end.

(** [slice_period(df, year, granularity, q, m)]; [q] and [m] are [None]
    when the view has no quarter or month, and a month of 0 is as good as
    none for [and m]. *)
Definition slice_period (df : DataFrame) (y : Z) (granularity : string)
           (q : option Quarter) (m : option Z) : DataFrame :=
  let df := Frame.where_rows (fun r => num_eq (year r) y) df in
  let df := match q with
            | Some q' =>
                if (granularity =? "Quarter")%string
                then Frame.where_rows (fun r => isin (month r) (qmap q')) df
                else df
            | None => df
            end in
  match m with
  | Some m' =>
      if (granularity =? "Month")%string && negb (Z.eqb m' 0)
      then Frame.where_rows (fun r => num_eq (month r) m') df
      else df
  | None => df
  end.

(** [sort_values(col, ascending=False)] on a grouped table: descending by
    value, entries of equal value in their order of arrival. *)
Fixpoint insert_desc {K : Type} (e : K * Z) (l : list (K * Z)) : list (K * Z) :=
  match l with
  | [] => [e]
  | h :: t => if Z.leb (snd h) (snd e) then e :: l else h :: insert_desc e t
  end.

Definition sort_desc {K : Type} (l : list (K * Z)) : list (K * Z) :=
  fold_right insert_desc [] l.

(** [str(a if pd.notna(a) else "Unknown")]. *)
Definition label (a : option string) : string :=
  match a with Some s => s | None => "Unknown" end.

Definition subtotal_of (rs : list (string * Z)) : Z :=
  fold_right (fun e acc => snd e + acc) 0 rs.

Definition account_key_keepna (r : Row) : option (option string) := Some (ACCOUNT r).
Definition account_key (r : Row) : option string := ACCOUNT r.

Definition section_rows (df : DataFrame) (group_name : string)
  : list (string * Z) * Z :=
  let part := of_group group_name df in
  if Frame.empty part then ([], 0)
  else
    let by_line :=
      sort_desc (Group.groupby_sum account_key_keepna signed_amount (rows part)) in
    let rs := map (fun e => (label (fst e), snd e)) by_line in
    (rs, subtotal_of rs).

(** [series.str.contains("other income", case=False, na=False)]. *)
Definition mentions_other_income (v : option string) : bool :=
  match v with
  | Some s => PyStr.contains "other income" (PyStr.lower s)
  | None => false
  end.

Definition other_income (S : DataFrame) : DataFrame :=
  if Frame.has "Short_CLASS" S
  then Frame.where_rows (fun r => mentions_other_income (Short_CLASS r)) S
  else if Frame.has "CLASS" S
  then Frame.where_rows (fun r => mentions_other_income (CLASS r)) S
  else if existsb (fun r => Frame.cell_eq (account_group r) "Other Income") (rows S)
  then of_group "Other Income" S
  else mkFrame (columns S) [].

Definition other_section (S : DataFrame) : list (string * Z) * Z :=
  let other_inc := other_income S in
  if negb (Frame.empty other_inc) then
    let oi_rows :=
      sort_desc (Group.groupby_sum account_key signed_amount (rows other_inc)) in
    let rs := map (fun e => (fst e, snd e)) oi_rows in
    (rs, subtotal_of rs)
  else ([], 0).

Definition rev_total (S : DataFrame) : Z := snd (section_rows S "Revenue").
Definition cogs_total (S : DataFrame) : Z := snd (section_rows S "COGS").
Definition opex_total (S : DataFrame) : Z := snd (section_rows S "OPEX").
Definition other_total (S : DataFrame) : Z := snd (other_section S).

Definition gross_profit (S : DataFrame) : Z := rev_total S - cogs_total S.
Definition net_profit (S : DataFrame) : Z :=
  gross_profit S + other_total S - opex_total S.

End App.

(* ================================================================== *)
(** * The specification's wording and notions *)
(* ================================================================== *)

Module Spec.

(** The classifier as the specification words it: the side trimmed and
    case-folded, the short class only uppercased, the class text only
    lowercased. *)
Definition classify (side short_class class_text : string) : option string :=
  let side := PyStr.lower (PyStr.strip side) in
  let short := PyStr.upper short_class in
  let full := PyStr.lower class_text in
  if (side =? "revenue")%string then Some "Revenue"
  else if (side =? "expenses")%string then
    if (short =? "COS")%string then Some "COGS"
    else if PyStr.mem short ["G&A"; "GA"; "GNA"] then Some "OPEX"
    else if PyStr.startswith "cost of sales" full then Some "COGS"
    else if PyStr.contains "general & administrative" full
            || PyStr.contains "general and administrative" full
    then Some "OPEX"
    else None
  else None.

(** [s] begins with [p]. *)
Definition starts_with (p s : string) : Prop :=
  exists rest, s = p ++ rest.

(** [sub] occurs in [s]. *)
Definition occurs_in (sub s : string) : Prop :=
  exists before after, s = before ++ sub ++ after.

(** The sum of the signed amounts of the rows of one group, row by row. *)
Fixpoint signed_total (g : string) (rs : list Row) : Z :=
  match rs with
  | [] => 0
  | r :: t =>
      (if Frame.cell_eq (account_group r) g
       then Frame.cell_value (signed_amount r) else 0) + signed_total g t
  end.

(** The same for the rows of one month. *)
Fixpoint month_total (g : string) (y m : Z) (rs : list Row) : Z :=
  match rs with
  | [] => 0
  | r :: t =>
      (if App.num_eq (year r) y && App.num_eq (month r) m
          && Frame.cell_eq (account_group r) g
       then Frame.cell_value (signed_amount r) else 0) + month_total g y m t
  end.

(** The sum of a column of the monthly pivot. *)
Definition column_sum (col : Metrics.PivotRow -> Z)
           (pnl : list Metrics.PivotRow) : Z :=
  fold_right (fun p acc => col p + acc) 0 pnl.

(** The rows of the monthly pivot for one year. *)
Definition of_year (y : Z) (pnl : list Metrics.PivotRow) : list Metrics.PivotRow :=
  filter (fun p => Z.eqb (Metrics.pv_year p) y) pnl.

Definition period (p : Metrics.PivotRow) : Z * Z :=
  (Metrics.pv_year p, Metrics.pv_month p).

(** (year, month) pairs in calendar order. *)
Definition earlier (a b : Z * Z) : Prop :=
  fst a < fst b \/ (fst a = fst b /\ snd a < snd b).

(** The sum of a numeric column over the lines of one year and group. *)
Fixpoint year_group_total (value : Row -> option Z) (y : Z) (g : string)
         (lines : list Row) : Z :=
  match lines with
  | [] => 0
  | l :: t =>
      (if App.num_eq (year l) y && Frame.cell_eq (account_group l) g
       then Frame.cell_value (value l) else 0) + year_group_total value y g t
  end.

(** The same over the lines of one year, month and group. *)
Fixpoint year_month_group_total (value : Row -> option Z) (y m : Z) (g : string)
         (lines : list Row) : Z :=
  match lines with
  | [] => 0
  | l :: t =>
      (if App.num_eq (year l) y && App.num_eq (month l) m
          && Frame.cell_eq (account_group l) g
       then Frame.cell_value (value l) else 0)
      + year_month_group_total value y m g t
  end.

(** The budget table as the specification words it for a sheet with
    months: every (year, month, group) of the lines has its row, with the
    sum of the lines of that year, month and group. *)
Definition budget_grouped_by_month (value : Row -> option Z)
           (lines bd : list Row) : Prop :=
  forall l y m g,
    In l lines ->
    year l = Some y -> month l = Some m -> account_group l = Some g ->
    exists r,
      In r bd /\ year r = Some y /\ month r = Some m
      /\ account_group r = Some g
      /\ budget_amount r = Some (year_month_group_total value y m g lines).

(** A row of the given year has a month of the calendar. *)
Definition dated_in_year (y : Z) (r : Row) : bool :=
  if App.num_eq (year r) y then
    match month r with
    | Some m => (1 <=? m) && (m <=? 12)
    | None => false
    end
  else true.

(** A row with a year has a month of the calendar. *)
Definition valid_period (r : Row) : bool :=
  match year r with
  | Some _ =>
      match month r with
      | Some m => (1 <=? m) && (m <=? 12)
      | None => false
      end
  | None => true
  end.

End Spec.

(* ================================================================== *)
(** * Row-wise reading of the loader, and sample sheets *)
(* ================================================================== *)

Module Rowwise.

(** What [load_all] makes of one transaction row before it drops the
    rows without a signed amount; the flags say whether the sheet has a
    Short_CLASS and a CLASS column. *)
Definition tx_row (has_short has_class : bool) (r : Row) : Row :=
  let r := Frame.set_date (Date r) r in
  let r := Frame.set_year (option_map ts_year (date r)) r in
  let r := Frame.set_month
             (option_map (fun t => month_number (ts_month t)) (date r)) r in
  let r := if has_short then r else Frame.set_Short_CLASS (Some "") r in
  let r := if has_class then r else Frame.set_CLASS (Some "") r in
  let r := Frame.set_account_group (Data._infer_group r) r in
  Frame.set_signed_amount (Data.sign_amt r) r.

(** What [load_all] makes of one budget row before it groups them; the
    flags say which columns the budget sheet has. *)
Record budget_flags : Type := mkFlags {
  f_DATE : bool;
  f_Date : bool;
  f_side : bool;
  f_short : bool;
  f_class : bool;
  f_BUDGET : bool;
  f_budget_amount : bool
}.

Definition flags_of (b : DataFrame) : budget_flags :=
  mkFlags (Frame.has "DATE" b) (Frame.has "Date" b)
          (Frame.has "REVENUE/EXPENSES" b) (Frame.has "Short_CLASS" b)
          (Frame.has "CLASS" b) (Frame.has "BUDGET" b)
          (Frame.has "budget_amount" b).

Definition budget_line (f : budget_flags) (r : Row) : Row :=
  let r := Frame.set_date
             (if f_DATE f then DATE r else if f_Date f then Date r else None) r in
  let r := Frame.set_year (option_map ts_year (date r)) r in
  let r := if f_side f then r else Frame.set_REVENUE_EXPENSES (Some "") r in
  let r := if f_short f then r else Frame.set_Short_CLASS (Some "") r in
  let r := if f_class f then r else Frame.set_CLASS (Some "") r in
  let r := Frame.set_account_group (Data._infer_group r) r in
  if f_BUDGET f then r
  else if f_budget_amount f then r
  else Frame.set_budget_amount (Some 0) r.

(** The amount [load_all] sums for a budget line. *)
Definition budget_value (f : budget_flags) (r : Row) : option Z :=
  if f_BUDGET f then BUDGET r else budget_amount r.

(** The period cells [_ensure_period_cols] writes from the date. *)
Definition period_row (r : Row) : Row :=
  let r := Frame.set_date (date r) r in
  let r := Frame.set_year (option_map ts_year (date r)) r in
  Frame.set_month (option_map (fun t => month_number (ts_month t)) (date r)) r.

(** The signed amount the upload derives with the group at hand: the raw
    amount on a Revenue row, minus its magnitude on any other row. *)
Definition revenue_signed (r : Row) : option Z :=
  if Frame.cell_eq (account_group r) "Revenue" then AMOUNT r
  else Data.neg_cell (Data.abs_cell (AMOUNT r)).

(** What [_normalize_uploaded_tx] makes of one uploaded row; the flags say
    whether the upload has a date, a signed_amount, an AMOUNT and an
    account_group column, and [keep] lists the columns that are kept. *)
Definition upload_row (has_date has_signed has_amount has_group : bool)
           (keep : list string) (r : Row) : Row :=
  let r := if has_date then period_row r else r in
  let r := if negb has_signed && has_amount then
             if has_group then Frame.set_signed_amount (revenue_signed r) r
             else Frame.set_signed_amount (AMOUNT r) r
           else r in
  let r := Frame.project keep r in
  if PyStr.mem "signed_amount" keep
  then Frame.set_signed_amount (App.fillna0 (signed_amount r)) r
  else r.

End Rowwise.

Module Sample.

(** A sheet row with the three text cells the classifier reads. *)
Definition text_row (side short_class class_text : string) : Row :=
  Frame.set_REVENUE_EXPENSES (Some side)
    (Frame.set_Short_CLASS (Some short_class)
       (Frame.set_CLASS (Some class_text) Frame.blank)).

(** A row of the transactions sheet. *)
Definition txn (t : Timestamp) (account side : string)
           (short_class : option string) (amount : Z) : Row :=
  mkRow (Some t) None (Some amount) None (Some side) short_class None
        (Some account) None None None None None None.

Definition txn_columns : list string :=
  ["Date"; "ACCOUNT"; "REVENUE/EXPENSES"; "Short_CLASS"; "AMOUNT"].

(** The three January 2024 rows of the specification's scenario, on the
    days given. *)
Definition scenario (d1 d2 d3 : Z) : DataFrame :=
  mkFrame txn_columns
    [txn (mkTimestamp 2024 Jan d1) "Sales" "revenue" None 1000;
     txn (mkTimestamp 2024 Jan d2) "Materials" "expenses" (Some "COS") 400;
     txn (mkTimestamp 2024 Jan d3) "Rent" "expenses" (Some "G&A") 200].

(** A sheet with one revenue row of amount zero. *)
Definition zero_revenue : DataFrame :=
  mkFrame txn_columns
    [txn (mkTimestamp 2024 Jan 5) "Sales" "revenue" None 0].

(** A row of the budget sheet. *)
Definition budget_line (t : Timestamp) (side : string) (amount : Z) : Row :=
  mkRow None (Some t) None (Some amount) (Some side) None None None
        None None (Some (month_number (ts_month t))) None None None.

(** A budget sheet with a month column and two revenue lines of 2024, one
    of January and one of February. *)
Definition two_month_budget : DataFrame :=
  mkFrame ["DATE"; "month"; "REVENUE/EXPENSES"; "BUDGET"]
    [budget_line (mkTimestamp 2024 Jan 1) "revenue" 100;
     budget_line (mkTimestamp 2024 Feb 1) "revenue" 200].

(** An uploaded table with a year column and a month column, whose only row
    has a year and no month. *)
Definition year_without_month : DataFrame :=
  mkFrame ["year"; "month"; "ACCOUNT"; "account_group"; "signed_amount"]
    [mkRow None None None None None None None (Some "Sales") None
           (Some 2024) None (Some "Revenue") (Some 100) None].

(** An uploaded table with raw amounts and groups and no signed amounts:
    a revenue credit note, a cost line, a line of a group outside the three
    and a line without group or amount. *)
Definition upload : DataFrame :=
  mkFrame ["ACCOUNT"; "AMOUNT"; "account_group"]
    [mkRow None None (Some (-50)) None None None None (Some "Sales") None
           None None (Some "Revenue") None None;
     mkRow None None (Some 30) None None None None (Some "Materials") None
           None None (Some "COGS") None None;
     mkRow None None (Some 7) None None None None (Some "Bank") None
           None None (Some "Assets") None None;
     mkRow None None None None None None None (Some "Misc") None
           None None None None None].

(** The transaction table [load_all] makes of the scenario. *)
Definition canonical : DataFrame := Data.load_tx (scenario 3 10 28).

End Sample.

(* ================================================================== *)
(** * app.py: the pages *)
(* ================================================================== *)

Module Pages.

(** [series.isin(l)] on a text cell. *)
Definition str_isin (v : option string) (l : list string) : bool :=
  match v with Some x => PyStr.mem x l | None => false end.

(** [fillna(0)] on a looked-up sum. *)
Definition fill0 (v : option Z) : Z :=
  match v with Some z => z | None => 0 end.

(** The table the pages read: the uploaded one when the session has
    one. *)
Definition working_table (tx : DataFrame) (tx_user : option DataFrame) : DataFrame :=
  match tx_user with
  | Some t => t
  | None => tx
  end.

(** [DF[DF["account_group"].isin(["COGS", "OPEX"])]]. *)
Definition expenses (DF : DataFrame) : DataFrame :=
  Frame.where_rows (fun r => str_isin (account_group r) ["COGS"; "OPEX"]) DF.

(** ** Overview: revenue against expenses by year *)

Record YearRow : Type := mkYearRow {
  ry_year : Z;
  ry_Revenue : Z;
  ry_Expenses : Z
}.

(** [pd.merge(rev_year, exp_year, on="year", how="outer").fillna(0)]: one
    row per year of either side, ascending. *)
Definition rev_exp (DF : DataFrame) : list YearRow :=
  let rev_year :=
    Group.groupby_sum App.year_key signed_amount (rows (App.of_group "Revenue" DF)) in
  let exp_year :=
    Group.groupby_sum App.year_key signed_amount (rows (expenses DF)) in
  map (fun y => mkYearRow y (fill0 (Group.lookup y rev_year))
                          (fill0 (Group.lookup y exp_year)))
      (Group.sorted_keys (map fst rev_year ++ map fst exp_year)).

(** ** Overview: customers *)

Definition cust_col (rev_df : DataFrame) : option string :=
  if Frame.has "NAME" rev_df then Some "NAME"
  else if Frame.has "ACCOUNT" rev_df then Some "ACCOUNT"
  else None.

(** [rev_df.groupby(cust_col)["signed_amount"].sum().sort_values(...,
    ascending=False)], for the column whose cells [customer] reads. *)
Definition rev_by_cust (customer : Row -> option string) (DF : DataFrame)
  : list (string * Z) :=
  App.sort_desc
    (Group.groupby_sum customer signed_amount (rows (App.of_group "Revenue" DF))).

(** [head(5)] and the sum of [iloc[5:]]. *)
Definition top5 (by_cust : list (string * Z)) : list (string * Z) :=
  firstn 5 by_cust.
Definition others (by_cust : list (string * Z)) : Z :=
  fold_right Z.add 0 (map snd (skipn 5 by_cust)).

(** ** Revenue page: the flow of a year *)

Definition month_names : list string :=
  ["Jan"; "Feb"; "Mar"; "Apr"; "May"; "Jun";
   "Jul"; "Aug"; "Sep"; "Oct"; "Nov"; "Dec"].

Definition months : list Z := [1; 2; 3; 4; 5; 6; 7; 8; 9; 10; 11; 12].

Definition month_key (r : Row) : option Z := month r.

Record FlowRow : Type := mkFlowRow {
  fl_month : Z;
  fl_Revenue : Z;
  fl_MonthName : string;
  fl_Cumulative : Z
}.

(** [series.cumsum()], from a running total. *)
Fixpoint cumsum (acc : Z) (l : list Z) : list Z :=
  match l with
  | [] => []
  | x :: t => (acc + x) :: cumsum (acc + x) t
  end.

(** The twelve months left-merged with the monthly revenue of the year,
    filled with 0, named, and accumulated. *)
Definition revenue_flow (rev_all : DataFrame) (flow_year : Z) : list FlowRow :=
  let base :=
    Group.groupby_sum month_key signed_amount
      (rows (Frame.where_rows (fun r => App.num_eq (year r) flow_year) rev_all)) in
  let full := map (fun m => (m, fill0 (Group.lookup m base))) months in
  let names := map (fun e => nth (Z.to_nat (fst e - 1)) month_names "") full in
  let cumulative := cumsum 0 (map snd full) in
  map (fun e => mkFlowRow (fst (fst (fst e))) (snd (fst (fst e)))
                          (snd (fst e)) (snd e))
      (combine (combine full names) cumulative).

(** ** Expenses page *)

(** [EXP["abs_amount"] = EXP["signed_amount"].abs()]. *)
Definition abs_amount (r : Row) : option Z := Data.abs_cell (signed_amount r).

(** [EXP.loc[EXP["account_group"].eq(g), "abs_amount"].sum()]. *)
Definition total_abs (g : string) (DF : DataFrame) : Z :=
  Frame.sum_cells
    (map abs_amount
         (filter (fun r => Frame.cell_eq (account_group r) g)
                 (rows (expenses DF)))).

Definition total_opex (DF : DataFrame) : Z := total_abs "OPEX" DF.
Definition total_cogs (DF : DataFrame) : Z := total_abs "COGS" DF.

(** The first of the candidate columns the frame has. *)
Fixpoint first_present (candidates : list string) (df : DataFrame) : option string :=
  match candidates with
  | [] => None
  | c :: t => if Frame.has c df then Some c else first_present t df
  end.

Definition line_item_col (DF : DataFrame) : option string :=
  first_present ["ACCOUNT"; "Account"; "PROJECT"; "Project"] DF.

(** The summary of spend by line item, for the column whose cells
    [line_item] reads; [year_exp] is [None] for "All". *)
Definition expense_summary (line_item : Row -> option string) (DF : DataFrame)
           (year_exp : option Z) (month_exp : list Z) : list (string * Z) :=
  let E := App.month_filter month_exp (App.year_filter year_exp (expenses DF)) in
  App.sort_desc (Group.groupby_sum line_item abs_amount (rows E)).

Definition total_spend (summary : list (string * Z)) : Z :=
  fold_right Z.add 0 (map snd summary).

End Pages.

(* ================================================================== *)
(** * Notions the statements use *)
(* ================================================================== *)

(** The comparison of keys answers [Eq] on equal keys only. *)
Class OrdEq (K : Type) `{Ord K} : Prop :=
  cmp_eq : forall a b : K, cmp a b = Eq <-> a = b.

(** The comparison of keys is a strict order. *)
Class OrdStrict (K : Type) `{Ord K} : Prop := {
  cmp_antisym : forall a b : K, cmp b a = CompOpp (cmp a b);
  cmp_trans : forall a b c : K, cmp a b = Lt -> cmp b c = Lt -> cmp a c = Lt
}.

(** One key comes before the other. *)
Definition key_lt {K : Type} `{Ord K} (a b : K) : Prop := cmp a b = Lt.

(** The index of the pivot. *)
Definition pivot_index (rs : list Row) : list (Z * Z) :=
  Group.sorted_keys
    (map (fun e => fst (fst e))
         (Group.groupby_sum Metrics.year_month_group signed_amount rs)).

(** A row of the pivot for a month of the index. *)
Definition pivot_row (rs : list Row) (ym : Z * Z) : Metrics.PivotRow :=
  let revenue := Spec.month_total "Revenue" (fst ym) (snd ym) rs in
  let cogs := Spec.month_total "COGS" (fst ym) (snd ym) rs in
  let opex := Spec.month_total "OPEX" (fst ym) (snd ym) rs in
  Metrics.mkPivotRow (fst ym) (snd ym) revenue cogs opex
             (revenue + cogs) (revenue + cogs + opex).

(** The total of a group over the months of a year that a list of periods
    names. *)
Definition year_columns (g : string) (y : Z) (rs : list Row)
           (ks : list (Z * Z)) : Z :=
  fold_right
    (fun k acc =>
       (if Z.eqb (fst k) y then Spec.month_total g (fst k) (snd k) rs else 0) + acc)
    0 ks.

(** What one row adds to the months of a year. *)
Definition row_share (g : string) (r : Row) (k : Z * Z) : Z :=
  if App.num_eq (year r) (fst k) && App.num_eq (month r) (snd k)
     && Frame.cell_eq (account_group r) g
  then Frame.cell_value (signed_amount r) else 0.

(** The columns of an upload after the period and the signed amount have
    been derived. *)
Definition derived_columns (df : DataFrame) : list string :=
  let df1 := App._ensure_period_cols df in
  if negb (Frame.has "signed_amount" df1) && Frame.has "AMOUNT" df1
  then columns (Frame.assign "signed_amount" (fun r => r) df1)
  else columns df1.


(** A text of white space only. *)
Fixpoint blank_text (s : string) : bool :=
  match s with
  | EmptyString => true
  | String c t => PyStr.isspace c && blank_text t
  end.

(** A list of entries in descending order of their amounts. *)
Definition descending {K : Type} (l : list (K * Z)) : Prop :=
  StronglySorted (fun a b => snd b <= snd a) l.

(** The rows of a frame that have a year. *)
Definition dated (df : DataFrame) : DataFrame :=
  Frame.where_rows (fun r => Data.notna (year r)) df.

(** The months of a quarter, and the quarter of a month. *)
Definition quarter_of (m : Z) : App.Quarter :=
  if m <=? 3 then App.Q1 else if m <=? 6 then App.Q2
  else if m <=? 9 then App.Q3 else App.Q4.

(** The key of the row is one of the listed keys. *)
Definition keyed_in {K : Type} `{Ord K} (key : Row -> option K) (ks : list K)
           (r : Row) : bool :=
  match key r with
  | Some k => existsb (fun k' => Group.same k' k) ks
  | None => false
  end.

(** The rows of a frame that have no year. *)
Definition undated (df : DataFrame) : DataFrame :=
  Frame.where_rows (fun r => negb (Data.notna (year r))) df.


(** A sheet with one revenue row whose short class reads "Other Income". *)
Definition interest_income_sheet : DataFrame :=
  mkFrame Sample.txn_columns
    [Sample.txn (mkTimestamp 2024 Mar 5) "Interest" "revenue"
                (Some "Other Income") 50].
(* ================================================================== *)
(** * Text lemmas *)
(* ================================================================== *)

Section TextFacts.

Lemma startswith_iff (p s : string) :
  PyStr.startswith p s = true <-> Spec.starts_with p s.
Proof.
  unfold Spec.starts_with. revert s.
  induction p as [|a p IH]; intros s; simpl.
  - split; [intros _; exists s; reflexivity | reflexivity].
  - destruct s as [|b s].
    + split; [discriminate | intros [rest E]; discriminate].
    + rewrite andb_true_iff, Ascii.eqb_eq, IH. split.
      * intros [-> [rest ->]]. exists rest. reflexivity.
      * intros [rest E]. injection E as -> ->. split; [reflexivity | eauto].
Qed.

Lemma contains_iff (sub s : string) :
  PyStr.contains sub s = true <-> Spec.occurs_in sub s.
Proof.
  unfold Spec.occurs_in.
  induction s as [|c s IH].
  - simpl. rewrite orb_false_r, startswith_iff. split.
    + intros [rest E]. exists "", rest. exact E.
    + intros [before [after E]]. destruct before; simpl in E.
      * exists after. exact E.
      * discriminate.
  - cbn [PyStr.contains]. rewrite orb_true_iff, startswith_iff, IH. split.
    + intros [[rest E] | [before [after E]]].
      * exists "", rest. exact E.
      * exists (String c before), after. simpl. now rewrite E.
    + intros [before [after E]]. destruct before as [|b before]; simpl in E.
      * left. exists after. exact E.
      * right. injection E as -> E. eauto.
Qed.

Lemma mem_iff (x : string) (l : list string) :
  PyStr.mem x l = true <-> In x l.
Proof.
  unfold PyStr.mem. rewrite existsb_exists. split.
  - intros [y [Hy E]]. apply String.eqb_eq in E. now subst.
  - intros Hx. exists x. split; [assumption | apply String.eqb_refl].
Qed.

Lemma mem_false_iff (x : string) (l : list string) :
  PyStr.mem x l = false <-> ~ In x l.
Proof.
  rewrite <- mem_iff. destruct (PyStr.mem x l); split; congruence.
Qed.

Lemma mem_app (x : string) (l1 l2 : list string) :
  PyStr.mem x (l1 ++ l2) = PyStr.mem x l1 || PyStr.mem x l2.
Proof. unfold PyStr.mem. apply existsb_app. Qed.

End TextFacts.

(* ================================================================== *)
(** * The row classifier *)
(* ================================================================== *)

Section Classifier.

Import Data.

Let norm_side (row : Row) : string :=
  PyStr.lower (PyStr.strip (str (REVENUE_EXPENSES row))).
Let norm_short (row : Row) : string :=
  PyStr.upper (PyStr.strip (str (Short_CLASS row))).
Let norm_full (row : Row) : string :=
  PyStr.lower (PyStr.strip (str (CLASS row))).

Lemma infer_group_unfold (row : Row) :
  _infer_group row =
  if (norm_side row =? "revenue")%string then Some "Revenue"
  else if (norm_side row =? "expenses")%string then
    if (norm_short row =? "COS")%string then Some "COGS"
    else if PyStr.mem (norm_short row) ["G&A"; "GA"; "GNA"] then Some "OPEX"
    else if PyStr.startswith "cost of sales" (norm_full row) then Some "COGS"
    else if PyStr.contains "general & administrative" (norm_full row)
            || PyStr.contains "general and administrative" (norm_full row)
    then Some "OPEX"
    else None
  else None.
Proof. reflexivity. Qed.

(** The classifier only ever answers with one of the three groups. *)
Lemma infer_group_range (row : Row) (g : string) :
  _infer_group row = Some g -> g = "Revenue" \/ g = "COGS" \/ g = "OPEX".
Proof.
  rewrite infer_group_unfold.
  repeat match goal with
         | |- context [if ?b then _ else _] => destruct b
         end; intros E; inversion E; auto.
Qed.

(** The scenarios of the specification: the class text decides when the
    short class is empty, and a side that is neither revenue nor expenses
    has no group. *)
Lemma infer_group_scenarios :
  _infer_group (Sample.text_row "expenses" "" "Cost of Sales - Materials")
    = Some "COGS"
  /\ _infer_group (Sample.text_row "assets" "COS" "Cost of Sales") = None
  /\ _infer_group (Sample.text_row " Revenue " "" "") = Some "Revenue"
  /\ _infer_group (Sample.text_row "Expenses" "g&a" "Cost of Sales")
     = Some "OPEX".
Proof. repeat split. Qed.

(** C1, as the specification words it, fails: the program trims the short
    class before it compares it, so a short class of [" COS"] makes an
    expense row COGS, where the untrimmed comparison falls through to the
    class text and answers OPEX. *)
Lemma classify_untrimmed_short_class_differs :
  _infer_group (Sample.text_row "expenses" " COS" "General & Administrative")
    = Some "COGS"
  /\ Spec.classify "expenses" " COS" "General & Administrative" = Some "OPEX".
Proof. split; reflexivity. Qed.

(** C1, amended: with the side, the short class and the class text each
    trimmed (side and class text lowercased, short class uppercased), the
    classifier answers Revenue for side "revenue"; for side "expenses",
    COGS on short class "COS", else OPEX on short class "G&A", "GA" or
    "GNA", else COGS when the class text starts with "cost of sales", else
    OPEX when it contains "general & administrative" or "general and
    administrative", else nothing; and nothing for any other side.  The
    short-class rules come before the class-text rules, and two rows with
    the same three cells get the same answer. *)
Theorem infer_group_rules (row : Row) :
  let side := PyStr.lower (PyStr.strip (str (REVENUE_EXPENSES row))) in
  let short := PyStr.upper (PyStr.strip (str (Short_CLASS row))) in
  let full := PyStr.lower (PyStr.strip (str (CLASS row))) in
  let short_code := short = "COS" \/ In short ["G&A"; "GA"; "GNA"] in
  let general :=
    Spec.occurs_in "general & administrative" full
    \/ Spec.occurs_in "general and administrative" full in
  (side = "revenue" -> _infer_group row = Some "Revenue")
  /\ (side = "expenses" -> short = "COS" -> _infer_group row = Some "COGS")
  /\ (side = "expenses" -> In short ["G&A"; "GA"; "GNA"] ->
      _infer_group row = Some "OPEX")
  /\ (side = "expenses" -> ~ short_code ->
      Spec.starts_with "cost of sales" full -> _infer_group row = Some "COGS")
  /\ (side = "expenses" -> ~ short_code ->
      ~ Spec.starts_with "cost of sales" full -> general ->
      _infer_group row = Some "OPEX")
  /\ (side = "expenses" -> ~ short_code ->
      ~ Spec.starts_with "cost of sales" full -> ~ general ->
      _infer_group row = None)
  /\ (side <> "revenue" -> side <> "expenses" -> _infer_group row = None)
  /\ (forall row' : Row,
         REVENUE_EXPENSES row' = REVENUE_EXPENSES row ->
         Short_CLASS row' = Short_CLASS row ->
         CLASS row' = CLASS row ->
         _infer_group row' = _infer_group row).
Proof.
  intros side short full short_code general.
  assert (Hunf := infer_group_unfold row).
  subst norm_side norm_short norm_full. cbv beta in Hunf.
  fold side short full in Hunf.
  repeat match goal with |- _ /\ _ => split end.
  8: { intros row' Hs Hc Hf. unfold _infer_group. now rewrite Hs, Hc, Hf. }
  all: intros; rewrite Hunf; clear Hunf.
  all: repeat match goal with
         | |- context [String.eqb ?a ?b] => destruct (String.eqb_spec a b)
         | |- context [PyStr.mem ?x ?l] =>
             let E := fresh "E" in
             destruct (PyStr.mem x l) eqn:E;
             [apply mem_iff in E | apply mem_false_iff in E]
         | |- context [PyStr.startswith ?x ?l] =>
             let E := fresh "E" in
             destruct (PyStr.startswith x l) eqn:E;
             [apply startswith_iff in E
             | assert (~ Spec.starts_with x l)
                 by (rewrite <- startswith_iff; congruence); clear E]
         | |- context [PyStr.contains ?x ?l] =>
             let E := fresh "E" in
             destruct (PyStr.contains x l) eqn:E;
             [apply contains_iff in E
             | assert (~ Spec.occurs_in x l)
                 by (rewrite <- contains_iff; congruence); clear E]
         end.
  all: cbn [orb]; try reflexivity.
  all: exfalso; unfold short_code, general in *; try congruence; try tauto.
  match goal with
  | Hcos : short = "COS", Hin : In short _ |- _ =>
      rewrite Hcos in Hin; simpl in Hin; intuition discriminate
  end.
Qed.

End Classifier.

(* ================================================================== *)
(** * Frames *)
(* ================================================================== *)

Section FrameFacts.

Lemma rows_assign (c : string) (f : Row -> Row) (df : DataFrame) :
  rows (Frame.assign c f df) = map f (rows df).
Proof. reflexivity. Qed.

Lemma has_assign_other (c c' : string) (f : Row -> Row) (df : DataFrame) :
  (c =? c')%string = false ->
  Frame.has c (Frame.assign c' f df) = Frame.has c df.
Proof.
  intros Hne. unfold Frame.has, Frame.assign. cbn [columns].
  fold (Frame.has c' df). destruct (Frame.has c' df); [reflexivity |].
  rewrite mem_app. cbn. rewrite Hne. now rewrite !orb_false_r.
Qed.

Lemma has_assign_same (c : string) (f : Row -> Row) (df : DataFrame) :
  Frame.has c (Frame.assign c f df) = true.
Proof.
  unfold Frame.has, Frame.assign. cbn [columns]. fold (Frame.has c df).
  destruct (Frame.has c df) eqn:E; [exact E |].
  rewrite mem_app. cbn. rewrite String.eqb_refl. now rewrite orb_true_r.
Qed.

Lemma columns_assign_incl (c : string) (f : Row -> Row) (df : DataFrame) :
  incl (columns df) (columns (Frame.assign c f df)).
Proof.
  unfold Frame.assign. cbn [columns]. destruct (Frame.has c df).
  - apply incl_refl.
  - apply incl_appl, incl_refl.
Qed.

Lemma sum_cells_app (l1 l2 : list (option Z)) :
  Frame.sum_cells (l1 ++ l2) = Frame.sum_cells l1 + Frame.sum_cells l2.
Proof.
  unfold Frame.sum_cells.
  induction l1 as [|v l1 IH]; cbn [fold_right app]; [reflexivity |].
  rewrite IH. lia.
Qed.

Lemma sum_cells_cons (v : option Z) (l : list (option Z)) :
  Frame.sum_cells (v :: l) = Frame.cell_value v + Frame.sum_cells l.
Proof. reflexivity. Qed.

Lemma cell_eq_iff (v : option string) (s : string) :
  Frame.cell_eq v s = true <-> v = Some s.
Proof.
  destruct v as [x|]; cbn.
  - rewrite String.eqb_eq. split; congruence.
  - split; discriminate.
Qed.

End FrameFacts.

(* ================================================================== *)
(** * The dataset loader: transactions *)
(* ================================================================== *)

Section Loader.

Import Data.

Lemma load_tx_rows (tx : DataFrame) :
  rows (load_tx tx) =
  filter (fun r => notna (signed_amount r))
         (map (Rowwise.tx_row (Frame.has "Short_CLASS" tx) (Frame.has "CLASS" tx))
              (rows tx)).
Proof.
  unfold load_tx. cbv zeta.
  rewrite !has_assign_other by reflexivity.
  destruct (Frame.has "Short_CLASS" tx);
    rewrite !has_assign_other by reflexivity;
    destruct (Frame.has "CLASS" tx);
    unfold Frame.where_rows; cbn [rows]; rewrite ?rows_assign, ?map_map;
    reflexivity.
Qed.

Lemma load_tx_has_signed_amount (tx : DataFrame) :
  Frame.has "signed_amount" (load_tx tx) = true.
Proof.
  unfold load_tx. cbv zeta. unfold Frame.where_rows at 1.
  unfold Frame.has at 1. cbn [columns].
  apply has_assign_same.
Qed.

Lemma load_all_ok (txn : DataFrame) (budget : option DataFrame)
      (tx bd : DataFrame) :
  load_all txn budget = Ok (tx, bd) ->
  tx = load_tx (_norm_cols txn)
  /\ bd = match budget with
          | Some b => load_budget b
          | None => mkFrame ["year"; "account_group"; "budget_amount"] []
          end.
Proof.
  unfold load_all.
  destruct (negb (Frame.has "Date" (_norm_cols txn))
            || negb (Frame.has "AMOUNT" (_norm_cols txn))
            || negb (Frame.has "REVENUE/EXPENSES" (_norm_cols txn)));
    [discriminate |].
  intros E. now inversion E.
Qed.

(** The text cells of a derived row are those the classifier saw. *)
Lemma tx_row_group (hs hc : bool) (r : Row) :
  account_group (Rowwise.tx_row hs hc r) = _infer_group (Rowwise.tx_row hs hc r).
Proof. destruct hs, hc; reflexivity. Qed.

Lemma tx_row_AMOUNT (hs hc : bool) (r : Row) :
  AMOUNT (Rowwise.tx_row hs hc r) = AMOUNT r.
Proof. destruct hs, hc; reflexivity. Qed.

Lemma tx_row_signed (hs hc : bool) (r : Row) :
  signed_amount (Rowwise.tx_row hs hc r) =
  match account_group (Rowwise.tx_row hs hc r) with
  | Some g =>
      if (g =? "Revenue")%string then abs_cell (AMOUNT r)
      else if (g =? "COGS")%string || (g =? "OPEX")%string
           then neg_cell (abs_cell (AMOUNT r))
           else None
  | None => None
  end.
Proof. destruct hs, hc; cbn; destruct (_infer_group _); reflexivity. Qed.

Lemma tx_row_period (hs hc : bool) (r : Row) :
  year (Rowwise.tx_row hs hc r) = option_map ts_year (Date r)
  /\ month (Rowwise.tx_row hs hc r)
     = option_map (fun t => month_number (ts_month t)) (Date r).
Proof. destruct hs, hc; split; reflexivity. Qed.

(** The amount and group of a row that [load_all] keeps. *)
Lemma kept_row_shape (hs hc : bool) (r0 : Row) :
  let r := Rowwise.tx_row hs hc r0 in
  notna (signed_amount r) = true ->
  exists a : Z,
    AMOUNT r = Some a
    /\ ((account_group r = Some "Revenue" /\ signed_amount r = Some (Z.abs a))
        \/ ((account_group r = Some "COGS" \/ account_group r = Some "OPEX")
            /\ signed_amount r = Some (- Z.abs a))).
Proof.
  intros r Hkeep. subst r.
  rewrite tx_row_signed in *. rewrite tx_row_AMOUNT.
  destruct (account_group (Rowwise.tx_row hs hc r0)) as [g|] eqn:Hg;
    [| discriminate].
  rewrite tx_row_group in Hg. apply infer_group_range in Hg.
  destruct (AMOUNT r0) as [a|].
  - exists a. split; [reflexivity |].
    destruct Hg as [-> | [-> | ->]]; cbn; auto.
  - destruct Hg as [-> | [-> | ->]]; discriminate.
Qed.

(** A row of the table [load_all] returns is a sheet row with its derived
    cells, and has a signed amount. *)
Lemma load_all_kept_rows (txn : DataFrame) (budget : option DataFrame)
      (tx bd : DataFrame) (r : Row) :
  load_all txn budget = Ok (tx, bd) ->
  In r (rows tx) ->
  exists r0,
    In r0 (rows txn)
    /\ r = Rowwise.tx_row (Frame.has "Short_CLASS" (_norm_cols txn))
                          (Frame.has "CLASS" (_norm_cols txn)) r0
    /\ notna (signed_amount r) = true.
Proof.
  intros Hload Hin. apply load_all_ok in Hload. destruct Hload as [-> _].
  rewrite load_tx_rows in Hin. apply filter_In in Hin.
  destruct Hin as [Hin Hkeep]. apply in_map_iff in Hin.
  destruct Hin as [r0 [<- Hin0]]. exists r0. auto.
Qed.

(** The table [load_all] returns has a signed_amount column. *)
Lemma load_all_has_signed_amount (txn : DataFrame) (budget : option DataFrame)
      (tx bd : DataFrame) :
  load_all txn budget = Ok (tx, bd) -> Frame.has "signed_amount" tx = true.
Proof.
  intros Hload. apply load_all_ok in Hload. destruct Hload as [-> _].
  apply load_tx_has_signed_amount.
Qed.

(** C2, as stated, fails on a zero amount: the row is kept with a signed
    amount of 0, whose sign is 0 and not +1. *)
Lemma zero_amount_has_no_sign :
  exists tx bd r,
    load_all Sample.zero_revenue None = Ok (tx, bd)
    /\ In r (rows tx)
    /\ account_group r = Some "Revenue"
    /\ signed_amount r = Some 0
    /\ Z.sgn 0 <> 1.
Proof.
  eexists _, _, _. split; [reflexivity |].
  split; [left; reflexivity |].
  repeat split. discriminate.
Qed.

(** C2, amended: every row of the transaction table [load_all] returns has
    a group among Revenue, COGS and OPEX, the one the classifier gives it,
    and a signed amount equal to +|AMOUNT| for Revenue and to -|AMOUNT| for
    COGS and OPEX; so its magnitude is |AMOUNT| and its sign is +1,
    respectively -1, whenever AMOUNT is not zero.  The table is the sheet,
    row by row and in order, without the rows that got no signed amount,
    and a row whose group is null gets none. *)
Theorem load_all_signed_amounts (txn : DataFrame) (budget : option DataFrame)
        (tx bd : DataFrame) :
  load_all txn budget = Ok (tx, bd) ->
  (forall r, In r (rows tx) ->
     account_group r = _infer_group r
     /\ exists a s : Z,
         AMOUNT r = Some a /\ signed_amount r = Some s
         /\ Z.abs s = Z.abs a
         /\ ((account_group r = Some "Revenue"
              /\ s = Z.abs a /\ (a <> 0 -> Z.sgn s = 1))
             \/ ((account_group r = Some "COGS" \/ account_group r = Some "OPEX")
                 /\ s = - Z.abs a /\ (a <> 0 -> Z.sgn s = -1))))
  /\ (let sheet := _norm_cols txn in
      let derive := Rowwise.tx_row (Frame.has "Short_CLASS" sheet)
                                   (Frame.has "CLASS" sheet) in
      rows tx = filter (fun r => notna (signed_amount r))
                       (map derive (rows txn))
      /\ forall r0, account_group (derive r0) = None ->
                    signed_amount (derive r0) = None).
Proof.
  intros Hload. apply load_all_ok in Hload. destruct Hload as [-> _].
  rewrite load_tx_rows. cbn [rows _norm_cols]. split.
  - intros r Hin. apply filter_In in Hin. destruct Hin as [Hin Hkeep].
    apply in_map_iff in Hin. destruct Hin as [r0 [<- _]].
    split; [apply tx_row_group |].
    destruct (kept_row_shape _ _ r0 Hkeep) as [a [Ha Hcase]].
    destruct Hcase as [[Hg Hs] | [Hg Hs]].
    + exists a, (Z.abs a). repeat split; auto; try lia.
      left. repeat split; auto. lia.
    + exists a, (- Z.abs a). repeat split; auto; try lia.
      right. repeat split; auto. lia.
  - split; [reflexivity |].
    intros r0 Hnone. rewrite tx_row_signed, Hnone. reflexivity.
Qed.

(** A sheet without one of the three required columns is refused. *)
Lemma load_all_requires_columns (txn : DataFrame) (budget : option DataFrame) :
  Frame.has "Date" (_norm_cols txn) = false
  \/ Frame.has "AMOUNT" (_norm_cols txn) = false
  \/ Frame.has "REVENUE/EXPENSES" (_norm_cols txn) = false ->
  exists msg, load_all txn budget = Raise (ValueError msg).
Proof.
  intros H. unfold load_all.
  destruct H as [-> | [-> | ->]]; cbn [negb orb];
    rewrite ?orb_true_r; eexists; reflexivity.
Qed.

End Loader.

Section LoaderWitness.

Lemma load_all_signed_amounts_witness :
  exists tx bd,
    Data.load_all (Sample.scenario 3 10 28) None = Ok (tx, bd)
    /\ forall r, In r (rows tx) -> account_group r = Data._infer_group r.
Proof.
  eexists _, _. split; [reflexivity |].
  intros r Hin.
  exact (proj1 (proj1 (load_all_signed_amounts
                         (Sample.scenario 3 10 28) None _ _ eq_refl) r Hin)).
Defined.

End LoaderWitness.

(* ================================================================== *)
(** * Grouping: keys and sums *)
(* ================================================================== *)

#[export] Instance OrdEq_Z : OrdEq Z.
Proof. intros a b. apply Z.compare_eq_iff. Qed.

#[export] Instance OrdEq_string : OrdEq string.
Proof.
  intros a b. split.
  - apply String.compare_eq_iff.
  - intros ->. unfold cmp, Ord_string.
    pose proof (String.compare_antisym b b) as E.
    destruct (String.compare b b); cbn in E; congruence.
Qed.

#[export] Instance OrdEq_pair {A B : Type} `{OrdEq A} `{OrdEq B} : OrdEq (A * B).
Proof.
  intros [a b] [a' b']. unfold cmp, Ord_pair. cbn [fst snd].
  destruct (cmp a a') eqn:Ea.
  - apply cmp_eq in Ea. subst a'. rewrite cmp_eq. split; congruence.
  - split; [discriminate |]. intros E. inversion E; subst.
    assert (cmp a' a' = Eq) by now apply cmp_eq. congruence.
  - split; [discriminate |]. intros E. inversion E; subst.
    assert (cmp a' a' = Eq) by now apply cmp_eq. congruence.
Qed.

#[export] Instance OrdEq_option {A : Type} `{OrdEq A} : OrdEq (option A).
Proof.
  intros [a|] [b|]; unfold cmp, Ord_option.
  - rewrite cmp_eq. split; congruence.
  - split; discriminate.
  - split; discriminate.
  - split; reflexivity.
Qed.

Section GroupFacts.
Context {K : Type} `{OrdEq K}.

Lemma same_iff (a b : K) : Group.same a b = true <-> a = b.
Proof.
  unfold Group.same. rewrite <- cmp_eq.
  destruct (cmp a b); split; congruence.
Qed.

Lemma same_refl (a : K) : Group.same a a = true.
Proof. now apply same_iff. Qed.

Lemma in_insert_key (x k : K) (l : list K) :
  In x (Group.insert_key k l) <-> x = k \/ In x l.
Proof.
  induction l as [|h t IH]; cbn.
  - intuition.
  - destruct (cmp k h) eqn:E; cbn.
    + apply cmp_eq in E. subst h. intuition.
    + intuition.
    + rewrite IH. intuition.
Qed.

Lemma in_sorted_keys (x : K) (l : list K) :
  In x (Group.sorted_keys l) <-> In x l.
Proof.
  unfold Group.sorted_keys. induction l as [|k l IH]; cbn.
  - tauto.
  - rewrite in_insert_key, IH. intuition.
Qed.

Lemma in_present_keys (key : Row -> option K) (k : K) (rs : list Row) :
  In k (Group.present_keys key rs) <-> exists r, In r rs /\ key r = Some k.
Proof.
  induction rs as [|r t IH]; cbn.
  - split; [tauto | intros [? [[] _]]].
  - destruct (key r) as [k'|] eqn:E; cbn; rewrite IH; split.
    + intros [-> | [r' [Hin Hk]]]; eauto.
    + intros [r' [[-> | Hin] Hk]]; [left; congruence | eauto].
    + intros [r' [Hin Hk]]; eauto.
    + intros [r' [[-> | Hin] Hk]]; [congruence | eauto].
Qed.

Lemma in_group_iff (key : Row -> option K) (k : K) (r : Row) :
  Group.in_group key k r = true <-> key r = Some k.
Proof.
  unfold Group.in_group. destruct (key r) as [k'|].
  - rewrite same_iff. split; congruence.
  - split; discriminate.
Qed.

(** The distinct keys of the groups are the keys of the rows. *)
Lemma groupby_sum_keys (key : Row -> option K) (col : Row -> option Z)
      (rs : list Row) (k : K) :
  In k (map fst (Group.groupby_sum key col rs))
  <-> exists r, In r rs /\ key r = Some k.
Proof.
  unfold Group.groupby_sum. rewrite map_map. cbn [fst]. rewrite map_id.
  now rewrite in_sorted_keys, in_present_keys.
Qed.

(** Each entry carries the sum of the column over the rows of its key. *)
Lemma groupby_sum_entry (key : Row -> option K) (col : Row -> option Z)
      (rs : list Row) (k : K) (v : Z) :
  In (k, v) (Group.groupby_sum key col rs) ->
  v = Frame.sum_cells (map col (filter (Group.in_group key k) rs)).
Proof.
  unfold Group.groupby_sum. rewrite in_map_iff.
  intros [k' [E _]]. now inversion E.
Qed.

Lemma lookup_keyed (F : K -> Z) (k : K) (ks : list K) :
  Group.lookup k (map (fun k' => (k', F k')) ks) =
  if existsb (fun k' => Group.same k' k) ks then Some (F k) else None.
Proof.
  induction ks as [|h t IH]; cbn; [reflexivity |].
  destruct (Group.same h k) eqn:E; cbn.
  - apply same_iff in E. now subst.
  - exact IH.
Qed.

(** Looking a key up in a grouped table gives the sum of its group, or
    nothing when no row has the key; in both cases the sum of the column
    over the rows of the key, an empty sum in the second. *)
Lemma lookup_groupby_sum (key : Row -> option K) (col : Row -> option Z)
      (rs : list Row) (k : K) :
  match Group.lookup k (Group.groupby_sum key col rs) with
  | Some v => v
  | None => 0
  end = Frame.sum_cells (map col (filter (Group.in_group key k) rs)).
Proof.
  unfold Group.groupby_sum.
  rewrite (lookup_keyed
             (fun k' => Frame.sum_cells
                          (map col (filter (Group.in_group key k') rs)))).
  destruct (existsb _ _) eqn:E; [reflexivity |].
  assert (Hnone : forall r, In r rs -> Group.in_group key k r = false).
  { intros r Hin. destruct (Group.in_group key k r) eqn:Hg; [| reflexivity].
    apply in_group_iff in Hg.
    assert (Hk : In k (Group.sorted_keys (Group.present_keys key rs))).
    { apply in_sorted_keys, in_present_keys. eauto. }
    assert (existsb (fun k' => Group.same k' k)
                    (Group.sorted_keys (Group.present_keys key rs)) = true).
    { apply existsb_exists. exists k. split; [exact Hk | apply same_refl]. }
    congruence. }
  clear E. induction rs as [|r t IH]; cbn; [reflexivity |].
  rewrite (Hnone r) by (now left). apply IH.
  intros r' Hin. apply Hnone. now right.
Qed.

End GroupFacts.

#[export] Instance OrdStrict_Z : OrdStrict Z.
Proof.
  split.
  - intros a b. apply Z.compare_antisym.
  - intros a b c. unfold cmp, Ord_Z. rewrite !Z.compare_lt_iff. lia.
Qed.

#[export] Instance OrdStrict_pair {A B : Type} `{OrdEq A} `{OrdEq B}
  {SA : OrdStrict A} {SB : OrdStrict B} : OrdStrict (A * B).
Proof.
  split.
  - intros [a b] [a' b']. unfold cmp, Ord_pair. cbn [fst snd].
    rewrite (cmp_antisym a a'). destruct (cmp a a'); cbn; auto.
    apply cmp_antisym.
  - intros [a1 b1] [a2 b2] [a3 b3]. unfold cmp, Ord_pair. cbn [fst snd].
    destruct (cmp a1 a2) eqn:E12; try discriminate;
      destruct (cmp a2 a3) eqn:E23; try discriminate; intros H12 H23.
    + apply cmp_eq in E12, E23. subst.
      assert (E : cmp a3 a3 = Eq) by now apply cmp_eq.
      rewrite E. eapply cmp_trans; eauto.
    + apply cmp_eq in E12. subst. now rewrite E23.
    + apply cmp_eq in E23. subst. now rewrite E12.
    + now rewrite (cmp_trans _ _ _ E12 E23).
Qed.

Section SortedKeys.
Context {K : Type} `{OrdEq K} {S : OrdStrict K}.

Lemma key_lt_irrefl (a : K) : ~ key_lt a a.
Proof.
  unfold key_lt. assert (cmp a a = Eq) by now apply cmp_eq. congruence.
Qed.

Lemma Forall_insert_key (P : K -> Prop) (k : K) (l : list K) :
  P k -> Forall P l -> Forall P (Group.insert_key k l).
Proof.
  intros Hk Hl. induction Hl as [|h t Hh Ht IH]; cbn.
  - constructor; [assumption | constructor].
  - destruct (cmp k h); repeat constructor; assumption.
Qed.

Lemma insert_key_sorted (k : K) (l : list K) :
  StronglySorted key_lt l -> StronglySorted key_lt (Group.insert_key k l).
Proof.
  induction 1 as [|h t Hs IH Hh]; cbn.
  - repeat constructor.
  - destruct (cmp k h) eqn:E.
    + now constructor.
    + constructor; [now constructor |].
      constructor; [exact E |].
      eapply Forall_impl; [| exact Hh].
      intros x Hx. exact (cmp_trans _ _ _ E Hx).
    + constructor; [exact IH |].
      apply Forall_insert_key; [| exact Hh].
      unfold key_lt. rewrite (cmp_antisym k h), E. reflexivity.
Qed.

Lemma sorted_keys_sorted (l : list K) :
  StronglySorted key_lt (Group.sorted_keys l).
Proof.
  unfold Group.sorted_keys. induction l as [|k l IH]; cbn.
  - constructor.
  - now apply insert_key_sorted.
Qed.

Lemma sorted_NoDup (l : list K) : StronglySorted key_lt l -> NoDup l.
Proof.
  induction 1 as [|h t Hs IH Hh]; constructor; [| assumption].
  intros Hin. rewrite Forall_forall in Hh.
  exact (key_lt_irrefl h (Hh h Hin)).
Qed.

Lemma sorted_keys_NoDup (l : list K) : NoDup (Group.sorted_keys l).
Proof. apply sorted_NoDup, sorted_keys_sorted. Qed.

End SortedKeys.

(* ================================================================== *)
(** * Key performance indicators *)
(* ================================================================== *)

Section Kpis.

Import Metrics.

Lemma group_sum_signed_total (g : string) (df : DataFrame) :
  group_sum g df = Spec.signed_total g (rows df).
Proof.
  unfold group_sum. induction (rows df) as [|r t IH]; cbn [filter Spec.signed_total].
  - reflexivity.
  - destruct (Frame.cell_eq (account_group r) g); cbn [map].
    + rewrite sum_cells_cons, IH. reflexivity.
    + rewrite IH. reflexivity.
Qed.

(** C3: the revenue of [kpis] is the sum of the signed amounts of the
    Revenue rows, its gross profit adds the sum over the COGS rows, and its
    EBIT adds the sum over the OPEX rows; on the three January 2024 rows of
    the scenario (revenue 1000, COS expense 400, G&A expense 200), loaded
    by [load_all], it gives 1000, 600 and 400. *)
Theorem kpis_formulas :
  (forall df : DataFrame,
      Revenue (kpis df) = Spec.signed_total "Revenue" (rows df)
      /\ Gross_Profit (kpis df)
         = Revenue (kpis df) + Spec.signed_total "COGS" (rows df)
      /\ EBIT (kpis df)
         = Gross_Profit (kpis df) + Spec.signed_total "OPEX" (rows df))
  /\ (forall d1 d2 d3 : Z,
         exists tx bd,
           Data.load_all (Sample.scenario d1 d2 d3) None = Ok (tx, bd)
           /\ kpis tx = mkKPIs 1000 600 400).
Proof.
  split.
  - intros df. unfold kpis. cbn [Revenue Gross_Profit EBIT].
    rewrite !group_sum_signed_total. auto.
  - intros d1 d2 d3. eexists _, _. split; reflexivity.
Qed.

(** X7: EBIT is the plain sum of the signed amounts when every row is in
    one of the three groups. *)
Lemma kpis_EBIT_additive (df : DataFrame) :
  (forall r, In r (rows df) ->
     account_group r = Some "Revenue" \/ account_group r = Some "COGS"
     \/ account_group r = Some "OPEX") ->
  EBIT (kpis df) = Frame.sum_cells (map signed_amount (rows df)).
Proof.
  intros Hgroups. unfold kpis. cbn [EBIT].
  rewrite !group_sum_signed_total.
  induction (rows df) as [|r t IH]; [reflexivity |].
  cbn [Spec.signed_total map]. rewrite sum_cells_cons.
  rewrite <- IH by (intros r' Hin; apply Hgroups; now right).
  destruct (Hgroups r (or_introl eq_refl)) as [E | [E | E]];
    rewrite E; cbn; lia.
Qed.

End Kpis.

(* ================================================================== *)
(** * The monthly pivot *)
(* ================================================================== *)

Section MonthlyPnl.

Import Metrics.

Lemma num_eq_iff (v : option Z) (n : Z) : App.num_eq v n = true <-> v = Some n.
Proof.
  destruct v as [x|]; cbn.
  - rewrite Z.eqb_eq. split; congruence.
  - split; discriminate.
Qed.

Lemma year_month_group_iff (r : Row) (y m : Z) (g : string) :
  year_month_group r = Some (y, m, g)
  <-> year r = Some y /\ month r = Some m /\ account_group r = Some g.
Proof.
  unfold year_month_group.
  destruct (year r), (month r), (account_group r); split;
    try discriminate; try (intros [? [? ?]]; discriminate).
  - intros E. now inversion E.
  - intros [E1 [E2 E3]]. congruence.
Qed.

Lemma in_group_year_month_group (y m : Z) (g : string) (r : Row) :
  Group.in_group year_month_group (y, m, g) r
  = App.num_eq (year r) y && App.num_eq (month r) m
    && Frame.cell_eq (account_group r) g.
Proof.
  apply eq_true_iff_eq.
  rewrite in_group_iff, year_month_group_iff, !andb_true_iff.
  rewrite !num_eq_iff, cell_eq_iff. tauto.
Qed.

Lemma group_cells_month_total (g : string) (y m : Z) (rs : list Row) :
  Frame.sum_cells
    (map signed_amount (filter (Group.in_group year_month_group (y, m, g)) rs))
  = Spec.month_total g y m rs.
Proof.
  induction rs as [|r t IH]; cbn [filter Spec.month_total]; [reflexivity |].
  rewrite in_group_year_month_group.
  destruct (App.num_eq (year r) y && App.num_eq (month r) m
            && Frame.cell_eq (account_group r) g); cbn [map].
  - now rewrite sum_cells_cons, IH.
  - now rewrite IH.
Qed.

(** A month without a row of the group has a total of zero. *)
Lemma month_total_absent (g : string) (y m : Z) (rs : list Row) :
  (forall r, In r rs ->
     ~ (year r = Some y /\ month r = Some m /\ account_group r = Some g)) ->
  Spec.month_total g y m rs = 0.
Proof.
  induction rs as [|r t IH]; intros Habs; cbn [Spec.month_total]; [reflexivity |].
  rewrite IH by (intros r' Hin; apply Habs; now right).
  destruct (App.num_eq (year r) y && App.num_eq (month r) m
            && Frame.cell_eq (account_group r) g) eqn:E; [| reflexivity].
  exfalso. apply (Habs r (or_introl eq_refl)).
  rewrite !andb_true_iff, !num_eq_iff, cell_eq_iff in E. tauto.
Qed.

Lemma pivot_has_column_iff (rs : list Row) (col : string) :
  pivot_has_column (Group.groupby_sum year_month_group signed_amount rs) col = true
  <-> exists r y m, In r rs /\ year_month_group r = Some (y, m, col).
Proof.
  unfold pivot_has_column. rewrite existsb_exists. split.
  - intros [[[[y m] g] v] [Hin E]]. cbn [fst snd] in E.
    apply String.eqb_eq in E. subst g.
    assert (Hk : In (y, m, col)
                    (map fst (Group.groupby_sum year_month_group signed_amount rs))).
    { apply in_map_iff. exists (y, m, col, v). auto. }
    apply groupby_sum_keys in Hk. destruct Hk as [r [Hr Hkey]]. eauto.
  - intros [r [y [m [Hr Hkey]]]].
    assert (Hk : In (y, m, col)
                    (map fst (Group.groupby_sum year_month_group signed_amount rs))).
    { apply groupby_sum_keys. eauto. }
    apply in_map_iff in Hk. destruct Hk as [[k v] [Ek Hin]]. cbn in Ek. subst k.
    exists (y, m, col, v). split; [exact Hin | apply String.eqb_refl].
Qed.

(** A cell of the pivot, after the missing columns have been added, is the
    total of its group over its month. *)
Lemma pivot_column_value (rs : list Row) (col : string) (ym : Z * Z) :
  (if pivot_has_column (Group.groupby_sum year_month_group signed_amount rs) col
   then pivot_cell (Group.groupby_sum year_month_group signed_amount rs) ym col
   else 0)
  = Spec.month_total col (fst ym) (snd ym) rs.
Proof.
  destruct ym as [y m]. cbn [fst snd].
  destruct (pivot_has_column _ col) eqn:E.
  - unfold pivot_cell. rewrite lookup_groupby_sum.
    apply group_cells_month_total.
  - symmetry. apply month_total_absent. intros r Hin Hrow.
    apply year_month_group_iff in Hrow.
    assert (pivot_has_column
              (Group.groupby_sum year_month_group signed_amount rs) col = true)
      by (apply pivot_has_column_iff; eauto).
    congruence.
Qed.

Lemma in_pivot_index (rs : list Row) (y m : Z) :
  In (y, m) (pivot_index rs)
  <-> exists r g, In r rs /\ year r = Some y /\ month r = Some m
                  /\ account_group r = Some g.
Proof.
  unfold pivot_index. rewrite in_sorted_keys, in_map_iff. split.
  - intros [[[[y' m'] g] v] [E Hin]]. cbn in E. inversion E; subst.
    assert (Hk : In (y, m, g)
                    (map fst (Group.groupby_sum year_month_group signed_amount rs))).
    { apply in_map_iff. exists (y, m, g, v). auto. }
    apply groupby_sum_keys in Hk. destruct Hk as [r [Hr Hkey]].
    apply year_month_group_iff in Hkey. exists r, g. tauto.
  - intros [r [g [Hr Hrow]]]. apply year_month_group_iff in Hrow.
    assert (Hk : In (y, m, g)
                    (map fst (Group.groupby_sum year_month_group signed_amount rs))).
    { apply groupby_sum_keys. eauto. }
    apply in_map_iff in Hk. destruct Hk as [[k v] [Ek Hin]]. cbn in Ek. subst k.
    exists (y, m, g, v). auto.
Qed.

Lemma monthly_pnl_rows (df : DataFrame) :
  monthly_pnl df = map (pivot_row (rows df)) (pivot_index (rows df)).
Proof.
  unfold monthly_pnl, pivot_index. cbv zeta.
  apply map_ext. intros ym. unfold pivot_row.
  now rewrite !pivot_column_value.
Qed.

Lemma monthly_pnl_periods (df : DataFrame) :
  map Spec.period (monthly_pnl df) = pivot_index (rows df).
Proof.
  rewrite monthly_pnl_rows, map_map.
  rewrite <- (map_id (pivot_index (rows df))) at 2.
  apply map_ext. intros [y m]. reflexivity.
Qed.

Lemma key_lt_earlier (a b : Z * Z) : key_lt a b <-> Spec.earlier a b.
Proof.
  destruct a as [y m], b as [y' m'].
  unfold key_lt, Spec.earlier, cmp, Ord_pair, cmp, Ord_Z. cbn [fst snd].
  destruct (Z.compare_spec y y') as [E | E | E].
  - rewrite Z.compare_lt_iff. lia.
  - split; [intros _; lia | reflexivity].
  - split; [discriminate | lia].
Qed.

Lemma pivot_index_sorted (rs : list Row) :
  StronglySorted Spec.earlier (pivot_index rs).
Proof.
  assert (Hs : StronglySorted key_lt (pivot_index rs))
    by apply sorted_keys_sorted.
  induction Hs as [|k l Hs IH Hk]; constructor; [assumption |].
  eapply Forall_impl; [| exact Hk]. intros b. apply key_lt_earlier.
Qed.

End MonthlyPnl.

Section YearTotals.

Import Metrics.

Lemma year_columns_nil (g : string) (y : Z) (ks : list (Z * Z)) :
  year_columns g y [] ks = 0.
Proof.
  unfold year_columns. induction ks as [|k ks IH]; cbn [fold_right]; [reflexivity |].
  rewrite IH. cbn [Spec.month_total]. now destruct (fst k =? y).
Qed.

Lemma year_columns_cons (g : string) (y : Z) (r : Row) (t : list Row)
      (ks : list (Z * Z)) :
  year_columns g y (r :: t) ks =
  fold_right (fun k acc => (if Z.eqb (fst k) y then row_share g r k else 0) + acc)
             0 ks
  + year_columns g y t ks.
Proof.
  unfold year_columns. induction ks as [|k ks IH]; cbn [fold_right]; [reflexivity |].
  rewrite IH. cbn [Spec.month_total]. unfold row_share.
  destruct (fst k =? y); lia.
Qed.

Lemma row_share_elsewhere (g : string) (y : Z) (r : Row) (ks : list (Z * Z)) :
  (forall k, In k ks -> fst k = y -> row_share g r k = 0) ->
  fold_right (fun k acc => (if Z.eqb (fst k) y then row_share g r k else 0) + acc)
             0 ks = 0.
Proof.
  induction ks as [|k ks IH]; intros Hz; cbn [fold_right]; [reflexivity |].
  rewrite IH by (intros k' Hin; apply Hz; now right).
  destruct (Z.eqb_spec (fst k) y) as [E | E]; [| reflexivity].
  rewrite (Hz k (or_introl eq_refl) E). reflexivity.
Qed.

Lemma row_share_once (g : string) (y m : Z) (r : Row) (ks : list (Z * Z)) :
  NoDup ks -> In (y, m) ks ->
  year r = Some y -> month r = Some m -> account_group r = Some g ->
  fold_right (fun k acc => (if Z.eqb (fst k) y then row_share g r k else 0) + acc)
             0 ks = Frame.cell_value (signed_amount r).
Proof.
  intros Hnd Hin Hy Hm Hg.
  assert (Hshare : forall k, row_share g r k
                             = if Z.eqb (fst k) y && Z.eqb (snd k) m
                               then Frame.cell_value (signed_amount r) else 0).
  { intros k. unfold row_share. rewrite Hy, Hm, Hg. cbn.
    rewrite String.eqb_refl, andb_true_r.
    now rewrite (Z.eqb_sym y), (Z.eqb_sym m). }
  induction Hnd as [|k ks Hk Hnd IH]; [contradiction |].
  cbn [fold_right]. destruct Hin as [-> | Hin].
  - cbn [fst]. rewrite Z.eqb_refl, Hshare. cbn [fst snd]. rewrite !Z.eqb_refl.
    cbn [andb]. rewrite row_share_elsewhere; [lia |].
    intros [y' m'] Hin' E. cbn in E. subst y'. rewrite Hshare. cbn [fst snd].
    rewrite Z.eqb_refl. cbn [andb].
    destruct (Z.eqb_spec m' m) as [-> | _]; [contradiction | reflexivity].
  - rewrite IH by assumption.
    destruct (Z.eqb_spec (fst k) y) as [E | E]; [| lia].
    rewrite Hshare, E, Z.eqb_refl. cbn [andb].
    destruct (Z.eqb_spec (snd k) m) as [E' | _]; [| lia].
    exfalso. apply Hk. destruct k as [y' m']. cbn in E, E'. now subst.
Qed.

(** Summed over the periods of a year, the monthly totals of a group give
    its total over the rows of the year. *)
Lemma year_columns_total (g : string) (y : Z) (rs : list Row) (ks : list (Z * Z)) :
  NoDup ks ->
  (forall r, In r rs -> year r = Some y -> account_group r = Some g ->
             exists m, month r = Some m /\ In (y, m) ks) ->
  year_columns g y rs ks
  = Spec.signed_total g (filter (fun r => App.num_eq (year r) y) rs).
Proof.
  intros Hnd. induction rs as [|r t IH]; intros Hcov.
  - apply year_columns_nil.
  - rewrite year_columns_cons, IH by (intros r' Hin; apply Hcov; now right).
    cbn [filter].
    destruct (App.num_eq (year r) y) eqn:Ey.
    + apply num_eq_iff in Ey. cbn [Spec.signed_total].
      destruct (Frame.cell_eq (account_group r) g) eqn:Eg.
      * apply cell_eq_iff in Eg.
        destruct (Hcov r (or_introl eq_refl) Ey Eg) as [m [Hm Hin]].
        now rewrite (row_share_once g y m r ks).
      * rewrite row_share_elsewhere; [reflexivity |].
        intros k _ _. unfold row_share. rewrite Eg.
        now rewrite andb_false_r.
    + rewrite row_share_elsewhere; [lia |].
      intros k _ E. unfold row_share. rewrite E, Ey. reflexivity.
Qed.

Lemma column_sum_of_year (col : PivotRow -> Z) (g : string) (y : Z)
      (rs : list Row) (ks : list (Z * Z)) :
  (forall k, col (pivot_row rs k) = Spec.month_total g (fst k) (snd k) rs) ->
  Spec.column_sum col (Spec.of_year y (map (pivot_row rs) ks))
  = year_columns g y rs ks.
Proof.
  intros Hcol. unfold Spec.column_sum, Spec.of_year, year_columns.
  induction ks as [|k ks IH]; cbn [map filter fold_right]; [reflexivity |].
  change (pv_year (pivot_row rs k)) with (fst k).
  destruct (fst k =? y); cbn [fold_right]; rewrite IH, ?Hcol; reflexivity.
Qed.

End YearTotals.

Section CanonicalTable.

Import Metrics.

Lemma month_number_range (m : Month) : 1 <= month_number m <= 12.
Proof. destruct m; cbn; lia. Qed.

(** Every row [load_all] keeps has a group, and a month of the calendar
    whenever it has a year: both periods come from the same date. *)
Lemma load_all_rows_canonical (txn : DataFrame) (budget : option DataFrame)
      (tx bd : DataFrame) (r : Row) :
  Data.load_all txn budget = Ok (tx, bd) ->
  In r (rows tx) ->
  (exists g, account_group r = Some g) /\ Spec.valid_period r = true.
Proof.
  intros Hload Hin.
  destruct (load_all_kept_rows _ _ _ _ r Hload Hin) as [r0 [_ [-> Hkeep]]].
  split.
  - destruct (kept_row_shape _ _ r0 Hkeep) as [a [_ [[Hg _] | [[Hg | Hg] _]]]];
      eauto.
  - unfold Spec.valid_period.
    destruct (tx_row_period (Frame.has "Short_CLASS" (Data._norm_cols txn))
                            (Frame.has "CLASS" (Data._norm_cols txn)) r0)
      as [-> ->].
    destruct (Date r0) as [t|]; cbn; [| reflexivity].
    pose proof (month_number_range (ts_month t)). lia.
Qed.

Lemma valid_period_month (r : Row) (y : Z) :
  Spec.valid_period r = true -> year r = Some y ->
  exists m, month r = Some m /\ 1 <= m <= 12.
Proof.
  unfold Spec.valid_period. intros Hv Hy. rewrite Hy in Hv.
  destruct (month r) as [m|]; [| discriminate].
  exists m. split; [reflexivity | lia].
Qed.

(** C4: for a slice [df] of the transaction table [load_all] returns, the
    monthly pivot has its rows in ascending (year, month) order, one per
    (year, month) of the slice; the Revenue, COGS and OPEX cells of a row are
    the totals of the group over the month, 0 when the month has no row of
    the group; Gross Profit is Revenue + COGS and EBIT is Gross Profit +
    OPEX; and over the rows of one year the Revenue, COGS and OPEX columns
    sum to the totals [kpis] computes on the slice of that year. *)
Theorem monthly_pnl_pivot (txn : DataFrame) (budget : option DataFrame)
        (tx bd df : DataFrame) :
  Data.load_all txn budget = Ok (tx, bd) ->
  incl (rows df) (rows tx) ->
  let pnl := monthly_pnl df in
  StronglySorted Spec.earlier (map Spec.period pnl)
  /\ (forall y m,
         In (y, m) (map Spec.period pnl)
         <-> exists r, In r (rows df) /\ year r = Some y /\ month r = Some m)
  /\ (forall p, In p pnl ->
        pv_Revenue p = Spec.month_total "Revenue" (pv_year p) (pv_month p) (rows df)
        /\ pv_COGS p = Spec.month_total "COGS" (pv_year p) (pv_month p) (rows df)
        /\ pv_OPEX p = Spec.month_total "OPEX" (pv_year p) (pv_month p) (rows df)
        /\ pv_Gross_Profit p = pv_Revenue p + pv_COGS p
        /\ pv_EBIT p = pv_Gross_Profit p + pv_OPEX p)
  /\ (forall p, In p pnl ->
        let absent g :=
          forall r, In r (rows df) -> year r = Some (pv_year p) ->
                    month r = Some (pv_month p) -> account_group r <> Some g in
        (absent "Revenue" -> pv_Revenue p = 0)
        /\ (absent "COGS" -> pv_COGS p = 0)
        /\ (absent "OPEX" -> pv_OPEX p = 0))
  /\ (forall y,
        let full_year := Frame.where_rows (fun r => App.num_eq (year r) y) df in
        let k := kpis full_year in
        Spec.column_sum pv_Revenue (Spec.of_year y pnl) = Revenue k
        /\ Spec.column_sum pv_COGS (Spec.of_year y pnl)
           = Gross_Profit k - Revenue k
        /\ Spec.column_sum pv_OPEX (Spec.of_year y pnl)
           = EBIT k - Gross_Profit k).
Proof.
  intros Hload Hslice pnl.
  assert (Hcanon : forall r, In r (rows df) ->
                     (exists g, account_group r = Some g)
                     /\ Spec.valid_period r = true).
  { intros r Hin. eapply load_all_rows_canonical; eauto. }
  assert (Hrows : forall p, In p pnl ->
                    exists ym, In ym (pivot_index (rows df))
                               /\ p = pivot_row (rows df) ym).
  { intros p Hp. unfold pnl in Hp. rewrite monthly_pnl_rows in Hp.
    apply in_map_iff in Hp. destruct Hp as [ym [<- Hin]]. eauto. }
  split; [| split; [| split; [| split]]].
  - unfold pnl. rewrite monthly_pnl_periods. apply pivot_index_sorted.
  - intros y m. unfold pnl. rewrite monthly_pnl_periods, in_pivot_index. split.
    + intros [r [g [Hin [Hy [Hm _]]]]]. eauto.
    + intros [r [Hin [Hy Hm]]].
      destruct (Hcanon r Hin) as [[g Hg] _]. exists r, g. auto.
  - intros p Hp. destruct (Hrows p Hp) as [ym [_ ->]].
    cbn. repeat split; reflexivity.
  - intros p Hp absent. destruct (Hrows p Hp) as [ym [_ ->]].
    unfold absent. cbn [pivot_row pv_Revenue pv_COGS pv_OPEX pv_year pv_month].
    repeat split; intros Habs; apply month_total_absent;
      intros r Hin [Hy [Hm Hg]]; exact (Habs r Hin Hy Hm Hg).
  - intros y full_year k.
    assert (Hsum : forall (col : PivotRow -> Z) (g : string),
               (forall ym, col (pivot_row (rows df) ym)
                           = Spec.month_total g (fst ym) (snd ym) (rows df)) ->
               Spec.column_sum col (Spec.of_year y pnl) = group_sum g full_year).
    { intros col g Hcol. unfold pnl. rewrite monthly_pnl_rows.
      rewrite (column_sum_of_year col g) by exact Hcol.
      rewrite group_sum_signed_total. apply year_columns_total.
      - apply (sorted_NoDup (pivot_index (rows df))), sorted_keys_sorted.
      - intros r Hin Hy Hg.
        destruct (Hcanon r Hin) as [_ Hv].
        destruct (valid_period_month r y Hv Hy) as [m [Hm _]].
        exists m. split; [exact Hm |]. apply in_pivot_index.
        exists r, g. auto. }
    unfold k, kpis. cbn [Revenue Gross_Profit EBIT].
    rewrite (Hsum pv_Revenue "Revenue"), (Hsum pv_COGS "COGS"),
      (Hsum pv_OPEX "OPEX") by reflexivity.
    repeat split; lia.
Qed.

Lemma monthly_pnl_pivot_witness :
  exists tx bd,
    Data.load_all (Sample.scenario 3 10 28) None = Ok (tx, bd)
    /\ StronglySorted Spec.earlier (map Spec.period (monthly_pnl tx)).
Proof.
  eexists _, _. split; [reflexivity |].
  exact (proj1 (monthly_pnl_pivot (Sample.scenario 3 10 28) None _ _ _
                                  eq_refl (incl_refl _))).
Defined.

End CanonicalTable.

(* ================================================================== *)
(** * Grouped sums add up *)
(* ================================================================== *)

#[export] Instance OrdStrict_string : OrdStrict string.
Proof.
  split.
  - intros a b. apply String.compare_antisym.
  - intros a b c. unfold cmp, Ord_string.
    change String.compare with String_as_OT.cmp.
    rewrite !String_as_OT.cmp_lt. apply String_as_OT.lt_trans.
Qed.

#[export] Instance OrdStrict_option {A : Type} `{Ord A} {SA : OrdStrict A} :
  OrdStrict (option A).
Proof.
  split.
  - intros [a|] [b|]; unfold cmp, Ord_option; try reflexivity.
    apply cmp_antisym.
  - intros [a|] [b|] [c|]; unfold cmp, Ord_option; try discriminate; auto.
    apply cmp_trans.
Qed.

Section GroupTotals.
Context {K : Type} `{OrdEq K} {S : OrdStrict K}.
Variable key : Row -> option K.
Variable col : Row -> option Z.

Let group_cells (rs : list Row) (k : K) : Z :=
  Frame.sum_cells (map col (filter (Group.in_group key k) rs)).

Let share (r : Row) (k : K) : Z :=
  if Group.in_group key k r then Frame.cell_value (col r) else 0.

Lemma group_cells_cons (r : Row) (t : list Row) (k : K) :
  group_cells (r :: t) k = share r k + group_cells t k.
Proof.
  unfold group_cells, share. cbn [filter].
  destruct (Group.in_group key k r); cbn [map]; rewrite ?sum_cells_cons; lia.
Qed.

Lemma sum_group_cells_cons (r : Row) (t : list Row) (ks : list K) :
  fold_right Z.add 0 (map (group_cells (r :: t)) ks)
  = fold_right Z.add 0 (map (share r) ks)
    + fold_right Z.add 0 (map (group_cells t) ks).
Proof.
  induction ks as [|k ks IH]; cbn [map fold_right]; [reflexivity |].
  rewrite IH, group_cells_cons. lia.
Qed.

Lemma share_nowhere (r : Row) (ks : list K) :
  (forall k, In k ks -> key r <> Some k) ->
  fold_right Z.add 0 (map (share r) ks) = 0.
Proof.
  induction ks as [|k ks IH]; intros Hno; cbn [map fold_right]; [reflexivity |].
  rewrite IH by (intros k' Hin; apply Hno; now right).
  unfold share. destruct (Group.in_group key k r) eqn:E; [| reflexivity].
  apply in_group_iff in E. exfalso. exact (Hno k (or_introl eq_refl) E).
Qed.

Lemma share_once (r : Row) (k0 : K) (ks : list K) :
  NoDup ks -> In k0 ks -> key r = Some k0 ->
  fold_right Z.add 0 (map (share r) ks) = Frame.cell_value (col r).
Proof.
  intros Hnd Hin Hk.
  induction Hnd as [|k ks Hnot Hnd IH]; [contradiction |].
  cbn [map fold_right]. destruct Hin as [-> | Hin].
  - unfold share at 1.
    assert (E : Group.in_group key k0 r = true) by now apply in_group_iff.
    rewrite E, share_nowhere; [lia |].
    intros k' Hin' Hk'. apply Hnot. congruence.
  - rewrite IH by assumption. unfold share.
    destruct (Group.in_group key k r) eqn:E; [| lia].
    apply in_group_iff in E. exfalso. apply Hnot. congruence.
Qed.

(** The sums of the groups add up to the sum of the column over the rows
    that have a key. *)
Lemma groupby_sum_total (rs : list Row) :
  fold_right Z.add 0 (map snd (Group.groupby_sum key col rs))
  = Frame.sum_cells (map col (filter (fun r => Data.notna (key r)) rs)).
Proof.
  unfold Group.groupby_sum. rewrite map_map. cbn [snd].
  change (fun k => Frame.sum_cells (map col (filter (Group.in_group key k) rs)))
    with (group_cells rs).
  assert (Hnd : NoDup (Group.sorted_keys (Group.present_keys key rs)))
    by apply sorted_keys_NoDup.
  assert (Hcov : forall r k, In r rs -> key r = Some k ->
                   In k (Group.sorted_keys (Group.present_keys key rs))).
  { intros r k Hin Hk. apply in_sorted_keys, in_present_keys. eauto. }
  revert Hnd Hcov.
  generalize (Group.sorted_keys (Group.present_keys key rs)) as ks.
  intros ks Hnd. induction rs as [|r t IH]; intros Hcov.
  - cbn [filter map]. clear. induction ks as [|k ks IH]; cbn; [reflexivity |].
    cbn in IH. now rewrite IH.
  - rewrite sum_group_cells_cons, IH by (intros r' k Hin; apply Hcov; now right).
    cbn [filter]. destruct (key r) as [k0|] eqn:E; cbn [Data.notna map].
    + rewrite sum_cells_cons.
      rewrite (share_once r k0 ks Hnd (Hcov r k0 (or_introl eq_refl) E) E).
      reflexivity.
    + rewrite share_nowhere; [reflexivity |]. intros k _. congruence.
Qed.

(** The groups have distinct keys. *)
Lemma groupby_sum_NoDup (rs : list Row) :
  NoDup (map fst (Group.groupby_sum key col rs)).
Proof.
  unfold Group.groupby_sum. rewrite map_map. cbn [fst]. rewrite map_id.
  apply sorted_keys_NoDup.
Qed.

End GroupTotals.

(** The table grouped by year, month and group has one entry per key, so
    the mean the pivot takes over the entries of a key is that entry. *)
Lemma monthly_groups_distinct (rs : list Row) :
  NoDup (map fst (Group.groupby_sum Metrics.year_month_group signed_amount rs)).
Proof. apply groupby_sum_NoDup. Qed.

(* ================================================================== *)
(** * Statement of profit and loss *)
(* ================================================================== *)

Section Statement.

Import App.

Lemma insert_desc_sum {K : Type} (e : K * Z) (l : list (K * Z)) :
  fold_right Z.add 0 (map snd (insert_desc e l))
  = snd e + fold_right Z.add 0 (map snd l).
Proof.
  induction l as [|h t IH]; cbn [insert_desc map fold_right]; [reflexivity |].
  destruct (snd h <=? snd e); cbn [map fold_right]; [reflexivity |].
  rewrite IH. lia.
Qed.

Lemma sort_desc_sum {K : Type} (l : list (K * Z)) :
  fold_right Z.add 0 (map snd (sort_desc l)) = fold_right Z.add 0 (map snd l).
Proof.
  unfold sort_desc. induction l as [|e l IH]; cbn [fold_right map]; [reflexivity |].
  now rewrite insert_desc_sum, IH.
Qed.

Lemma in_insert_desc {K : Type} (x e : K * Z) (l : list (K * Z)) :
  In x (insert_desc e l) <-> x = e \/ In x l.
Proof.
  induction l as [|h t IH]; cbn [insert_desc].
  - cbn. intuition.
  - destruct (snd h <=? snd e); cbn [In]; [intuition | rewrite IH; intuition].
Qed.

Lemma in_sort_desc {K : Type} (x : K * Z) (l : list (K * Z)) :
  In x (sort_desc l) <-> In x l.
Proof.
  unfold sort_desc. induction l as [|e l IH]; cbn [fold_right]; [tauto |].
  rewrite in_insert_desc, IH. cbn. intuition.
Qed.

Lemma subtotal_of_labelled {K : Type} (f : K -> string) (l : list (K * Z)) :
  subtotal_of (map (fun e => (f (fst e), snd e)) l)
  = fold_right Z.add 0 (map snd l).
Proof.
  unfold subtotal_of. induction l as [|e l IH]; cbn; [reflexivity |].
  cbn in IH. now rewrite IH.
Qed.

Lemma filter_all {A : Type} (f : A -> bool) (l : list A) :
  (forall x, In x l -> f x = true) -> filter f l = l.
Proof.
  induction l as [|a l IH]; intros Hall; cbn; [reflexivity |].
  rewrite (Hall a (or_introl eq_refl)), IH; [reflexivity |].
  intros x Hin. apply Hall. now right.
Qed.

(** The subtotal of a section is the sum of its lines, and that is the sum
    of the signed amounts of the rows of the group. *)
Lemma section_rows_subtotal (df : DataFrame) (g : string) :
  columns df <> [] ->
  snd (section_rows df g) = subtotal_of (fst (section_rows df g))
  /\ snd (section_rows df g) = Metrics.group_sum g df.
Proof.
  intros Hcols. unfold section_rows.
  destruct (Frame.empty (of_group g df)) eqn:Hempty; cbn [fst snd].
  - split; [reflexivity |]. unfold Metrics.group_sum.
    unfold Frame.empty, of_group, Frame.where_rows in Hempty. cbn [rows columns] in Hempty.
    destruct (filter _ (rows df)) eqn:Hf; [reflexivity |].
    destruct (columns df); [contradiction | discriminate].
  - split; [reflexivity |].
    rewrite (subtotal_of_labelled label), sort_desc_sum, groupby_sum_total.
    unfold account_key_keepna. rewrite filter_all by reflexivity.
    reflexivity.
Qed.

(** Each line of a section is the sum of the signed amounts of one account
    of the group. *)
Lemma section_rows_lines (df : DataFrame) (g lbl : string) (v : Z) :
  In (lbl, v) (fst (section_rows df g)) ->
  exists a : option string,
    lbl = label a
    /\ v = Frame.sum_cells
             (map signed_amount
                  (filter (Group.in_group account_key_keepna a)
                          (rows (of_group g df)))).
Proof.
  unfold section_rows.
  destruct (Frame.empty (of_group g df)); cbn [fst]; [contradiction |].
  rewrite in_map_iff. intros [[a v'] [E Hin]]. cbn in E. inversion E; subst.
  apply in_sort_desc, groupby_sum_entry in Hin. eauto.
Qed.

(** What the statement shows as gross profit and net profit, on any slice:
    the revenue total minus the signed COGS total, and that plus other
    income minus the signed OPEX total. *)
Lemma gross_profit_value (S : DataFrame) :
  columns S <> [] ->
  gross_profit S = Metrics.group_sum "Revenue" S - Metrics.group_sum "COGS" S
  /\ net_profit S = gross_profit S + other_total S - Metrics.group_sum "OPEX" S.
Proof.
  intros Hcols. unfold net_profit, gross_profit, rev_total, cogs_total, opex_total.
  rewrite !(proj2 (section_rows_subtotal S _ Hcols)). auto.
Qed.

(** The statement and [kpis] disagree by twice the COGS total. *)
Lemma gross_profit_against_kpis (S : DataFrame) :
  columns S <> [] ->
  gross_profit S
  = Metrics.Gross_Profit (Metrics.kpis S) - 2 * Metrics.group_sum "COGS" S.
Proof.
  intros Hcols. rewrite (proj1 (gross_profit_value S Hcols)).
  unfold Metrics.kpis. cbn [Metrics.Gross_Profit]. lia.
Qed.

(** C5 on the scenario of the specification (revenue 1000, cost of sales
    400, administrative expense 200, January 2024), viewed by year: the
    subtotals are 1000, -400 and -200 and there is no other income, so the
    claim asks for a gross profit of 1000 - |-400| = 600 and a net profit of
    600 + 0 - |-200| = 400, which are the figures of [kpis]; the statement
    subtracts the signed subtotals and shows 1400 and 1600. *)
Theorem statement_subtracts_signed_costs :
  exists tx bd,
    Data.load_all (Sample.scenario 3 10 28) None = Ok (tx, bd)
    /\ let S := slice_period tx 2024 "Year" None None in
       rev_total S = 1000 /\ cogs_total S = -400 /\ opex_total S = -200
       /\ other_total S = 0
       /\ gross_profit S = 1400 /\ net_profit S = 1600
       /\ rev_total S - Z.abs (cogs_total S) = 600
       /\ rev_total S - Z.abs (cogs_total S) + other_total S
          - Z.abs (opex_total S) = 400
       /\ Metrics.kpis S = Metrics.mkKPIs 1000 600 400.
Proof.
  eexists _, _. split; [reflexivity |].
  cbv zeta. repeat split; vm_compute; reflexivity.
Qed.

End Statement.

(* ================================================================== *)
(** * The dataset loader: budget *)
(* ================================================================== *)

Section Budget.

Import Data.

Lemma load_budget_rows (b : DataFrame) :
  let f := Rowwise.flags_of (_norm_cols b) in
  rows (load_budget b) =
  map budget_row
      (Group.groupby_sum year_group (Rowwise.budget_value f)
         (filter (fun r => notna (account_group r))
                 (map (Rowwise.budget_line f) (rows b)))).
Proof.
  unfold load_budget, Rowwise.flags_of. cbv zeta.
  set (b0 := _norm_cols b).
  replace (rows b) with (rows b0) by reflexivity.
  generalize b0. clear b b0. intros b.
  repeat (rewrite ?has_assign_other by reflexivity;
          match goal with
          | |- context [if Frame.has ?c b then _ else _] =>
              destruct (Frame.has c b)
          end).
  all: rewrite ?has_assign_other by reflexivity.
  all: repeat match goal with
         | |- context [Frame.has ?c ?d] => destruct (Frame.has c d)
         end.
  all: cbn [rows Frame.where_rows Frame.assign]; rewrite ?map_map; reflexivity.
Qed.

Lemma budget_line_group (f : Rowwise.budget_flags) (r : Row) :
  account_group (Rowwise.budget_line f r) = _infer_group (Rowwise.budget_line f r).
Proof. destruct f as [[] [] [] [] [] [] []]; reflexivity. Qed.

Lemma budget_row_cells (y : Z) (g : string) (v : Z) :
  year (budget_row (y, g, v)) = Some y
  /\ account_group (budget_row (y, g, v)) = Some g
  /\ budget_amount (budget_row (y, g, v)) = Some v
  /\ month (budget_row (y, g, v)) = None.
Proof. repeat split. Qed.

Lemma year_group_iff (r : Row) (y : Z) (g : string) :
  year_group r = Some (y, g) <-> year r = Some y /\ account_group r = Some g.
Proof.
  unfold year_group. destruct (year r), (account_group r); split;
    try discriminate; try (intros [? ?]; discriminate).
  - intros E. now inversion E.
  - intros [E1 E2]. congruence.
Qed.

Lemma in_group_year_group (y : Z) (g : string) (r : Row) :
  Group.in_group year_group (y, g) r
  = App.num_eq (year r) y && Frame.cell_eq (account_group r) g.
Proof.
  apply eq_true_iff_eq.
  rewrite in_group_iff, year_group_iff, andb_true_iff, num_eq_iff, cell_eq_iff.
  tauto.
Qed.

(** The cells of a group of lines, after the lines without a group have
    been dropped, sum to the total of the year and group. *)
Lemma group_cells_year_group_total (value : Row -> option Z) (y : Z) (g : string)
      (lines : list Row) :
  Frame.sum_cells
    (map value
         (filter (Group.in_group year_group (y, g))
                 (filter (fun r => notna (account_group r)) lines)))
  = Spec.year_group_total value y g lines.
Proof.
  induction lines as [|l t IH]; cbn [filter Spec.year_group_total]; [reflexivity |].
  destruct (account_group l) as [g'|] eqn:Eg; cbn [notna filter].
  - rewrite in_group_year_group, Eg.
    destruct (App.num_eq (year l) y && Frame.cell_eq (Some g') g); cbn [map].
    + now rewrite sum_cells_cons, IH.
    + now rewrite IH.
  - rewrite IH. cbn [Frame.cell_eq]. now rewrite andb_false_r.
Qed.

(** C6, as stated, fails on a budget sheet with months: the two 2024 revenue
    lines of January (100) and February (200) come out as one row of 300
    without a month, so the table is not the one grouped by month. *)
Lemma budget_months_are_merged :
  exists tx bd,
    load_all (Sample.scenario 3 10 28) (Some Sample.two_month_budget) = Ok (tx, bd)
    /\ rows bd = [budget_row (2024, "Revenue", 300)]
    /\ ~ Spec.budget_grouped_by_month BUDGET
           (map (Rowwise.budget_line (Rowwise.flags_of Sample.two_month_budget))
                (rows Sample.two_month_budget))
           (rows bd).
Proof.
  eexists _, _. split; [reflexivity |]. split; [reflexivity |].
  intros Hclaim.
  destruct (Hclaim _ 2024 1 "Revenue" (or_introl eq_refl) eq_refl eq_refl eq_refl)
    as [r [Hin [_ [Hm _]]]].
  cbn in Hin. destruct Hin as [<- | []]. discriminate.
Qed.

Lemma load_budget_entries (b : DataFrame) :
  let f := Rowwise.flags_of (_norm_cols b) in
  let lines := map (Rowwise.budget_line f) (rows b) in
  let value := Rowwise.budget_value f in
  forall (y : Z) (g : string) (v : Z),
    In (y, g, v)
       (Group.groupby_sum year_group value
          (filter (fun r => notna (account_group r)) lines))
    <-> v = Spec.year_group_total value y g lines
        /\ exists l, In l lines /\ year l = Some y /\ account_group l = Some g.
Proof.
  intros f lines value y g v.
  set (kept := filter (fun r => notna (account_group r)) lines).
  assert (Hkey : In (y, g) (map fst (Group.groupby_sum year_group value kept))
                 <-> exists l, In l lines /\ year l = Some y
                               /\ account_group l = Some g).
  { rewrite groupby_sum_keys. split.
    - intros [l [Hin Hk]]. apply filter_In in Hin. apply year_group_iff in Hk.
      exists l. tauto.
    - intros [l [Hin [Hy Hg]]]. exists l. split.
      + apply filter_In. split; [exact Hin |]. now rewrite Hg.
      + apply year_group_iff. auto. }
  split.
  - intros Hin. split.
    + rewrite (groupby_sum_entry _ _ _ _ _ Hin).
      apply group_cells_year_group_total.
    + apply Hkey. apply in_map_iff. exists (y, g, v). auto.
  - intros [-> Hl]. apply Hkey in Hl. apply in_map_iff in Hl.
    destruct Hl as [[k v] [Ek Hin]]. cbn in Ek. subst k.
    rewrite (groupby_sum_entry _ _ _ _ _ Hin) in Hin.
    unfold kept in Hin at 1. rewrite group_cells_year_group_total in Hin.
    exact Hin.
Qed.

Lemma NoDup_map_injective {A B : Type} (f : A -> B) (l : list A) :
  (forall x y, f x = f y -> x = y) -> NoDup l -> NoDup (map f l).
Proof.
  intros Hinj Hnd. induction Hnd as [|a l Ha Hnd IH]; cbn; constructor.
  - rewrite in_map_iff. intros [x [E Hin]]. apply Hinj in E. now subst.
  - exact IH.
Qed.

(** C6, amended: the budget table of [load_all] groups the budget lines by
    (year, account_group) alone, whether the sheet has months or not.  Its
    (year, account_group) pairs are distinct; each row holds a year and
    group that some line has, with the sum of the amounts of the lines of
    that year and group, and nothing else of the lines; and every line with
    a year and a group falls in one of the rows. *)
Theorem load_all_budget_by_year_and_group (txn b tx bd : DataFrame) :
  load_all txn (Some b) = Ok (tx, bd) ->
  let f := Rowwise.flags_of (_norm_cols b) in
  let lines := map (Rowwise.budget_line f) (rows b) in
  let value := Rowwise.budget_value f in
  columns bd = ["year"; "account_group"; "budget_amount"]
  /\ NoDup (map (fun r => (year r, account_group r)) (rows bd))
  /\ (forall r, In r (rows bd) ->
        exists y g,
          r = budget_row (y, g, Spec.year_group_total value y g lines)
          /\ exists l, In l lines /\ year l = Some y /\ account_group l = Some g)
  /\ (forall l y g,
        In l lines -> year l = Some y -> account_group l = Some g ->
        In (budget_row (y, g, Spec.year_group_total value y g lines)) (rows bd)).
Proof.
  intros Hload f lines value.
  apply load_all_ok in Hload. destruct Hload as [_ ->].
  pose proof (load_budget_rows b) as Hrows. cbv zeta in Hrows.
  fold f in Hrows. fold lines value in Hrows.
  pose proof (load_budget_entries b) as Hent. cbv zeta in Hent.
  fold f in Hent. fold lines value in Hent.
  split; [reflexivity |]. rewrite Hrows. split; [| split].
  - match goal with
    | |- NoDup (map _ (map budget_row ?G)) =>
        replace (map (fun r => (year r, account_group r)) (map budget_row G))
          with (map (fun k : Z * string => (Some (fst k), Some (snd k)))
                    (map fst G))
          by (rewrite !map_map; apply map_ext; intros [[y g] v]; reflexivity)
    end.
    apply NoDup_map_injective.
    + intros [y g] [y' g'] E. cbn in E. congruence.
    + apply groupby_sum_NoDup.
  - intros r Hin. apply in_map_iff in Hin.
    destruct Hin as [[[y g] v] [<- Hin]]. apply Hent in Hin.
    destruct Hin as [-> Hl]. exists y, g. auto.
  - intros l y g Hin Hy Hg. apply in_map_iff.
    exists (y, g, Spec.year_group_total value y g lines).
    split; [reflexivity |]. apply Hent. split; [reflexivity |]. eauto.
Qed.

Lemma load_all_budget_by_year_and_group_witness :
  exists tx bd,
    load_all (Sample.scenario 3 10 28) (Some Sample.two_month_budget) = Ok (tx, bd)
    /\ columns bd = ["year"; "account_group"; "budget_amount"]
    /\ NoDup (map (fun r => (year r, account_group r)) (rows bd)).
Proof.
  eexists _, _. split; [reflexivity |].
  pose proof (load_all_budget_by_year_and_group
                (Sample.scenario 3 10 28) Sample.two_month_budget _ _ eq_refl)
    as Hb.
  split; [exact (proj1 Hb) | exact (proj1 (proj2 Hb))].
Defined.

(** Without a budget file the budget table is empty, with its three
    columns. *)
Lemma load_all_without_budget (txn tx bd : DataFrame) :
  load_all txn None = Ok (tx, bd) ->
  bd = mkFrame ["year"; "account_group"; "budget_amount"] [].
Proof. intros Hload. apply load_all_ok in Hload. tauto. Qed.

End Budget.

(* ================================================================== *)
(** * Ratios and their guards *)
(* ================================================================== *)

Section Ratios.

Import Float App.

Lemma truthy_of_Z (z : Z) : truthy (of_Z z) = negb (Z.eqb z 0).
Proof.
  unfold truthy, of_Z, is_zero, Qeq_bool, inject_Z. cbn [Qnum Qden].
  rewrite Z.mul_1_r. cbn. now destruct z.
Qed.

Lemma truthy_of_Z_zero (z : Z) : z = 0 -> truthy (of_Z z) = false.
Proof. intros ->. reflexivity. Qed.






(** The unguarded division is what the guards keep away: over a zero base
    it is an infinity, or NaN for 0/0. *)
Lemma unguarded_pct_not_finite (x : Q) :
  ~ finite (pct (Fin x) (Fin 0)).
Proof.
  unfold pct, div, mul. cbn [is_zero Qeq_bool]. intros [q E].
  destruct (is_zero x); cbn in E; discriminate.
Qed.

Lemma sum_nonneg_zero (l : list Z) :
  Forall (fun v => 0 <= v) l -> fold_right Z.add 0 l = 0 ->
  Forall (fun v => v = 0) l.
Proof.
  induction 1 as [|v l Hv Hl IH]; cbn; intros E; constructor.
  - assert (0 <= fold_right Z.add 0 l).
    { clear -Hl. induction Hl; cbn; lia. }
    lia.
  - apply IH.
    assert (0 <= fold_right Z.add 0 l).
    { clear -Hl. induction Hl; cbn; lia. }
    lia.
Qed.

(** The concentration note divides by 1 when the total is zero; on the
    revenue of the transaction table, whose amounts are not negative, it
    then shows zero. *)
Lemma top5_share_zero_total (values : list Z) :
  Forall (fun v => 0 <= v) values -> fold_right Z.add 0 values = 0 ->
  exists q, top5_share values = Fin q /\ q == 0.
Proof.
  intros Hpos Hsum. unfold top5_share. rewrite Hsum. cbn [Z.eqb].
  assert (Hz : fold_right Z.add 0 (firstn 5 values) = 0).
  { pose proof (sum_nonneg_zero values Hpos Hsum) as Hall.
    clear -Hall. generalize 5%nat as n. induction Hall as [|v l -> _ IH];
      intros [|n]; cbn; auto. }
  rewrite Hz. eexists. split; reflexivity.
Qed.

End Ratios.

(* ================================================================== *)
(** * Period slices *)
(* ================================================================== *)

Section Slices.

Import App.

Lemma slice_year_rows (t : DataFrame) (y : Z) :
  rows (slice_period t y "Year" None None)
  = filter (fun r => num_eq (year r) y) (rows t).
Proof. reflexivity. Qed.

Lemma slice_quarter_rows (t : DataFrame) (y : Z) (q : Quarter) :
  rows (slice_period t y "Quarter" (Some q) None)
  = filter (fun r => isin (month r) (qmap q))
           (filter (fun r => num_eq (year r) y) (rows t)).
Proof. reflexivity. Qed.

Lemma slice_month_rows (t : DataFrame) (y m : Z) :
  m <> 0 ->
  rows (slice_period t y "Month" None (Some m))
  = filter (fun r => num_eq (month r) m)
           (filter (fun r => num_eq (year r) y) (rows t)).
Proof.
  intros Hm. unfold slice_period. cbn [String.eqb Ascii.eqb Bool.eqb andb].
  apply Z.eqb_neq in Hm. rewrite Hm. reflexivity.
Qed.

(** A month of the calendar lies in exactly one quarter. *)
Lemma month_in_one_quarter (m : Z) :
  1 <= m <= 12 ->
  exists q, isin (Some m) (qmap q) = true
            /\ forall q', isin (Some m) (qmap q') = true -> q' = q.
Proof.
  intros Hm.
  assert (Hcases : m = 1 \/ m = 2 \/ m = 3 \/ m = 4 \/ m = 5 \/ m = 6 \/ m = 7
                   \/ m = 8 \/ m = 9 \/ m = 10 \/ m = 11 \/ m = 12) by lia.
  repeat (destruct Hcases as [-> | Hcases]); try subst m;
    [exists Q1 | exists Q1 | exists Q1 | exists Q2 | exists Q2 | exists Q2
     | exists Q3 | exists Q3 | exists Q3 | exists Q4 | exists Q4 | exists Q4];
    (split; [reflexivity | intros [] E; cbn in E; congruence]).
Qed.

(** Four filters of which each element passes exactly one split the list. *)
Lemma four_filters_partition {A : Type} (p : Quarter -> A -> bool) (l : list A) :
  (forall x, In x l ->
     exists q, p q x = true /\ forall q', p q' x = true -> q' = q) ->
  Permutation (filter (p Q1) l ++ filter (p Q2) l ++ filter (p Q3) l
               ++ filter (p Q4) l) l.
Proof.
  induction l as [|x l IH]; intros Hone; [constructor |].
  specialize (IH (fun y Hy => Hone y (or_intror Hy))).
  destruct (Hone x (or_introl eq_refl)) as [q [Hq Honly]].
  assert (Hother : forall q', q' <> q -> p q' x = false).
  { intros q' Hne. destruct (p q' x) eqn:E; [| reflexivity].
    elim Hne. now apply Honly. }
  cbn [filter].
  destruct q; rewrite Hq;
    repeat match goal with
           | |- context [p ?q' x] =>
               rewrite (Hother q') by discriminate
           end.
  - cbn [app]. now constructor.
  - cbn [app].
    etransitivity; [symmetry; apply Permutation_middle |]. now constructor.
  - cbn [app]. rewrite (app_assoc (filter (p Q1) l)).
    etransitivity; [symmetry; apply Permutation_middle |].
    constructor. now rewrite <- app_assoc.
  - rewrite (app_assoc (filter (p Q2) l)), (app_assoc (filter (p Q1) l)).
    etransitivity; [symmetry; apply Permutation_middle |].
    constructor. now rewrite <- !app_assoc.
Qed.

(** C8, as stated, fails on a table that has a row with a year and no
    month.  Such a table becomes the working table when an upload with year
    and month columns and no date column replaces the loaded one; its row is
    in the year slice and in none of the four quarter slices. *)
Lemma quarters_miss_row_without_month :
  let t := Sample.year_without_month in
  let quarter q := rows (slice_period t 2024 "Quarter" (Some q) None) in
  apply_tx_upload "Replace" Sample.canonical (Some t) None = Ok (Some t)
  /\ (quarter Q1 ++ quarter Q2 ++ quarter Q3 ++ quarter Q4)%list = []
  /\ rows (slice_period t 2024 "Year" None None) = rows t
  /\ ~ Permutation (quarter Q1 ++ quarter Q2 ++ quarter Q3 ++ quarter Q4)%list
                   (rows (slice_period t 2024 "Year" None None)).
Proof.
  cbv zeta. split; [reflexivity |]. split; [reflexivity |].
  split; [reflexivity |].
  intros Hperm. apply Permutation_length in Hperm. discriminate.
Qed.

(** C8, amended: for a transaction table in which every row of year Y has a
    month from 1 to 12, as every table [load_all] returns has, the four
    quarter slices of Y hold together exactly the rows of the year slice,
    each as often as the year slice holds it, and no row is in two of them;
    the quarters are the months 1-3, 4-6, 7-9 and 10-12, and the filters
    apply one after the other. *)
Theorem quarter_slices_partition (t : DataFrame) (y : Z) :
  forallb (Spec.dated_in_year y) (rows t) = true ->
  let quarter q := rows (slice_period t y "Quarter" (Some q) None) in
  let whole := rows (slice_period t y "Year" None None) in
  Permutation (quarter Q1 ++ quarter Q2 ++ quarter Q3 ++ quarter Q4)%list whole
  /\ (forall r q q', In r (quarter q) -> In r (quarter q') -> q = q')
  /\ (forall r q, In r (quarter q)
                  <-> In r whole /\ isin (month r) (qmap q) = true)
  /\ List.length whole
     = (List.length (quarter Q1) + List.length (quarter Q2)
        + List.length (quarter Q3) + List.length (quarter Q4))%nat.
Proof.
  intros Hdated quarter whole.
  assert (Hone : forall r, In r whole ->
                   exists q, isin (month r) (qmap q) = true
                             /\ forall q', isin (month r) (qmap q') = true -> q' = q).
  { intros r Hin. unfold whole in Hin. rewrite slice_year_rows in Hin.
    apply filter_In in Hin. destruct Hin as [Hin Hy].
    rewrite forallb_forall in Hdated. specialize (Hdated r Hin).
    unfold Spec.dated_in_year in Hdated. rewrite Hy in Hdated.
    destruct (month r) as [m|]; [| discriminate].
    apply month_in_one_quarter. lia. }
  assert (Hq : forall q, quarter q = filter (fun r => isin (month r) (qmap q)) whole)
    by reflexivity.
  assert (Hperm : Permutation
                    (quarter Q1 ++ quarter Q2 ++ quarter Q3 ++ quarter Q4)%list
                    whole).
  { rewrite !Hq.
    exact (four_filters_partition (fun q r => isin (month r) (qmap q)) whole Hone). }
  split; [exact Hperm |]. split; [| split].
  - intros r q q' H1 H2. rewrite Hq in H1, H2.
    apply filter_In in H1, H2. destruct H1 as [Hin H1], H2 as [_ H2].
    destruct (Hone r Hin) as [q0 [_ Honly]].
    rewrite (Honly q H1), (Honly q' H2). reflexivity.
  - intros r q. rewrite Hq. apply filter_In.
  - apply Permutation_length in Hperm. rewrite !List.length_app in Hperm. lia.
Qed.

Lemma quarter_slices_partition_witness :
  exists tx bd,
    Data.load_all (Sample.scenario 3 10 28) None = Ok (tx, bd)
    /\ Permutation
         (rows (slice_period tx 2024 "Quarter" (Some Q1) None)
          ++ rows (slice_period tx 2024 "Quarter" (Some Q2) None)
          ++ rows (slice_period tx 2024 "Quarter" (Some Q3) None)
          ++ rows (slice_period tx 2024 "Quarter" (Some Q4) None))%list
         (rows (slice_period tx 2024 "Year" None None)).
Proof.
  eexists _, _. split; [reflexivity |].
  refine (proj1 (quarter_slices_partition _ 2024 _)). reflexivity.
Defined.

(** Every table [load_all] returns meets the condition, for every year. *)
Lemma load_all_rows_dated (txn : DataFrame) (budget : option DataFrame)
      (tx bd : DataFrame) (y : Z) :
  Data.load_all txn budget = Ok (tx, bd) ->
  forallb (Spec.dated_in_year y) (rows tx) = true.
Proof.
  intros Hload. apply forallb_forall. intros r Hin.
  destruct (load_all_rows_canonical _ _ _ _ r Hload Hin) as [_ Hv].
  unfold Spec.dated_in_year. destruct (num_eq (year r) y) eqn:Ey; [| reflexivity].
  apply num_eq_iff in Ey.
  destruct (valid_period_month r y Hv Ey) as [m [-> Hm]].
  apply andb_true_iff. split; apply Z.leb_le; lia.
Qed.

End Slices.

(* ================================================================== *)
(** * Upload of monthly data *)
(* ================================================================== *)

Section Upload.

Import App.

Lemma has_iff (c : string) (df : DataFrame) :
  Frame.has c df = true <-> In c (columns df).
Proof. apply mem_iff. Qed.

Lemma first_missing_none (cols : list string) (df : DataFrame) :
  (forall c, In c cols -> Frame.has c df = true) ->
  Frame.first_missing cols df = None.
Proof.
  induction cols as [|c cols IH]; intros Hall; cbn; [reflexivity |].
  rewrite (Hall c (or_introl eq_refl)). apply IH.
  intros c' Hin. apply Hall. now right.
Qed.

(** Selecting columns the frame has does not raise. *)
Lemma getitem_ok (cols : list string) (df : DataFrame) :
  (forall c, In c cols -> Frame.has c df = true) ->
  Frame.getitem cols df = Ok (mkFrame cols (map (Frame.project cols) (rows df))).
Proof.
  intros Hall. unfold Frame.getitem. now rewrite first_missing_none.
Qed.

Lemma getitem_own_columns (p : string -> bool) (df : DataFrame) :
  Frame.getitem (filter p (columns df)) df
  = Ok (mkFrame (filter p (columns df))
                (map (Frame.project (filter p (columns df))) (rows df))).
Proof.
  apply getitem_ok. intros c Hin. apply filter_In in Hin.
  apply has_iff. tauto.
Qed.

Lemma ensure_period_cols_rows (df : DataFrame) :
  rows (_ensure_period_cols df)
  = map (fun r => if Frame.has "date" df then Rowwise.period_row r else r) (rows df).
Proof.
  unfold _ensure_period_cols. destruct (Frame.has "date" df).
  - cbn [rows Frame.assign]. rewrite !map_map. reflexivity.
  - now rewrite map_id.
Qed.

Lemma ensure_period_cols_has (c : string) (df : DataFrame) :
  (c =? "date")%string = false -> (c =? "year")%string = false ->
  (c =? "month")%string = false ->
  Frame.has c (_ensure_period_cols df) = Frame.has c df.
Proof.
  intros H1 H2 H3. unfold _ensure_period_cols.
  destruct (Frame.has "date" df); [| reflexivity].
  now rewrite !has_assign_other.
Qed.

Lemma ensure_period_cols_incl (df : DataFrame) :
  incl (columns df) (columns (_ensure_period_cols df)).
Proof.
  unfold _ensure_period_cols. destruct (Frame.has "date" df); [| apply incl_refl].
  eapply incl_tran; [| apply columns_assign_incl].
  eapply incl_tran; [| apply columns_assign_incl].
  apply columns_assign_incl.
Qed.

Lemma derived_columns_incl (df : DataFrame) :
  incl (columns df) (derived_columns df).
Proof.
  unfold derived_columns. cbv zeta.
  destruct (negb _ && _).
  - eapply incl_tran; [apply ensure_period_cols_incl | apply columns_assign_incl].
  - apply ensure_period_cols_incl.
Qed.

(** [_normalize_uploaded_tx] never raises: it keeps the derived columns the
    template has, and makes of every uploaded row one row, in order. *)
Lemma normalize_uploaded_tx_rows (df tx_template : DataFrame) :
  let keep := filter (fun c => Frame.has c tx_template) (derived_columns df) in
  _normalize_uploaded_tx df tx_template
  = Ok (mkFrame keep
          (map (Rowwise.upload_row (Frame.has "date" df)
                                   (Frame.has "signed_amount" df)
                                   (Frame.has "AMOUNT" df)
                                   (Frame.has "account_group" df) keep)
               (rows df))).
Proof.
  unfold _normalize_uploaded_tx, derived_columns. cbv zeta.
  rewrite !ensure_period_cols_has by reflexivity.
  assert (Hrows := ensure_period_cols_rows df).
  set (df1 := _ensure_period_cols df) in *.
  destruct (negb (Frame.has "signed_amount" df) && Frame.has "AMOUNT" df) eqn:Hd;
    [destruct (Frame.has "account_group" df) eqn:Hg |].
  all: rewrite getitem_own_columns; cbn [bind].
  all: unfold Frame.assign, Frame.has in *; cbn [columns rows] in *.
  all: match goal with
       | |- context [PyStr.mem "signed_amount" (filter ?p ?l)] =>
           destruct (PyStr.mem "signed_amount" (filter p l)) eqn:Hm
       end.
  all: cbn [columns rows]; rewrite Hrows, !map_map; do 2 f_equal.
  all: apply map_ext; intros r; unfold Rowwise.upload_row.
  all: rewrite Hd, ?Hm; reflexivity.
Qed.





Lemma filter_twice {A : Type} (p : A -> bool) (l : list A) :
  filter p (filter p l) = filter p l.
Proof.
  apply filter_all. intros x Hin. apply filter_In in Hin. tauto.
Qed.

Lemma filter_known (l : list string) :
  filter (fun c => negb (PyStr.mem c l)) l = [].
Proof.
  assert (H : forall l', incl l' l -> filter (fun c => negb (PyStr.mem c l)) l' = []).
  { induction l' as [|c l' IH]; intros Hincl; cbn; [reflexivity |].
    assert (Hc : PyStr.mem c l = true) by (apply mem_iff, Hincl; now left).
    rewrite Hc. cbn. apply IH. intros x Hx. apply Hincl. now right. }
  apply H, incl_refl.
Qed.

(** C9: appending an upload whose columns are all columns of the
    transaction table returns a merged table; its rows are the rows of the
    table followed by the normalised rows of the upload, each in their
    order and cut to the columns of the merged table, so as many as both
    together; its columns are columns of the table, and among them are all
    the columns of the upload. *)
Theorem append_upload_rows_and_columns (tx up : DataFrame)
        (tx_user : option DataFrame) :
  forallb (fun c => Frame.has c tx) (columns up) = true ->
  exists merged,
    apply_tx_upload "Append" tx (Some up) tx_user = Ok (Some merged)
    /\ List.length (rows merged)
       = (List.length (rows tx) + List.length (rows up))%nat
    /\ incl (columns merged) (columns tx)
    /\ incl (columns up) (columns merged)
    /\ rows merged
       = (map (Frame.project (columns merged)) (rows tx)
          ++ map (fun r =>
                    Frame.project (columns merged)
                      (Rowwise.upload_row (Frame.has "date" up)
                         (Frame.has "signed_amount" up) (Frame.has "AMOUNT" up)
                         (Frame.has "account_group" up) (columns merged) r))
                 (rows up))%list.
Proof.
  intros Hsub. unfold apply_tx_upload.
  rewrite normalize_uploaded_tx_rows. cbv zeta. cbn [bind String.eqb Ascii.eqb Bool.eqb].
  set (keep := filter (fun c => Frame.has c tx) (derived_columns up)).
  assert (Hk : filter (fun c => Frame.has c tx) keep = keep)
    by (unfold keep; apply filter_twice).
  cbn [columns]. rewrite !Hk.
  rewrite (getitem_ok keep (mkFrame keep _))
    by (intros c Hc; now apply has_iff).
  cbn [bind].
  rewrite (getitem_ok keep tx)
    by (intros c Hc; unfold keep in Hc; apply filter_In in Hc; tauto).
  cbn [bind]. eexists. split; [reflexivity |].
  unfold Frame.concat, Frame.has. cbn [columns rows].
  rewrite filter_known, app_nil_r, map_map.
  split; [| split; [| split]].
  - now rewrite List.length_app, !List.length_map.
  - intros c Hc. unfold keep in Hc. apply filter_In in Hc.
    apply has_iff. tauto.
  - intros c Hc. unfold keep. apply filter_In. split.
    + now apply derived_columns_incl.
    + rewrite forallb_forall in Hsub. now apply Hsub.
  - reflexivity.
Qed.

Lemma append_upload_rows_and_columns_witness :
  exists merged,
    apply_tx_upload "Append" Sample.canonical (Some Sample.upload) None
    = Ok (Some merged)
    /\ List.length (rows merged) = 7%nat
    /\ columns merged = ["ACCOUNT"; "AMOUNT"; "account_group"; "signed_amount"].
Proof.
  destruct (append_upload_rows_and_columns Sample.canonical Sample.upload None
              eq_refl) as [merged [Hm [Hlen _]]].
  exists merged. split; [exact Hm |]. split; [exact Hlen |].
  vm_compute in Hm. inversion Hm. reflexivity.
Defined.

End Upload.

(* ================================================================== *)
(** * Trimming and letter case *)
(* ================================================================== *)

Section Trimming.

Import PyStr.

Lemma rstrip_idempotent (s : string) : rstrip (rstrip s) = rstrip s.
Proof.
  induction s as [|c t IH]; [reflexivity |].
  cbn [rstrip]. destruct (rstrip t) as [|c' t'] eqn:E.
  - destruct (isspace c) eqn:Ec; [reflexivity |].
    cbn [rstrip]. now rewrite Ec.
  - cbn [rstrip]. cbn [rstrip] in IH. rewrite IH. reflexivity.
Qed.

Lemma lstrip_idempotent (s : string) : lstrip (lstrip s) = lstrip s.
Proof.
  induction s as [|c t IH]; [reflexivity |].
  cbn [lstrip]. destruct (isspace c) eqn:Ec; [exact IH |].
  cbn [lstrip]. now rewrite Ec.
Qed.

(** Trimming the two ends in either order gives the same text. *)
Lemma rstrip_lstrip (s : string) : rstrip (lstrip s) = lstrip (rstrip s).
Proof.
  induction s as [|c t IH]; [reflexivity |].
  cbn [lstrip rstrip]. destruct (isspace c) eqn:Ec.
  - rewrite IH. destruct (rstrip t) as [|c' t'] eqn:E; [reflexivity |].
    cbn [lstrip]. now rewrite Ec.
  - cbn [rstrip].
    destruct (rstrip t) as [|c' t'] eqn:E; cbn [lstrip]; now rewrite Ec.
Qed.

Lemma strip_idempotent (s : string) : strip (strip s) = strip s.
Proof.
  unfold strip. rewrite rstrip_lstrip, rstrip_idempotent.
  apply lstrip_idempotent.
Qed.

Lemma lstrip_blank (b s : string) :
  blank_text b = true -> lstrip (b ++ s) = lstrip s.
Proof.
  induction b as [|c b IH]; intros Hb; [reflexivity |].
  cbn in Hb. apply andb_true_iff in Hb. destruct Hb as [Hc Hb].
  cbn [append lstrip]. rewrite Hc. now apply IH.
Qed.

Lemma rstrip_blank_only (b : string) : blank_text b = true -> rstrip b = "".
Proof.
  induction b as [|c b IH]; intros Hb; [reflexivity |].
  cbn in Hb. apply andb_true_iff in Hb. destruct Hb as [Hc Hb].
  cbn [rstrip]. rewrite (IH Hb), Hc. reflexivity.
Qed.

Lemma rstrip_blank (s b : string) :
  blank_text b = true -> rstrip (s ++ b) = rstrip s.
Proof.
  intros Hb. induction s as [|c t IH].
  - cbn [append]. now rewrite rstrip_blank_only.
  - cbn [append rstrip]. now rewrite IH.
Qed.

(** Blanks around a text do not change what trimming leaves. *)
Lemma strip_padded (b1 s b2 : string) :
  blank_text b1 = true -> blank_text b2 = true ->
  strip (b1 ++ s ++ b2) = strip s.
Proof.
  intros H1 H2. unfold strip.
  rewrite <- rstrip_lstrip, lstrip_blank by assumption.
  rewrite rstrip_lstrip, rstrip_blank by assumption. reflexivity.
Qed.

Lemma isspace_lower_char (c : ascii) : isspace (lower_char c) = isspace c.
Proof. destruct c as [[] [] [] [] [] [] [] []]; reflexivity. Qed.

Lemma isspace_upper_char (c : ascii) : isspace (upper_char c) = isspace c.
Proof. destruct c as [[] [] [] [] [] [] [] []]; reflexivity. Qed.

Lemma lower_upper_char (c : ascii) : lower_char (upper_char c) = lower_char c.
Proof. destruct c as [[] [] [] [] [] [] [] []]; reflexivity. Qed.

Lemma upper_lower_char (c : ascii) : upper_char (lower_char c) = upper_char c.
Proof. destruct c as [[] [] [] [] [] [] [] []]; reflexivity. Qed.

Lemma map_chars_compose (f g h : ascii -> ascii) (s : string) :
  (forall c, f (g c) = h c) -> map_chars f (map_chars g s) = map_chars h s.
Proof.
  intros Hc. induction s as [|c t IH]; cbn; [reflexivity |].
  now rewrite Hc, IH.
Qed.

Lemma lstrip_map_chars (f : ascii -> ascii) (s : string) :
  (forall c, isspace (f c) = isspace c) ->
  lstrip (map_chars f s) = map_chars f (lstrip s).
Proof.
  intros Hf. induction s as [|c t IH]; [reflexivity |].
  cbn [map_chars lstrip]. rewrite Hf.
  destruct (isspace c); [exact IH | reflexivity].
Qed.

Lemma rstrip_map_chars (f : ascii -> ascii) (s : string) :
  (forall c, isspace (f c) = isspace c) ->
  rstrip (map_chars f s) = map_chars f (rstrip s).
Proof.
  intros Hf. induction s as [|c t IH]; [reflexivity |].
  cbn [map_chars rstrip]. rewrite IH, Hf.
  destruct (rstrip t); cbn [map_chars]; [| reflexivity].
  now destruct (isspace c).
Qed.

(** Trimming and changing case commute. *)
Lemma strip_map_chars (f : ascii -> ascii) (s : string) :
  (forall c, isspace (f c) = isspace c) ->
  strip (map_chars f s) = map_chars f (strip s).
Proof.
  intros Hf. unfold strip.
  now rewrite rstrip_map_chars, lstrip_map_chars.
Qed.

Lemma lower_strip_variant (b1 s b2 : string) :
  blank_text b1 = true -> blank_text b2 = true ->
  lower (strip (b1 ++ upper s ++ b2)) = lower (strip s)
  /\ lower (strip (b1 ++ lower s ++ b2)) = lower (strip s).
Proof.
  intros H1 H2. rewrite !strip_padded by assumption. unfold lower, upper.
  rewrite !strip_map_chars
    by (intros c; apply isspace_upper_char || apply isspace_lower_char).
  split; apply map_chars_compose; intros c.
  - apply lower_upper_char.
  - destruct c as [[] [] [] [] [] [] [] []]; reflexivity.
Qed.

Lemma upper_strip_variant (b1 s b2 : string) :
  blank_text b1 = true -> blank_text b2 = true ->
  upper (strip (b1 ++ upper s ++ b2)) = upper (strip s)
  /\ upper (strip (b1 ++ lower s ++ b2)) = upper (strip s).
Proof.
  intros H1 H2. rewrite !strip_padded by assumption. unfold lower, upper.
  rewrite !strip_map_chars
    by (intros c; apply isspace_upper_char || apply isspace_lower_char).
  split; apply map_chars_compose; intros c.
  - destruct c as [[] [] [] [] [] [] [] []]; reflexivity.
  - apply upper_lower_char.
Qed.

End Trimming.

(* ================================================================== *)
(** * More on the classifier and the loader *)
(* ================================================================== *)

Section LoaderMore.

Import Data.

(** X1: the classifier ignores the letter case of its three cells and any
    white space around them: a row whose cells are written in the other
    case and padded with blanks gets the group of the plain row. *)
Theorem infer_group_ignores_case_and_blanks
        (side short full b1 b2 b3 b4 b5 b6 : string) :
  blank_text b1 = true -> blank_text b2 = true -> blank_text b3 = true ->
  blank_text b4 = true -> blank_text b5 = true -> blank_text b6 = true ->
  _infer_group
    (Sample.text_row (b1 ++ PyStr.upper side ++ b2)
                     (b3 ++ PyStr.lower short ++ b4)
                     (b5 ++ PyStr.upper full ++ b6))
  = _infer_group (Sample.text_row side short full).
Proof.
  intros H1 H2 H3 H4 H5 H6. unfold _infer_group.
  change (str (REVENUE_EXPENSES (Sample.text_row ?a ?b ?c))) with a.
  cbn [Sample.text_row REVENUE_EXPENSES Short_CLASS CLASS str
       Frame.set_REVENUE_EXPENSES Frame.set_Short_CLASS Frame.set_CLASS
       Frame.blank].
  rewrite (proj1 (lower_strip_variant b1 side b2 H1 H2)).
  rewrite (proj2 (upper_strip_variant b3 short b4 H3 H4)).
  rewrite (proj1 (lower_strip_variant b5 full b6 H5 H6)).
  reflexivity.
Qed.

Lemma infer_group_ignores_case_and_blanks_witness :
  _infer_group (Sample.text_row " EXPENSES  " "  g&a " "  COST OF SALES - X ")
  = Some "OPEX".
Proof.
  exact (eq_trans
           (infer_group_ignores_case_and_blanks
              "expenses" "G&A" "cost of sales - x"
              " " "  " "  " " " "  " " "
              eq_refl eq_refl eq_refl eq_refl eq_refl eq_refl)
           eq_refl).
Defined.

Lemma norm_cols_idempotent (df : DataFrame) :
  _norm_cols (_norm_cols df) = _norm_cols df.
Proof.
  unfold _norm_cols. cbn [columns rows]. rewrite map_map.
  f_equal. apply map_ext. intros c. apply strip_idempotent.
Qed.

(** X3: only the trimmed column headers count: loading sheets whose
    headers have been trimmed beforehand gives the same result, tables or
    error, as loading the sheets as they are. *)
Theorem load_all_trims_headers (txn : DataFrame) (budget : option DataFrame) :
  load_all (_norm_cols txn) (option_map _norm_cols budget) = load_all txn budget.
Proof.
  unfold load_all. rewrite norm_cols_idempotent.
  destruct budget as [b|]; cbn [option_map]; [| reflexivity].
  unfold load_budget. now rewrite norm_cols_idempotent.
Qed.

Lemma has_norm_cols (c : string) (df : DataFrame) :
  Frame.has c (_norm_cols df) = true
  <-> exists h, In h (columns df) /\ PyStr.strip h = c.
Proof.
  rewrite has_iff. unfold _norm_cols. cbn [columns]. rewrite in_map_iff.
  split; intros [h [A B]]; exists h; auto.
Qed.

(** X4: [load_all] raises its ValueError about the required columns
    exactly when the transaction sheet lacks a Date, an AMOUNT or a
    REVENUE/EXPENSES header, blanks around a header apart; the rows of the
    sheet and the budget play no part, and a sheet with the three headers
    never meets this error. *)
Theorem load_all_raises_iff (txn : DataFrame) (budget : option DataFrame) :
  let present c := exists h, In h (columns txn) /\ PyStr.strip h = c in
  let complete :=
    present "Date" /\ present "AMOUNT" /\ present "REVENUE/EXPENSES" in
  (~ complete
   <-> load_all txn budget
       = Raise (ValueError "01.xlsx must contain 'Date', 'AMOUNT', and 'REVENUE/EXPENSES' columns."))
  /\ (complete -> forall e, load_all txn budget <> Raise e).
Proof.
  intros present complete. unfold complete, present.
  rewrite <- !has_norm_cols. unfold load_all.
  destruct (Frame.has "Date" (_norm_cols txn));
    destruct (Frame.has "AMOUNT" (_norm_cols txn));
    destruct (Frame.has "REVENUE/EXPENSES" (_norm_cols txn));
    cbn [negb orb]; split;
    try (split; intros H;
         [ try reflexivity; exfalso; apply H; repeat split; reflexivity
         | try discriminate; intros [? [? ?]]; discriminate ]);
    try (intros [? [? ?]]; discriminate);
    try (intros _ e; discriminate).
Qed.

Lemma load_all_raises_iff_witness :
  Data.load_all (Sample.scenario 3 10 28) None <> Raise (KeyError "Date").
Proof.
  apply (proj2 (load_all_raises_iff (Sample.scenario 3 10 28) None)).
  split; [| split].
  - exists "Date". split; [cbn; tauto | reflexivity].
  - exists "AMOUNT". split; [cbn; tauto | reflexivity].
  - exists "REVENUE/EXPENSES". split; [cbn; tauto | reflexivity].
Defined.

(** X5: a sheet row stays in the transaction table exactly when it has an
    amount and the classifier gives it a group; its date plays no part, and
    a row whose date did not parse stays with an empty year and month.  No
    row is added. *)
Theorem load_all_keeps_classified_amounts (txn : DataFrame)
        (budget : option DataFrame) (tx bd : DataFrame) :
  load_all txn budget = Ok (tx, bd) ->
  let derive := Rowwise.tx_row (Frame.has "Short_CLASS" (_norm_cols txn))
                               (Frame.has "CLASS" (_norm_cols txn)) in
  (forall r0, In r0 (rows txn) ->
     (In (derive r0) (rows tx)
      <-> AMOUNT r0 <> None /\ _infer_group (derive r0) <> None))
  /\ (forall r0, Date r0 = None ->
        year (derive r0) = None /\ month (derive r0) = None)
  /\ (List.length (rows tx) <= List.length (rows txn))%nat.
Proof.
  intros Hload derive. apply load_all_ok in Hload. destruct Hload as [-> _].
  rewrite load_tx_rows. cbn [rows _norm_cols]. fold derive.
  split; [| split].
  - intros r0 Hin. rewrite filter_In. unfold derive.
    rewrite tx_row_signed, tx_row_group.
    destruct (_infer_group _) as [g|] eqn:Hg.
    + pose proof (infer_group_range _ _ Hg) as Hr.
      destruct (AMOUNT r0) as [a|]; split.
      * intros _. split; discriminate.
      * intros _. split; [apply in_map; exact Hin |].
        destruct Hr as [-> | [-> | ->]]; reflexivity.
      * intros [_ Hk]. destruct Hr as [-> | [-> | ->]]; discriminate.
      * intros [Ha _]. now elim Ha.
    + split; [intros [_ Hk]; discriminate | intros [_ Hn]; now elim Hn].
  - intros r0 Hd. unfold derive.
    destruct (tx_row_period (Frame.has "Short_CLASS" (_norm_cols txn))
                            (Frame.has "CLASS" (_norm_cols txn)) r0) as [-> ->].
    now rewrite Hd.
  - etransitivity; [apply List.filter_length_le |]. now rewrite List.length_map.
Qed.

Lemma load_all_keeps_classified_amounts_witness :
  exists tx bd,
    load_all (Sample.scenario 3 10 28) None = Ok (tx, bd)
    /\ (List.length (rows tx) <= List.length (rows (Sample.scenario 3 10 28)))%nat.
Proof.
  eexists _, _. split; [reflexivity |].
  exact (proj2 (proj2 (load_all_keeps_classified_amounts
                         (Sample.scenario 3 10 28) None _ _ eq_refl))).
Defined.

Lemma in_columns_assign (c c' : string) (f : Row -> Row) (df : DataFrame) :
  In c (columns (Frame.assign c' f df)) <-> c = c' \/ In c (columns df).
Proof.
  unfold Frame.assign. cbn [columns].
  destruct (Frame.has c' df) eqn:E.
  - apply has_iff in E. split; [auto | intros [-> | H]; auto].
  - rewrite in_app_iff. cbn. intuition.
Qed.

(** X6: the transaction table keeps every column of the sheet, under its
    trimmed name, and has besides them only the columns date, year, month,
    Short_CLASS, CLASS, account_group and signed_amount, each of them in
    every case. *)
Theorem load_all_columns (txn : DataFrame) (budget : option DataFrame)
        (tx bd : DataFrame) :
  load_all txn budget = Ok (tx, bd) ->
  forall c,
    In c (columns tx)
    <-> In c (map PyStr.strip (columns txn))
        \/ In c ["date"; "year"; "month"; "Short_CLASS"; "CLASS";
                 "account_group"; "signed_amount"].
Proof.
  intros Hload c. apply load_all_ok in Hload. destruct Hload as [-> _].
  change (map PyStr.strip (columns txn)) with (columns (_norm_cols txn)).
  generalize (_norm_cols txn) as t. intros t.
  unfold load_tx. cbv zeta. unfold Frame.where_rows. cbn [columns].
  rewrite !in_columns_assign.
  rewrite !has_assign_other by reflexivity.
  destruct (Frame.has "Short_CLASS" t) eqn:Es;
    rewrite ?has_assign_other by reflexivity;
    destruct (Frame.has "CLASS" t) eqn:Ec;
    rewrite ?in_columns_assign; cbn [In];
    try apply has_iff in Es; try apply has_iff in Ec;
    intuition (subst; auto).
Qed.

Lemma load_all_columns_witness :
  exists tx bd,
    load_all (Sample.scenario 3 10 28) None = Ok (tx, bd)
    /\ In "account_group" (columns tx).
Proof.
  eexists _, _. split; [reflexivity |].
  apply (load_all_columns (Sample.scenario 3 10 28) None _ _ eq_refl).
  right. cbn. tauto.
Defined.

(** X2: every row of the budget table has a year, one of the three groups
    and an amount, and nothing else: no month and no date. *)
Theorem budget_table_rows (txn b tx bd : DataFrame) :
  load_all txn (Some b) = Ok (tx, bd) ->
  forall r, In r (rows bd) ->
    exists y g v,
      r = budget_row (y, g, v)
      /\ (g = "Revenue" \/ g = "COGS" \/ g = "OPEX").
Proof.
  intros Hload r Hin. apply load_all_ok in Hload. destruct Hload as [_ ->].
  pose proof (load_budget_rows b) as Hrows. cbv zeta in Hrows.
  rewrite Hrows in Hin. apply in_map_iff in Hin.
  destruct Hin as [[[y g] v] [<- Hin]].
  apply (load_budget_entries b) in Hin.
  destruct Hin as [_ [l [Hl [_ Hg]]]].
  apply in_map_iff in Hl. destruct Hl as [r0 [<- _]].
  rewrite budget_line_group in Hg. apply infer_group_range in Hg.
  exists y, g, v. auto.
Qed.

Lemma budget_table_rows_witness :
  exists tx bd,
    load_all (Sample.scenario 3 10 28) (Some Sample.two_month_budget) = Ok (tx, bd)
    /\ forall r, In r (rows bd) -> exists y g v, r = budget_row (y, g, v)
         /\ (g = "Revenue" \/ g = "COGS" \/ g = "OPEX").
Proof.
  eexists _, _. split; [reflexivity |].
  exact (budget_table_rows (Sample.scenario 3 10 28) Sample.two_month_budget
                           _ _ eq_refl).
Defined.

End LoaderMore.

(* ================================================================== *)
(** * More on the indicators and the monthly pivot *)
(* ================================================================== *)

Section GroupCellsOver.
Context {K : Type} `{OrdEq K}.
Variable key : Row -> option K.
Variable col : Row -> option Z.

Lemma keyed_in_iff (ks : list K) (r : Row) :
  keyed_in key ks r = true <-> exists k, In k ks /\ key r = Some k.
Proof.
  unfold keyed_in. destruct (key r) as [k|].
  - rewrite existsb_exists. split.
    + intros [k' [Hin E]]. apply same_iff in E. subst. eauto.
    + intros [k' [Hin E]]. injection E as E. subst k'.
      exists k. split; [exact Hin | apply same_refl].
  - split; [discriminate | intros [k [_ E]]; discriminate].
Qed.

(** Over distinct keys, the sums of the groups add up to the sum of the
    column over the rows whose key is listed. *)
Lemma group_cells_over (rs : list Row) (ks : list K) :
  NoDup ks ->
  fold_right Z.add 0
    (map (fun k => Frame.sum_cells (map col (filter (Group.in_group key k) rs))) ks)
  = Frame.sum_cells (map col (filter (keyed_in key ks) rs)).
Proof.
  intros Hnd. induction rs as [|r t IH].
  - cbn [filter map]. clear. induction ks as [|k ks IH]; cbn; [reflexivity |].
    cbn in IH. now rewrite IH.
  - pose proof (sum_group_cells_cons key col r t ks) as Hcons.
    cbv beta zeta in Hcons. rewrite Hcons, IH. clear Hcons IH.
    cbn [filter]. destruct (keyed_in key ks r) eqn:E.
    + apply keyed_in_iff in E. destruct E as [k0 [Hin Hk]].
      pose proof (share_once key col r k0 ks Hnd Hin Hk) as Hs.
      cbv beta zeta in Hs. rewrite Hs. cbn [map]. now rewrite sum_cells_cons.
    + pose proof (share_nowhere key col r ks) as Hs. cbv beta zeta in Hs.
      rewrite Hs; [reflexivity |].
      intros k Hin Hk.
      assert (keyed_in key ks r = true) by (apply keyed_in_iff; eauto).
      congruence.
Qed.

End GroupCellsOver.

Section KpisMore.

Import Metrics App.

Lemma signed_total_app (g : string) (l1 l2 : list Row) :
  Spec.signed_total g (l1 ++ l2) = Spec.signed_total g l1 + Spec.signed_total g l2.
Proof.
  induction l1 as [|r l1 IH]; cbn [app Spec.signed_total]; [reflexivity |].
  rewrite IH. lia.
Qed.

Lemma signed_total_perm (g : string) (l1 l2 : list Row) :
  Permutation l1 l2 -> Spec.signed_total g l1 = Spec.signed_total g l2.
Proof.
  induction 1; cbn [Spec.signed_total]; lia.
Qed.

(** The four quarter slices of a year hold the rows of the year slice. *)
Lemma quarters_permutation (t : DataFrame) (y : Z) :
  forallb (Spec.dated_in_year y) (rows t) = true ->
  Permutation
    (rows (slice_period t y "Quarter" (Some Q1) None)
     ++ rows (slice_period t y "Quarter" (Some Q2) None)
     ++ rows (slice_period t y "Quarter" (Some Q3) None)
     ++ rows (slice_period t y "Quarter" (Some Q4) None))%list
    (rows (slice_period t y "Year" None None)).
Proof.
  intros Hdated.
  apply (four_filters_partition (fun q r => isin (month r) (qmap q))).
  intros r Hin. rewrite slice_year_rows in Hin.
  apply filter_In in Hin. destruct Hin as [Hin Hy].
  rewrite forallb_forall in Hdated. specialize (Hdated r Hin).
  unfold Spec.dated_in_year in Hdated. rewrite Hy in Hdated.
  destruct (month r) as [m|]; [| discriminate].
  apply month_in_one_quarter. lia.
Qed.

(** X8: in a table whose rows of year Y have a month from 1 to 12, the
    indicators of the four quarters of Y add up to the indicators of the
    year: revenue, gross profit and EBIT each. *)
Theorem quarterly_kpis_add_up (t : DataFrame) (y : Z) :
  forallb (Spec.dated_in_year y) (rows t) = true ->
  let k q := kpis (slice_period t y "Quarter" (Some q) None) in
  let whole := kpis (slice_period t y "Year" None None) in
  Revenue whole = Revenue (k Q1) + Revenue (k Q2) + Revenue (k Q3) + Revenue (k Q4)
  /\ Gross_Profit whole
     = Gross_Profit (k Q1) + Gross_Profit (k Q2) + Gross_Profit (k Q3)
       + Gross_Profit (k Q4)
  /\ EBIT whole = EBIT (k Q1) + EBIT (k Q2) + EBIT (k Q3) + EBIT (k Q4).
Proof.
  intros Hdated k whole.
  assert (Hsum : forall g,
             group_sum g (slice_period t y "Year" None None)
             = group_sum g (slice_period t y "Quarter" (Some Q1) None)
               + group_sum g (slice_period t y "Quarter" (Some Q2) None)
               + group_sum g (slice_period t y "Quarter" (Some Q3) None)
               + group_sum g (slice_period t y "Quarter" (Some Q4) None)).
  { intros g. rewrite !group_sum_signed_total.
    rewrite <- (signed_total_perm g _ _ (quarters_permutation t y Hdated)).
    rewrite !signed_total_app. lia. }
  unfold whole, k, kpis. cbn [Revenue Gross_Profit EBIT].
  rewrite (Hsum "Revenue"), (Hsum "COGS"), (Hsum "OPEX"). lia.
Qed.

Lemma quarterly_kpis_add_up_witness :
  Revenue (kpis (slice_period Sample.canonical 2024 "Year" None None))
  = Revenue (kpis (slice_period Sample.canonical 2024 "Quarter" (Some Q1) None))
    + Revenue (kpis (slice_period Sample.canonical 2024 "Quarter" (Some Q2) None))
    + Revenue (kpis (slice_period Sample.canonical 2024 "Quarter" (Some Q3) None))
    + Revenue (kpis (slice_period Sample.canonical 2024 "Quarter" (Some Q4) None)).
Proof.
  exact (proj1 (quarterly_kpis_add_up Sample.canonical 2024 eq_refl)).
Defined.

(** The scenario of the specification has its three rows in the three
    groups. *)
Lemma kpis_EBIT_additive_witness :
  EBIT (kpis Sample.canonical)
  = Frame.sum_cells (map signed_amount (rows Sample.canonical)).
Proof.
  apply kpis_EBIT_additive. intros r Hin.
  assert (Hall : forallb
                   (fun r => Frame.cell_eq (account_group r) "Revenue"
                             || Frame.cell_eq (account_group r) "COGS"
                             || Frame.cell_eq (account_group r) "OPEX")
                   (rows Sample.canonical) = true)
    by (vm_compute; reflexivity).
  rewrite forallb_forall in Hall. specialize (Hall r Hin).
  rewrite !orb_true_iff, !cell_eq_iff in Hall. tauto.
Defined.

End KpisMore.

Section PivotTotals.

Import Metrics.

Lemma column_sum_map (col : PivotRow -> Z) (rs : list Row) (ks : list (Z * Z)) :
  Spec.column_sum col (map (pivot_row rs) ks)
  = fold_right Z.add 0 (map (fun k => col (pivot_row rs k)) ks).
Proof.
  unfold Spec.column_sum. induction ks as [|k ks IH]; cbn; [reflexivity |].
  cbn in IH. now rewrite IH.
Qed.

Lemma fold_add_plus {A : Type} (f g : A -> Z) (l : list A) :
  fold_right Z.add 0 (map (fun x => f x + g x) l)
  = fold_right Z.add 0 (map f l) + fold_right Z.add 0 (map g l).
Proof.
  induction l as [|x l IH]; cbn; [reflexivity |]. cbn in IH. rewrite IH. lia.
Qed.

Lemma signed_total_filter (g : string) (p : Row -> bool) (rs : list Row) :
  Frame.sum_cells
    (map signed_amount
         (filter (fun r => p r && Frame.cell_eq (account_group r) g) rs))
  = Spec.signed_total g (filter p rs).
Proof.
  induction rs as [|r t IH]; cbn [filter Spec.signed_total]; [reflexivity |].
  destruct (p r); cbn [andb Spec.signed_total].
  - destruct (Frame.cell_eq (account_group r) g); cbn [map].
    + now rewrite sum_cells_cons, IH.
    + now rewrite IH.
  - exact IH.
Qed.

Lemma signed_total_split (g : string) (p : Row -> bool) (rs : list Row) :
  Spec.signed_total g rs
  = Spec.signed_total g (filter p rs)
    + Spec.signed_total g (filter (fun r => negb (p r)) rs).
Proof.
  induction rs as [|r t IH]; cbn [filter Spec.signed_total]; [reflexivity |].
  destruct (p r); cbn [negb Spec.signed_total]; lia.
Qed.

(** The total of a group over all the months of the pivot is its total
    over the rows that have a year, when every such row has a month and
    every row a group. *)
Lemma pivot_column_total (g : string) (rs : list Row) :
  (forall r, In r rs -> (exists g', account_group r = Some g')
                        /\ Spec.valid_period r = true) ->
  fold_right Z.add 0
    (map (fun k => Spec.month_total g (fst k) (snd k) rs) (pivot_index rs))
  = Spec.signed_total g (filter (fun r => Data.notna (year r)) rs).
Proof.
  intros Hcanon.
  transitivity
    (fold_right Z.add 0
       (map (fun k' => Frame.sum_cells
                         (map signed_amount
                              (filter (Group.in_group year_month_group k') rs)))
            (map (fun k : Z * Z => (k, g)) (pivot_index rs)))).
  { rewrite map_map. f_equal. apply map_ext. intros [y m]. cbn [fst snd].
    symmetry. apply group_cells_month_total. }
  rewrite group_cells_over.
  2: { apply NoDup_map_injective; [intros a b E; now inversion E |].
       apply (sorted_NoDup (pivot_index rs)), sorted_keys_sorted. }
  rewrite <- signed_total_filter. f_equal. f_equal.
  apply filter_ext_in. intros r Hin. apply eq_true_iff_eq.
  rewrite keyed_in_iff, andb_true_iff, cell_eq_iff. split.
  - intros [k [Hk Hkey]]. apply in_map_iff in Hk.
    destruct Hk as [[y m] [<- _]]. apply year_month_group_iff in Hkey.
    destruct Hkey as [Hy [_ Hg]]. rewrite Hy. auto.
  - intros [Hy Hg]. destruct (year r) as [y|] eqn:Ey; [| discriminate].
    destruct (Hcanon r Hin) as [_ Hv].
    destruct (valid_period_month r y Hv Ey) as [m [Hm _]].
    exists (y, m, g). split.
    + apply (in_map (fun k : Z * Z => (k, g)) _ (y, m)).
      apply in_pivot_index. exists r, g. auto.
    + apply year_month_group_iff. auto.
Qed.

(** X9: on a slice of the transaction table, the Revenue, Gross Profit and
    EBIT columns of the monthly pivot, summed over all its rows, are the
    indicators of the rows that have a date; the indicators of the whole
    slice exceed them by the revenue of the rows whose date did not parse,
    which are in no month. *)
Theorem monthly_pnl_totals (txn : DataFrame) (budget : option DataFrame)
        (tx bd df : DataFrame) :
  Data.load_all txn budget = Ok (tx, bd) ->
  incl (rows df) (rows tx) ->
  let pnl := monthly_pnl df in
  Spec.column_sum pv_Revenue pnl = Revenue (kpis (dated df))
  /\ Spec.column_sum pv_Gross_Profit pnl = Gross_Profit (kpis (dated df))
  /\ Spec.column_sum pv_EBIT pnl = EBIT (kpis (dated df))
  /\ Revenue (kpis df)
     = Spec.column_sum pv_Revenue pnl + Revenue (kpis (undated df))
  /\ EBIT (kpis df) = Spec.column_sum pv_EBIT pnl + EBIT (kpis (undated df)).
Proof.
  intros Hload Hslice pnl.
  assert (Hcanon : forall r, In r (rows df) ->
                     (exists g, account_group r = Some g)
                     /\ Spec.valid_period r = true).
  { intros r Hin. eapply load_all_rows_canonical; eauto. }
  assert (Hcol : forall g,
             fold_right Z.add 0
               (map (fun k => Spec.month_total g (fst k) (snd k) (rows df))
                    (pivot_index (rows df)))
             = group_sum g (dated df)).
  { intros g. rewrite group_sum_signed_total.
    now apply pivot_column_total. }
  assert (Hsplit : forall g,
             group_sum g df = group_sum g (dated df) + group_sum g (undated df)).
  { intros g. rewrite !group_sum_signed_total.
    apply (signed_total_split g (fun r => Data.notna (year r))). }
  assert (HR : Spec.column_sum pv_Revenue pnl = group_sum "Revenue" (dated df)).
  { unfold pnl. rewrite monthly_pnl_rows, column_sum_map. apply Hcol. }
  assert (HG : Spec.column_sum pv_Gross_Profit pnl
               = group_sum "Revenue" (dated df) + group_sum "COGS" (dated df)).
  { unfold pnl. rewrite monthly_pnl_rows, column_sum_map.
    cbn [pivot_row pv_Gross_Profit].
    rewrite (fold_add_plus
               (fun k => Spec.month_total "Revenue" (fst k) (snd k) (rows df))
               (fun k => Spec.month_total "COGS" (fst k) (snd k) (rows df))).
    now rewrite !Hcol. }
  assert (HE : Spec.column_sum pv_EBIT pnl
               = group_sum "Revenue" (dated df) + group_sum "COGS" (dated df)
                 + group_sum "OPEX" (dated df)).
  { unfold pnl. rewrite monthly_pnl_rows, column_sum_map.
    cbn [pivot_row pv_EBIT].
    rewrite (fold_add_plus
               (fun k => Spec.month_total "Revenue" (fst k) (snd k) (rows df)
                         + Spec.month_total "COGS" (fst k) (snd k) (rows df))
               (fun k => Spec.month_total "OPEX" (fst k) (snd k) (rows df))).
    rewrite (fold_add_plus
               (fun k => Spec.month_total "Revenue" (fst k) (snd k) (rows df))
               (fun k => Spec.month_total "COGS" (fst k) (snd k) (rows df))).
    now rewrite !Hcol. }
  unfold kpis. cbn [Revenue Gross_Profit EBIT].
  rewrite HR, HG, HE, (Hsplit "Revenue"), (Hsplit "COGS"), (Hsplit "OPEX").
  repeat split; lia.
Qed.

Lemma monthly_pnl_totals_witness :
  exists tx bd,
    Data.load_all (Sample.scenario 3 10 28) None = Ok (tx, bd)
    /\ Spec.column_sum pv_EBIT (monthly_pnl tx) = EBIT (kpis (dated tx)).
Proof.
  eexists _, _. split; [reflexivity |].
  exact (proj1 (proj2 (proj2 (monthly_pnl_totals (Sample.scenario 3 10 28) None
                                _ _ _ eq_refl (incl_refl _))))).
Defined.

End PivotTotals.

(* ================================================================== *)
(** * More on the period slices *)
(* ================================================================== *)

Section SlicesMore.

Import App.

Lemma flat_map_filter_skip {A K : Type} (p : K -> A -> bool) (x : A)
      (l : list A) (ks : list K) :
  (forall k, In k ks -> p k x = false) ->
  flat_map (fun k => filter (p k) (x :: l)) ks
  = flat_map (fun k => filter (p k) l) ks.
Proof.
  induction ks as [|k ks IH]; intros Hno; cbn [flat_map]; [reflexivity |].
  rewrite IH by (intros k' Hin; apply Hno; now right).
  change (filter (p k) (x :: l))
    with (if p k x then x :: filter (p k) l else filter (p k) l).
  now rewrite (Hno k (or_introl eq_refl)).
Qed.

Lemma flat_map_filter_once {A K : Type} (p : K -> A -> bool) (x : A)
      (l : list A) (k0 : K) (ks : list K) :
  NoDup ks -> In k0 ks -> p k0 x = true ->
  (forall k, In k ks -> p k x = true -> k = k0) ->
  Permutation (flat_map (fun k => filter (p k) (x :: l)) ks)
              (x :: flat_map (fun k => filter (p k) l) ks).
Proof.
  intros Hnd. induction Hnd as [|k ks Hnot Hnd IH]; intros Hin Hp Honly;
    [contradiction |].
  cbn [flat_map].
  change (filter (p k) (x :: l))
    with (if p k x then x :: filter (p k) l else filter (p k) l).
  destruct (p k x) eqn:E.
  - assert (k = k0) by (apply Honly; [now left | exact E]). subst k.
    rewrite flat_map_filter_skip; [reflexivity |].
    intros k' Hin'. destruct (p k' x) eqn:E'; [| reflexivity].
    assert (k' = k0) by (apply Honly; [now right | exact E']).
    subst. contradiction.
  - destruct Hin as [-> | Hin]; [congruence |].
    etransitivity; [| symmetry; apply Permutation_middle].
    apply Permutation_app_head. apply IH; auto.
    intros k' Hk'. apply Honly. now right.
Qed.

(** Filters of which each element passes exactly one split the list. *)
Lemma filters_partition {A K : Type} (p : K -> A -> bool) (ks : list K)
      (l : list A) :
  NoDup ks ->
  (forall x, In x l ->
     exists k, In k ks /\ p k x = true
               /\ forall k', In k' ks -> p k' x = true -> k' = k) ->
  Permutation (flat_map (fun k => filter (p k) l) ks) l.
Proof.
  intros Hnd. induction l as [|x l IH]; intros Hone.
  - clear. induction ks as [|k ks IH]; cbn; [constructor | exact IH].
  - destruct (Hone x (or_introl eq_refl)) as [k0 [Hin [Hp Honly]]].
    etransitivity; [apply (flat_map_filter_once p x l k0 ks); auto |].
    constructor. apply IH. intros y Hy. apply Hone. now right.
Qed.

Lemma flat_map_ext_in {A B : Type} (f g : A -> list B) (l : list A) :
  (forall a, In a l -> f a = g a) -> flat_map f l = flat_map g l.
Proof.
  induction l as [|a l IH]; intros H; cbn [flat_map]; [reflexivity |].
  rewrite (H a (or_introl eq_refl)), IH; [reflexivity |].
  intros b Hb. apply H. now right.
Qed.

Lemma months_NoDup : NoDup Pages.months.
Proof.
  unfold Pages.months.
  repeat (constructor; [cbn; intros H;
                        repeat (destruct H as [H | H]; [discriminate |]);
                        exact H |]).
  constructor.
Qed.

Lemma in_months (m : Z) : In m Pages.months <-> 1 <= m <= 12.
Proof. unfold Pages.months. cbn. lia. Qed.

(** X10: the month view picks, within the rows of the year, those of the
    month; for a month from 1 to 12 these are rows of the quarter the month
    lies in, and in a table whose rows of the year have such a month the
    twelve month slices hold together exactly the rows of the year
    slice. *)
Theorem month_slices_partition (t : DataFrame) (y : Z) :
  forallb (Spec.dated_in_year y) (rows t) = true ->
  let month_slice m := rows (slice_period t y "Month" None (Some m)) in
  (forall m, 1 <= m <= 12 ->
     month_slice m
     = filter (fun r => num_eq (month r) m)
              (rows (slice_period t y "Quarter" (Some (quarter_of m)) None)))
  /\ Permutation (flat_map month_slice Pages.months)
                 (rows (slice_period t y "Year" None None)).
Proof.
  intros Hdated month_slice. split.
  - intros m Hm. unfold month_slice.
    rewrite slice_month_rows by lia. rewrite slice_quarter_rows.
    set (l := filter (fun r => num_eq (year r) y) (rows t)).
    induction l as [|r l IH]; [reflexivity |].
    cbn [filter]. destruct (num_eq (month r) m) eqn:E.
    + pose proof (proj1 (num_eq_iff _ _) E) as E'. rewrite E'.
      assert (Hq : isin (Some m) (qmap (quarter_of m)) = true).
      { assert (Hcases : m = 1 \/ m = 2 \/ m = 3 \/ m = 4 \/ m = 5 \/ m = 6
                         \/ m = 7 \/ m = 8 \/ m = 9 \/ m = 10 \/ m = 11
                         \/ m = 12) by lia.
        repeat (destruct Hcases as [-> | Hcases]; [reflexivity |]).
        subst. reflexivity. }
      rewrite Hq. cbn [filter]. rewrite E. now rewrite IH.
    + rewrite IH. destruct (isin (month r) (qmap (quarter_of m)));
        [cbn [filter]; now rewrite E | reflexivity].
  - rewrite slice_year_rows.
    rewrite (flat_map_ext_in month_slice
               (fun m => filter (fun r => num_eq (month r) m)
                                (filter (fun r => num_eq (year r) y) (rows t)))).
    2: { intros m Hm. apply in_months in Hm. unfold month_slice.
         apply slice_month_rows. lia. }
    apply (filters_partition (fun m r => num_eq (month r) m)).
    + apply months_NoDup.
    + intros r Hin. apply filter_In in Hin. destruct Hin as [Hin Hy].
      rewrite forallb_forall in Hdated. specialize (Hdated r Hin).
      unfold Spec.dated_in_year in Hdated. rewrite Hy in Hdated.
      destruct (month r) as [m|]; [| discriminate].
      exists m. split; [apply in_months; lia |].
      split; [apply Z.eqb_refl |].
      intros m' _ E. cbn in E. apply Z.eqb_eq in E. now subst.
Qed.

Lemma month_slices_partition_witness :
  exists tx bd,
    Data.load_all (Sample.scenario 3 10 28) None = Ok (tx, bd)
    /\ Permutation
         (flat_map (fun m => rows (slice_period tx 2024 "Month" None (Some m)))
                   Pages.months)
         (rows (slice_period tx 2024 "Year" None None)).
Proof.
  eexists _, _. split; [reflexivity |].
  refine (proj2 (month_slices_partition _ 2024 _)). reflexivity.
Defined.

End SlicesMore.
(* ================================================================== *)
(** * Sorted tables: statement lines and top customers *)
(* ================================================================== *)

Section SortedTables.

Import App.

Lemma Forall_insert_desc {K : Type} (P : K * Z -> Prop) (e : K * Z)
      (l : list (K * Z)) :
  P e -> Forall P l -> Forall P (insert_desc e l).
Proof.
  intros He Hl. induction Hl as [|h t Hh Ht IH]; cbn [insert_desc].
  - constructor; [exact He | constructor].
  - destruct (Z.leb (snd h) (snd e)); constructor; auto.
Qed.

Lemma insert_desc_descending {K : Type} (e : K * Z) (l : list (K * Z)) :
  descending l -> descending (insert_desc e l).
Proof.
  unfold descending. intros Hl.
  induction Hl as [|h t Ht IH Hh]; cbn [insert_desc].
  - constructor; constructor.
  - destruct (Z.leb (snd h) (snd e)) eqn:E.
    + apply Z.leb_le in E. constructor.
      * constructor; assumption.
      * constructor; [exact E |].
        eapply Forall_impl; [| exact Hh]. intros b Hb. cbn beta in Hb. lia.
    + apply Z.leb_gt in E. constructor; [exact IH |].
      apply Forall_insert_desc; [lia | exact Hh].
Qed.

Lemma sort_desc_descending {K : Type} (l : list (K * Z)) :
  descending (sort_desc l).
Proof.
  induction l as [|e l IH]; cbn [sort_desc fold_right].
  - constructor.
  - apply insert_desc_descending. exact IH.
Qed.

Lemma insert_desc_perm {K : Type} (e : K * Z) (l : list (K * Z)) :
  Permutation (insert_desc e l) (e :: l).
Proof.
  induction l as [|h t IH]; cbn [insert_desc]; [reflexivity |].
  destruct (Z.leb (snd h) (snd e)); [reflexivity |].
  rewrite IH. apply perm_swap.
Qed.

Lemma sort_desc_perm {K : Type} (l : list (K * Z)) :
  Permutation (sort_desc l) l.
Proof.
  induction l as [|e l IH]; cbn [sort_desc fold_right]; [reflexivity |].
  rewrite insert_desc_perm. now constructor.
Qed.

Lemma descending_map_label {K : Type} (f : K -> string) (l : list (K * Z)) :
  descending l -> descending (map (fun e => (f (fst e), snd e)) l).
Proof.
  unfold descending. intros Hl. induction Hl as [|h t Ht IH Hh]; cbn [map].
  - constructor.
  - constructor; [exact IH |]. apply Forall_map. exact Hh.
Qed.

Lemma in_skipn_in {A : Type} (n : nat) (l : list A) (x : A) :
  In x (skipn n l) -> In x l.
Proof.
  revert l. induction n as [|n IH]; intros l Hin; [exact Hin |].
  destruct l as [|h t]; [contradiction |]. right. apply IH. exact Hin.
Qed.

(** A descending list cut in two: nothing after the cut is above anything
    before it. *)
Lemma descending_cut {K : Type} (n : nat) (l : list (K * Z)) :
  descending l ->
  forall a b, In a (firstn n l) -> In b (skipn n l) -> snd b <= snd a.
Proof.
  unfold descending. intros Hl. revert n.
  induction Hl as [|h t Ht IH Hh]; intros n a b Ha Hb.
  - destruct n; contradiction.
  - destruct n as [|n]; [contradiction |].
    cbn [firstn skipn] in Ha, Hb. destruct Ha as [<- | Ha].
    + rewrite Forall_forall in Hh. apply Hh.
      apply (in_skipn_in n). exact Hb.
    + eapply IH; eassumption.
Qed.

(** X11: the lines of a section of the statement come in descending order
    of their amounts, and every row of the group is in one of them, under
    its account or, without one, under "Unknown"; the amount of a line is
    the sum of the signed amounts of the rows of the group with that
    account. *)
Theorem section_lines_descending (df : DataFrame) (g : string) :
  columns df <> [] ->
  let lines := fst (section_rows df g) in
  descending lines
  /\ (forall r, In r (rows df) -> account_group r = Some g ->
        In (label (ACCOUNT r),
            Frame.sum_cells
              (map signed_amount
                   (filter (fun r' => Group.same (ACCOUNT r') (ACCOUNT r))
                           (rows (of_group g df)))))
           lines)
  /\ (forall lbl v, In (lbl, v) lines ->
        exists r, In r (rows df) /\ account_group r = Some g
                  /\ lbl = label (ACCOUNT r)).
Proof.
  intros Hcols lines. unfold lines, section_rows.
  destruct (Frame.empty (of_group g df)) eqn:Hempty; cbn [fst].
  - split; [constructor |]. split; [| intros lbl v []].
    intros r Hin Hg. exfalso.
    unfold Frame.empty, of_group, Frame.where_rows in Hempty.
    cbn [rows columns] in Hempty.
    assert (Hr : In r (filter (fun r => Frame.cell_eq (account_group r) g) (rows df))).
    { apply filter_In. split; [exact Hin | now apply cell_eq_iff]. }
    destruct (filter _ (rows df)); [contradiction |].
    destruct (columns df); [contradiction | discriminate].
  - split; [apply descending_map_label, sort_desc_descending |]. split.
    + intros r Hin Hg.
      apply (in_map (fun e : option string * Z => (label (fst e), snd e)) _
                    (ACCOUNT r, _)).
      apply (Permutation_in _ (Permutation_sym (sort_desc_perm _))).
      unfold Group.groupby_sum.
      apply (in_map (fun k : option string =>
                       (k, Frame.sum_cells
                             (map signed_amount
                                  (filter (Group.in_group account_key_keepna k)
                                          (rows (of_group g df))))))
                    _ (ACCOUNT r)).
      apply in_sorted_keys, in_present_keys. exists r. split; [| reflexivity].
      unfold of_group, Frame.where_rows. cbn [rows].
      apply filter_In. split; [exact Hin | now apply cell_eq_iff].
    + intros lbl v Hin. apply in_map_iff in Hin.
      destruct Hin as [[a v'] [E Hin]]. cbn [fst snd] in E.
      injection E as <- <-.
      apply (Permutation_in _ (sort_desc_perm _)) in Hin.
      assert (Hk : In a (map fst (Group.groupby_sum account_key_keepna signed_amount
                                    (rows (of_group g df)))))
        by (apply in_map_iff; exists (a, v'); auto).
      apply groupby_sum_keys in Hk. destruct Hk as [r [Hr Hkey]].
      unfold of_group, Frame.where_rows in Hr. cbn [rows] in Hr.
      apply filter_In in Hr. destruct Hr as [Hr Hg]. apply cell_eq_iff in Hg.
      exists r. unfold account_key_keepna in Hkey. injection Hkey as <-. auto.
Qed.

Lemma section_lines_descending_witness :
  descending (fst (section_rows Sample.canonical "COGS")).
Proof.
  assert (Hcols : columns Sample.canonical <> []) by (vm_compute; discriminate).
  exact (proj1 (section_lines_descending Sample.canonical "COGS" Hcols)).
Defined.

Lemma fold_add_app (l1 l2 : list Z) :
  fold_right Z.add 0 (l1 ++ l2)%list
  = fold_right Z.add 0 l1 + fold_right Z.add 0 l2.
Proof. induction l1 as [|a l1 IH]; cbn [app fold_right]; lia. Qed.

(** X12: the customers of the concentration chart.  The five shown are
    the largest: no customer left out has more revenue than one of the
    five; no customer is listed twice; and the five and the others
    together hold the revenue of all the Revenue rows that name a
    customer. *)
Theorem top5_are_the_largest (customer : Row -> option string) (DF : DataFrame) :
  let by_cust := Pages.rev_by_cust customer DF in
  (forall a b, In a (Pages.top5 by_cust) -> In b (skipn 5 by_cust) ->
     snd b <= snd a)
  /\ (List.length (Pages.top5 by_cust) <= 5)%nat
  /\ NoDup (map fst by_cust)
  /\ fold_right Z.add 0 (map snd (Pages.top5 by_cust)) + Pages.others by_cust
     = Frame.sum_cells
         (map signed_amount
              (filter (fun r => Data.notna (customer r))
                      (rows (of_group "Revenue" DF)))).
Proof.
  intros by_cust. unfold by_cust, Pages.rev_by_cust, Pages.top5, Pages.others.
  split; [| split; [| split]].
  - apply descending_cut, sort_desc_descending.
  - apply firstn_le_length.
  - eapply Permutation_NoDup.
    + apply Permutation_map. symmetry. apply sort_desc_perm.
    + apply groupby_sum_NoDup.
  - rewrite <- fold_add_app, <- map_app, firstn_skipn.
    rewrite sort_desc_sum. apply groupby_sum_total.
Qed.

End SortedTables.
(* ================================================================== *)
(** * The pages against the indicators *)
(* ================================================================== *)

Section PagesAgainstKpis.

Import Metrics App.

Lemma filter_filter_and {A : Type} (p q : A -> bool) (l : list A) :
  filter p (filter q l) = filter (fun x => q x && p x) l.
Proof.
  induction l as [|a l IH]; cbn [filter]; [reflexivity |].
  destruct (q a); cbn [filter andb]; [| exact IH].
  destruct (p a); now rewrite IH.
Qed.

Lemma filter_ext_in_eq {A : Type} (p q : A -> bool) (l : list A) :
  (forall x, In x l -> p x = q x) -> filter p l = filter q l.
Proof.
  induction l as [|a l IH]; intros Hpq; cbn [filter]; [reflexivity |].
  rewrite (Hpq a (or_introl eq_refl)), IH; [reflexivity |].
  intros x Hx. apply Hpq. now right.
Qed.

Lemma same_Z (a b : Z) : Group.same a b = Z.eqb a b.
Proof.
  destruct (Z.eqb_spec a b) as [-> | Hne].
  - apply same_refl.
  - destruct (Group.same a b) eqn:E; [| reflexivity].
    apply same_iff in E. contradiction.
Qed.

Lemma in_group_year (y : Z) (r : Row) :
  Group.in_group year_key y r = num_eq (year r) y.
Proof.
  unfold Group.in_group, year_key, num_eq.
  destruct (year r); [apply same_Z | reflexivity].
Qed.

Lemma in_group_month (m : Z) (r : Row) :
  Group.in_group Pages.month_key m r = num_eq (month r) m.
Proof.
  unfold Group.in_group, Pages.month_key, num_eq.
  destruct (month r); [apply same_Z | reflexivity].
Qed.

(** The sum of a group over the rows that pass a filter. *)
Lemma group_sum_where (g : string) (p : Row -> bool) (df : DataFrame) :
  group_sum g (Frame.where_rows p df) = Spec.signed_total g (filter p (rows df)).
Proof. apply group_sum_signed_total. Qed.

Lemma signed_total_of_group (g : string) (p : Row -> bool) (rs : list Row) :
  Frame.sum_cells
    (map signed_amount
         (filter p (filter (fun r => Frame.cell_eq (account_group r) g) rs)))
  = Spec.signed_total g (filter p rs).
Proof.
  rewrite filter_filter_and, <- signed_total_filter.
  f_equal. f_equal. apply filter_ext_in_eq. intros r _. apply andb_comm.
Qed.

Lemma signed_total_expenses (p : Row -> bool) (rs : list Row) :
  Frame.sum_cells
    (map signed_amount
         (filter p
            (filter (fun r => Pages.str_isin (account_group r) ["COGS"; "OPEX"])
                    rs)))
  = Spec.signed_total "COGS" (filter p rs) + Spec.signed_total "OPEX" (filter p rs).
Proof.
  induction rs as [|r t IH]; cbn [filter]; [reflexivity |].
  assert (Hcase :
            (Pages.str_isin (account_group r) ["COGS"; "OPEX"] = true
             /\ ((Frame.cell_eq (account_group r) "COGS" = true
                  /\ Frame.cell_eq (account_group r) "OPEX" = false)
                 \/ (Frame.cell_eq (account_group r) "COGS" = false
                     /\ Frame.cell_eq (account_group r) "OPEX" = true)))
            \/ (Pages.str_isin (account_group r) ["COGS"; "OPEX"] = false
                /\ Frame.cell_eq (account_group r) "COGS" = false
                /\ Frame.cell_eq (account_group r) "OPEX" = false)).
  { destruct (account_group r) as [x|]; [| right; repeat split].
    unfold Pages.str_isin, PyStr.mem, Frame.cell_eq. cbn [existsb].
    destruct (String.eqb_spec x "COGS") as [-> | H1]; [left; auto |].
    destruct (String.eqb_spec x "OPEX") as [-> | H2]; [left; auto |].
    right. auto. }
  destruct Hcase as [[-> Hc] | [-> [Hc Ho]]]; cbn [filter].
  - destruct (p r); cbn [map Spec.signed_total]; [| exact IH].
    rewrite sum_cells_cons, IH.
    destruct Hc as [[-> ->] | [-> ->]]; lia.
  - rewrite IH. destruct (p r); cbn [Spec.signed_total]; [| reflexivity].
    rewrite Hc, Ho. lia.
Qed.

Lemma sorted_lt_of_key_lt (l : list Z) :
  StronglySorted key_lt l -> StronglySorted Z.lt l.
Proof.
  induction 1 as [|a l Hl IH Ha]; constructor; [exact IH |].
  eapply Forall_impl; [| exact Ha]. intros b Hb. exact Hb.
Qed.

(** X13: the yearly comparison of the overview has one bar pair per year
    in which the table has a row of one of the three groups, the years
    ascending; its Revenue is the revenue indicator of the year slice, its
    Expenses the sum of the signed COGS and OPEX amounts of the year, so
    the two add up to the EBIT of the year. *)
Theorem yearly_bars_match_kpis (DF : DataFrame) :
  let bars := Pages.rev_exp DF in
  StronglySorted Z.lt (map Pages.ry_year bars)
  /\ (forall y, In y (map Pages.ry_year bars)
        <-> exists r, In r (rows DF) /\ year r = Some y
                      /\ (account_group r = Some "Revenue"
                          \/ account_group r = Some "COGS"
                          \/ account_group r = Some "OPEX"))
  /\ (forall b, In b bars ->
        let k := kpis (slice_period DF (Pages.ry_year b) "Year" None None) in
        Pages.ry_Revenue b = Revenue k
        /\ Pages.ry_Revenue b + Pages.ry_Expenses b = EBIT k).
Proof.
  intros bars. unfold bars, Pages.rev_exp.
  set (rev_year := Group.groupby_sum year_key signed_amount
                     (rows (of_group "Revenue" DF))).
  set (exp_year := Group.groupby_sum year_key signed_amount
                     (rows (Pages.expenses DF))).
  split; [| split].
  - rewrite map_map. cbn [Pages.ry_year]. rewrite map_id.
    apply sorted_lt_of_key_lt, sorted_keys_sorted.
  - intros y. rewrite map_map. cbn [Pages.ry_year]. rewrite map_id.
    rewrite in_sorted_keys, in_app_iff. unfold rev_year, exp_year.
    rewrite !groupby_sum_keys.
    unfold of_group, Pages.expenses, Frame.where_rows, year_key. cbn [rows].
    split.
    + intros [[r [Hr Hy]] | [r [Hr Hy]]]; apply filter_In in Hr;
        destruct Hr as [Hr Hg]; exists r; (split; [exact Hr |]);
        (split; [exact Hy |]).
      * left. now apply cell_eq_iff.
      * destruct (account_group r) as [x|]; [| discriminate].
        apply mem_iff in Hg. cbn in Hg.
        destruct Hg as [<- | [<- | []]]; auto.
    + intros [r [Hr [Hy [Hg | [Hg | Hg]]]]].
      * left. exists r. split; [| exact Hy].
        apply filter_In. split; [exact Hr | now apply cell_eq_iff].
      * right. exists r. split; [| exact Hy].
        apply filter_In. split; [exact Hr | now rewrite Hg].
      * right. exists r. split; [| exact Hy].
        apply filter_In. split; [exact Hr | now rewrite Hg].
  - intros b Hb. apply in_map_iff in Hb. destruct Hb as [y [<- _]].
    cbn [Pages.ry_year Pages.ry_Revenue Pages.ry_Expenses].
    unfold kpis. cbn [Revenue EBIT].
    assert (Hslice : forall g,
               group_sum g (slice_period DF y "Year" None None)
               = Spec.signed_total g (filter (fun r => num_eq (year r) y) (rows DF))).
    { intros g. apply (group_sum_where g (fun r => num_eq (year r) y) DF). }
    rewrite !Hslice.
    assert (Hrev : Pages.fill0 (Group.lookup y rev_year)
                   = Spec.signed_total "Revenue"
                       (filter (fun r => num_eq (year r) y) (rows DF))).
    { unfold Pages.fill0, rev_year. rewrite lookup_groupby_sum.
      unfold of_group, Frame.where_rows. cbn [rows].
      rewrite (filter_ext_in_eq (Group.in_group year_key y)
                                (fun r => num_eq (year r) y))
        by (intros r _; apply in_group_year).
      apply signed_total_of_group. }
    assert (Hexp : Pages.fill0 (Group.lookup y exp_year)
                   = Spec.signed_total "COGS"
                       (filter (fun r => num_eq (year r) y) (rows DF))
                     + Spec.signed_total "OPEX"
                         (filter (fun r => num_eq (year r) y) (rows DF))).
    { unfold Pages.fill0, exp_year. rewrite lookup_groupby_sum.
      unfold Pages.expenses, Frame.where_rows. cbn [rows].
      rewrite (filter_ext_in_eq (Group.in_group year_key y)
                                (fun r => num_eq (year r) y))
        by (intros r _; apply in_group_year).
      apply signed_total_expenses. }
    rewrite Hrev, Hexp. split; lia.
Qed.

Lemma last_cumsum (acc : Z) (l : list Z) (d : Z) :
  l <> [] -> last (Pages.cumsum acc l) d = acc + fold_right Z.add 0 l.
Proof.
  revert acc. induction l as [|x t IH]; intros acc Hne; [contradiction |].
  destruct t as [|x' t'].
  - cbn. lia.
  - change (Pages.cumsum acc (x :: x' :: t'))
      with ((acc + x) :: Pages.cumsum (acc + x) (x' :: t')).
    change (last ((acc + x) :: Pages.cumsum (acc + x) (x' :: t')) d)
      with (last (Pages.cumsum (acc + x) (x' :: t')) d).
    rewrite IH by discriminate. cbn [fold_right]. lia.
Qed.

Lemma keyed_in_months (r : Row) (m : Z) :
  month r = Some m -> 1 <= m <= 12 ->
  keyed_in Pages.month_key Pages.months r = true.
Proof.
  intros Hm Hr. apply keyed_in_iff. exists m. split; [| exact Hm].
  apply in_months. exact Hr.
Qed.

(** The Revenue rows of a year, in a table whose rows of the year have a
    month of the calendar. *)
Lemma dated_rows_pass (DF : DataFrame) (y : Z) (p : Row -> bool) :
  forallb (Spec.dated_in_year y) (rows DF) = true ->
  (forall r m, month r = Some m -> 1 <= m <= 12 -> p r = true) ->
  forall r, In r (filter (fun r => num_eq (year r) y) (rows (rev_all DF))) ->
            p r = true.
Proof.
  intros Hdated Hp r Hin. apply filter_In in Hin. destruct Hin as [Hin Hy].
  unfold rev_all, of_group, Frame.where_rows in Hin. cbn [rows] in Hin.
  apply filter_In in Hin. destruct Hin as [Hin _].
  rewrite forallb_forall in Hdated. specialize (Hdated r Hin).
  unfold Spec.dated_in_year in Hdated. rewrite Hy in Hdated.
  destruct (month r) as [m|] eqn:Em; [| discriminate].
  apply andb_true_iff in Hdated. destruct Hdated as [H1 H2].
  apply Z.leb_le in H1. apply Z.leb_le in H2. apply (Hp r m Em). lia.
Qed.

Lemma revenue_of_year (DF : DataFrame) (y : Z) :
  Frame.sum_cells
    (map signed_amount
         (filter (fun r => num_eq (year r) y) (rows (rev_all DF))))
  = Revenue (kpis (slice_period DF y "Year" None None)).
Proof.
  unfold kpis. cbn [Revenue].
  rewrite group_sum_signed_total, slice_year_rows.
  apply signed_total_of_group.
Qed.

(** X14: the revenue flow of a year has the twelve months in order, under
    their names, each with the revenue indicator of the month slice, zero
    for a month without revenue; its cumulative line is the running sum of
    the months, and in a table whose rows of the year have a month of the
    calendar it ends at the revenue of the year. *)
Theorem revenue_flow_of_year (DF : DataFrame) (y : Z) :
  let flow := Pages.revenue_flow (rev_all DF) y in
  map Pages.fl_month flow = Pages.months
  /\ map Pages.fl_MonthName flow = Pages.month_names
  /\ map Pages.fl_Revenue flow
     = map (fun m => Revenue (kpis (slice_period DF y "Month" None (Some m))))
           Pages.months
  /\ map Pages.fl_Cumulative flow = Pages.cumsum 0 (map Pages.fl_Revenue flow)
  /\ (forallb (Spec.dated_in_year y) (rows DF) = true ->
      last (map Pages.fl_Cumulative flow) 0
      = Revenue (kpis (slice_period DF y "Year" None None))).
Proof.
  intros flow.
  set (base := Group.groupby_sum Pages.month_key signed_amount
                 (rows (Frame.where_rows (fun r => num_eq (year r) y) (rev_all DF)))).
  assert (Hrev : map Pages.fl_Revenue flow
                 = map (fun m => Pages.fill0 (Group.lookup m base)) Pages.months)
    by reflexivity.
  assert (Hmonth : forall m, m <> 0 ->
             Pages.fill0 (Group.lookup m base)
             = Revenue (kpis (slice_period DF y "Month" None (Some m)))).
  { intros m Hm. unfold Pages.fill0, base. rewrite lookup_groupby_sum.
    unfold kpis. cbn [Revenue]. rewrite group_sum_signed_total.
    rewrite slice_month_rows by exact Hm.
    unfold rev_all, of_group, Frame.where_rows. cbn [rows].
    rewrite (filter_ext_in_eq (Group.in_group Pages.month_key m)
                              (fun r => num_eq (month r) m))
      by (intros r _; apply in_group_month).
    rewrite !filter_filter_and.
    rewrite <- (signed_total_filter "Revenue"
                  (fun r => num_eq (year r) y && num_eq (month r) m)).
    f_equal. f_equal. apply filter_ext_in_eq. intros r _.
    destruct (Frame.cell_eq (account_group r) "Revenue"),
             (num_eq (year r) y), (num_eq (month r) m); reflexivity. }
  assert (Hcum : map Pages.fl_Cumulative flow
                 = Pages.cumsum 0 (map Pages.fl_Revenue flow))
    by reflexivity.
  split; [reflexivity |]. split; [reflexivity |].
  split; [| split; [exact Hcum |]].
  - rewrite Hrev. apply map_ext_in. intros m Hin. apply Hmonth.
    apply in_months in Hin. lia.
  - intros Hdated. rewrite Hcum, last_cumsum.
    2: { rewrite Hrev. discriminate. }
    rewrite Hrev, Z.add_0_l. unfold Pages.fill0, base.
    rewrite (map_ext _ _ (lookup_groupby_sum Pages.month_key signed_amount _)).
    rewrite (group_cells_over Pages.month_key signed_amount _ _ months_NoDup).
    cbn [Frame.where_rows rows].
    rewrite filter_all; [apply revenue_of_year |].
    apply (dated_rows_pass DF y _ Hdated). apply keyed_in_months.
Qed.

Lemma revenue_flow_of_year_witness :
  last (map Pages.fl_Cumulative (Pages.revenue_flow (rev_all Sample.canonical) 2024)) 0
  = Revenue (kpis (slice_period Sample.canonical 2024 "Year" None None)).
Proof.
  apply (revenue_flow_of_year Sample.canonical 2024). reflexivity.
Defined.

Lemma isin_months (r : Row) (m : Z) :
  month r = Some m -> 1 <= m <= 12 -> isin (month r) Pages.months = true.
Proof.
  intros -> Hr. unfold isin. apply existsb_exists. exists m.
  split; [now apply in_months | apply Z.eqb_refl].
Qed.

(** X15: on the Revenue page, for a year whose rows have a month of the
    calendar, the total with all twelve months selected, which is the
    default, is the total with no month selected, and both are the
    revenue indicator of the year slice. *)
Theorem revenue_total_all_months (DF : DataFrame) (y : Z) :
  forallb (Spec.dated_in_year y) (rows DF) = true ->
  total_rev DF (Some y) Pages.months = total_rev DF (Some y) []
  /\ total_rev DF (Some y) []
     = Revenue (kpis (slice_period DF y "Year" None None)).
Proof.
  intros Hdated. unfold total_rev, sum_column, month_filter, year_filter.
  cbn [Pages.months Frame.where_rows rows]. split.
  - rewrite filter_all; [reflexivity |].
    apply (dated_rows_pass DF y _ Hdated). apply isin_months.
  - apply revenue_of_year.
Qed.

Lemma revenue_total_all_months_witness :
  total_rev Sample.canonical (Some 2024) Pages.months
  = total_rev Sample.canonical (Some 2024) [].
Proof.
  exact (proj1 (revenue_total_all_months Sample.canonical 2024 eq_refl)).
Defined.

End PagesAgainstKpis.
(* ================================================================== *)
(** * The pages on a loaded table *)
(* ================================================================== *)

Section LoadedTables.

Import Data Metrics App.

(** A row of a loaded table: its group, and the sign of its amount. *)
Lemma loaded_row_signs (txn : DataFrame) (budget : option DataFrame)
      (tx bd : DataFrame) (r : Row) :
  load_all txn budget = Ok (tx, bd) ->
  In r (rows tx) ->
  exists v : Z,
    signed_amount r = Some v
    /\ ((account_group r = Some "Revenue" /\ 0 <= v)
        \/ ((account_group r = Some "COGS" \/ account_group r = Some "OPEX")
            /\ v <= 0)).
Proof.
  intros Hload Hin.
  destruct (load_all_kept_rows _ _ _ _ r Hload Hin) as [r0 [_ [-> Hkeep]]].
  destruct (kept_row_shape _ _ r0 Hkeep) as [a [_ [[Hg Hs] | [Hg Hs]]]].
  - exists (Z.abs a). split; [exact Hs |]. left. split; [exact Hg | lia].
  - exists (- Z.abs a). split; [exact Hs |]. right. split; [exact Hg | lia].
Qed.

Lemma total_abs_signed (g : string) (DF : DataFrame) :
  (g = "COGS" \/ g = "OPEX") ->
  (forall r, In r (rows DF) -> account_group r = Some g ->
     exists v, signed_amount r = Some v /\ v <= 0) ->
  Pages.total_abs g DF = - group_sum g DF.
Proof.
  intros Hg Hneg. unfold Pages.total_abs, Pages.expenses, Frame.where_rows.
  cbn [rows]. rewrite group_sum_signed_total.
  induction (rows DF) as [|r t IH]; [reflexivity |].
  cbn [filter Spec.signed_total].
  assert (IH' := IH (fun r' Hin => Hneg r' (or_intror Hin))).
  destruct (Frame.cell_eq (account_group r) g) eqn:E.
  - apply cell_eq_iff in E.
    destruct (Hneg r (or_introl eq_refl) E) as [v [Hv Hle]].
    assert (Hin : Pages.str_isin (account_group r) ["COGS"; "OPEX"] = true).
    { rewrite E. destruct Hg as [-> | ->]; reflexivity. }
    rewrite Hin. cbn [filter].
    assert (E' : Frame.cell_eq (account_group r) g = true) by now apply cell_eq_iff.
    rewrite E'. cbn [map]. rewrite sum_cells_cons, IH'.
    unfold Pages.abs_amount. rewrite Hv. cbn. lia.
  - destruct (Pages.str_isin (account_group r) ["COGS"; "OPEX"]); cbn [filter];
      rewrite ?E; rewrite IH'; lia.
Qed.

Lemma signed_total_sign (g : string) (rs : list Row) (nonneg : bool) :
  (forall r, In r rs -> account_group r = Some g ->
     exists v, signed_amount r = Some v /\ if nonneg then 0 <= v else v <= 0) ->
  if nonneg then 0 <= Spec.signed_total g rs else Spec.signed_total g rs <= 0.
Proof.
  intros Hsign. induction rs as [|r t IH]; cbn [Spec.signed_total].
  - destruct nonneg; lia.
  - assert (IH' := IH (fun r' Hin => Hsign r' (or_intror Hin))).
    destruct (Frame.cell_eq (account_group r) g) eqn:E.
    + apply cell_eq_iff in E.
      destruct (Hsign r (or_introl eq_refl) E) as [v [-> Hv]].
      cbn. destruct nonneg; lia.
    + destruct nonneg; lia.
Qed.

(** X16: on every part of a loaded table, the totals of the Expenses page
    are the costs of the overview: the COGS total is the COGS spend of the
    budget card, and each total is minus the signed sum of its group; the
    revenue is not negative, and EBIT is the revenue less the two
    totals. *)
Theorem expense_totals_match_overview (txn : DataFrame)
        (budget : option DataFrame) (tx bd DF : DataFrame) :
  load_all txn budget = Ok (tx, bd) ->
  incl (rows DF) (rows tx) ->
  Pages.total_cogs DF = actual_cogs_spend DF
  /\ Pages.total_cogs DF = - group_sum "COGS" DF
  /\ Pages.total_opex DF = - group_sum "OPEX" DF
  /\ 0 <= Revenue (kpis DF)
  /\ EBIT (kpis DF) = Revenue (kpis DF) - Pages.total_cogs DF - Pages.total_opex DF.
Proof.
  intros Hload Hincl.
  assert (Hneg : forall g, g = "COGS" \/ g = "OPEX" ->
             forall r, In r (rows DF) -> account_group r = Some g ->
               exists v, signed_amount r = Some v /\ v <= 0).
  { intros g Hg r Hin Hr.
    destruct (loaded_row_signs _ _ _ _ r Hload (Hincl r Hin))
      as [v [Hv [[Hg' _] | [_ Hle]]]]; [| eauto].
    rewrite Hr in Hg'. destruct Hg as [-> | ->]; discriminate. }
  assert (Hpos : forall r, In r (rows DF) -> account_group r = Some "Revenue" ->
             exists v, signed_amount r = Some v /\ 0 <= v).
  { intros r Hin Hr.
    destruct (loaded_row_signs _ _ _ _ r Hload (Hincl r Hin))
      as [v [Hv [[_ Hge] | [[Hg' | Hg'] _]]]]; [eauto | |];
      rewrite Hr in Hg'; discriminate. }
  assert (Hc : Pages.total_cogs DF = - group_sum "COGS" DF)
    by (apply total_abs_signed; [now left | apply Hneg; now left]).
  assert (Ho : Pages.total_opex DF = - group_sum "OPEX" DF)
    by (apply total_abs_signed; [now right | apply Hneg; now right]).
  pose proof (signed_total_sign "COGS" (rows DF) false (Hneg "COGS" (or_introl eq_refl)))
    as Hcs.
  pose proof (signed_total_sign "Revenue" (rows DF) true Hpos) as Hrs.
  cbv beta iota in Hcs, Hrs. rewrite <- group_sum_signed_total in Hcs, Hrs.
  unfold actual_cogs_spend, kpis. cbn [Revenue EBIT].
  rewrite Hc, Ho. repeat split; lia.
Qed.

Lemma expense_totals_match_overview_witness :
  Pages.total_cogs Sample.canonical = actual_cogs_spend Sample.canonical.
Proof.
  refine (proj1 (expense_totals_match_overview
                   (Sample.scenario 3 10 28) None Sample.canonical _
                   Sample.canonical eq_refl _)).
  intros r Hin. exact Hin.
Defined.

Lemma other_income_rows (S : DataFrame) (r : Row) :
  In r (rows (other_income S)) -> In r (rows S).
Proof.
  unfold other_income, of_group, Frame.where_rows.
  destruct (Frame.has "Short_CLASS" S); [| destruct (Frame.has "CLASS" S);
    [| destruct (existsb _ (rows S))]]; cbn [rows]; intros Hin;
    try (apply filter_In in Hin; tauto); contradiction.
Qed.

(** X17: on every part of a loaded table, the rows shown as Other Income
    are rows of the Revenue, COGS or OPEX section as well: Other Income is
    no fourth kind of row, and its total enters the net profit beside the
    section that already holds these rows. *)
Theorem other_income_rows_are_section_rows (txn : DataFrame)
        (budget : option DataFrame) (tx bd S : DataFrame) :
  load_all txn budget = Ok (tx, bd) ->
  incl (rows S) (rows tx) ->
  forall r, In r (rows (other_income S)) ->
    In r (rows (of_group "Revenue" S))
    \/ In r (rows (of_group "COGS" S))
    \/ In r (rows (of_group "OPEX" S)).
Proof.
  intros Hload Hincl r Hin. apply other_income_rows in Hin.
  unfold of_group, Frame.where_rows. cbn [rows]. rewrite !filter_In.
  destruct (loaded_row_signs _ _ _ _ r Hload (Hincl r Hin))
    as [v [_ [[Hg _] | [[Hg | Hg] _]]]]; rewrite Hg; auto.
Qed.

Lemma other_income_rows_are_section_rows_witness :
  exists tx bd r,
    load_all interest_income_sheet None = Ok (tx, bd)
    /\ In r (rows (other_income tx))
    /\ In r (rows (of_group "Revenue" tx)).
Proof.
  eexists _, _, _. split; [reflexivity |].
  assert (Hin : In (Rowwise.tx_row true false
                      (Sample.txn (mkTimestamp 2024 Mar 5) "Interest" "revenue"
                                  (Some "Other Income") 50))
                   (rows (other_income (load_tx interest_income_sheet))))
    by (left; reflexivity).
  split; [exact Hin |].
  destruct (other_income_rows_are_section_rows
              interest_income_sheet None _ _ (load_tx interest_income_sheet)
              eq_refl (fun r H => H) _ Hin) as [H | [H | H]];
    [exact H | |]; exfalso; apply filter_In in H; destruct H as [_ H];
    vm_compute in H; discriminate.
Defined.

End LoadedTables.
(* ================================================================== *)
(** * The budget of the Revenue page, and more on uploads *)
(* ================================================================== *)

Section BudgetOfPeriod.

Import Data Float App.

Lemma loaded_budget_shape (b : DataFrame) :
  columns (load_budget b) = ["year"; "account_group"; "budget_amount"]
  /\ forall r, In r (rows (load_budget b)) -> notna (year r) = true.
Proof.
  split; [reflexivity |].
  intros r Hin. pose proof (load_budget_rows b) as Hrows. cbv zeta in Hrows.
  rewrite Hrows in Hin. apply in_map_iff in Hin.
  destruct Hin as [[[y g] v] [<- _]]. reflexivity.
Qed.

(** X18: a budget table made by [load_all] has no month, so the budget of
    the Revenue page is always the annual one spread evenly: the Revenue
    budget of the selected year, or of all years, divided by twelve and
    multiplied by the number of months selected, twelve when none is;
    which months are selected plays no part, only how many. *)
Theorem loaded_budget_is_spread_evenly (txn b tx bd : DataFrame)
        (year_rev : option Z) (month_sel : list Z) :
  load_all txn (Some b) = Ok (tx, bd) ->
  let annual :=
    sum_column budget_amount (year_filter year_rev (of_group "Revenue" bd)) in
  let months_in_slice :=
    match month_sel with [] => 12 | _ => Z.of_nat (List.length month_sel) end in
  has_month bd = false
  /\ exists q, budget_val bd year_rev month_sel = Fin q
               /\ q == inject_Z annual / 12 * inject_Z months_in_slice.
Proof.
  intros Hload annual months_in_slice.
  apply load_all_ok in Hload. destruct Hload as [_ ->].
  destruct (loaded_budget_shape b) as [Hcols Hyear].
  unfold annual. clear annual.
  destruct (load_budget b) as [cols rs]. cbn [columns rows] in Hcols, Hyear.
  subst cols. split; [reflexivity |].
  unfold budget_val, Frame.empty. cbn [rows columns].
  destruct rs as [|r0 rs0] eqn:Ers.
  - cbn [negb]. exists 0%Q. split; [reflexivity |].
    unfold sum_column, year_filter, of_group, Frame.where_rows.
    destruct year_rev; cbn [rows filter map Frame.sum_cells fold_right];
      unfold Qeq; cbn; lia.
  - rewrite <- Ers in *. clear Ers r0 rs0.
    cbn [negb]. cbv zeta.
    change (Frame.has "year" (mkFrame ["year"; "account_group"; "budget_amount"] rs))
      with true.
    cbn [negb andb].
    change (has_month (mkFrame ["year"; "account_group"; "budget_amount"] rs))
      with false.
    cbv iota.
    set (b_rev := year_filter year_rev
                    (of_group "Revenue"
                       (mkFrame ["year"; "account_group"; "budget_amount"] rs))).
    assert (Hsum : fold_right Z.add 0
                     (map snd (Group.groupby_sum year_key budget_amount (rows b_rev)))
                   = sum_column budget_amount b_rev).
    { rewrite groupby_sum_total. unfold sum_column. rewrite filter_all; [reflexivity |].
      intros r Hin. apply Hyear. unfold b_rev, year_filter, of_group, Frame.where_rows in Hin.
      destruct year_rev; cbn [rows] in Hin;
        repeat (apply filter_In in Hin; destruct Hin as [Hin _]); exact Hin. }
    rewrite Hsum. unfold of_Z, div, mul.
    change (is_zero 12) with false. cbv iota.
    eexists. split; [reflexivity |]. reflexivity.
Qed.

Lemma loaded_budget_is_spread_evenly_witness :
  exists tx bd,
    load_all (Sample.scenario 3 10 28) (Some Sample.two_month_budget) = Ok (tx, bd)
    /\ has_month bd = false.
Proof.
  eexists _, _. split; [reflexivity |].
  exact (proj1 (loaded_budget_is_spread_evenly
                  (Sample.scenario 3 10 28) Sample.two_month_budget _ _
                  (Some 2024) [1] eq_refl)).
Defined.

End BudgetOfPeriod.

Section UploadsMore.

Import Data App.



Lemma period_set_signed_amount (v : option Z) (r : Row) :
  year (Frame.set_signed_amount v r) = year r
  /\ month (Frame.set_signed_amount v r) = month r
  /\ date (Frame.set_signed_amount v r) = date r.
Proof. repeat split. Qed.

Lemma period_project (keep : list string) (r : Row) :
  year (Frame.project keep r) = Frame.keep_cell keep "year" (year r)
  /\ month (Frame.project keep r) = Frame.keep_cell keep "month" (month r).
Proof. split; reflexivity. Qed.

Lemma period_period_row (r : Row) :
  year (Rowwise.period_row r) = option_map ts_year (date r)
  /\ month (Rowwise.period_row r)
     = option_map (fun t => month_number (ts_month t)) (date r).
Proof. split; reflexivity. Qed.

Lemma upload_row_period (hs ha hg : bool) (keep : list string) (r : Row) :
  PyStr.mem "month" keep = true ->
  let r' := Rowwise.upload_row true hs ha hg keep r in
  year r' = Frame.keep_cell keep "year" (option_map ts_year (date r))
  /\ month r' = option_map (fun t => month_number (ts_month t)) (date r).
Proof.
  intros Hm. unfold Rowwise.upload_row. cbv zeta.
  destruct (negb hs && ha), hg, (PyStr.mem "signed_amount" keep);
    repeat rewrite ?(proj1 (period_set_signed_amount _ _)),
                   ?(proj1 (proj2 (period_set_signed_amount _ _))),
                   ?(proj1 (period_project _ _)),
                   ?(proj2 (period_project _ _));
    rewrite (proj1 (period_period_row r)), (proj2 (period_period_row r));
    unfold Frame.keep_cell; rewrite Hm; split; reflexivity.
Qed.

(** X20: an upload with a date column, aligned with a table that has a
    month column as every loaded table has, comes out with the year and
    the month of its dates: every row with a year has a month of the
    calendar, so for every year the rows meet the condition under which
    the quarter and the month slices partition the year. *)
Theorem dated_upload_has_calendar_months (df tx_template : DataFrame) :
  Frame.has "date" df = true ->
  Frame.has "month" tx_template = true ->
  exists out,
    _normalize_uploaded_tx df tx_template = Ok out
    /\ (forall r, In r (rows out) -> Spec.valid_period r = true)
    /\ (forall y, forallb (Spec.dated_in_year y) (rows out) = true).
Proof.
  intros Hdate Hmonth. rewrite normalize_uploaded_tx_rows. cbv zeta.
  rewrite Hdate.
  set (keep := filter (fun c => Frame.has c tx_template) (derived_columns df)).
  assert (Hkeep : PyStr.mem "month" keep = true).
  { apply mem_iff. unfold keep. apply filter_In. split; [| exact Hmonth].
    unfold derived_columns, _ensure_period_cols. cbv zeta. rewrite Hdate.
    destruct (negb _ && _); rewrite ?in_columns_assign; auto. }
  eexists. split; [reflexivity |]. cbn [rows].
  assert (Hvalid : forall r,
             In r (map (Rowwise.upload_row true (Frame.has "signed_amount" df)
                          (Frame.has "AMOUNT" df) (Frame.has "account_group" df) keep)
                       (rows df)) ->
             Spec.valid_period r = true).
  { intros r Hin. apply in_map_iff in Hin. destruct Hin as [r0 [<- _]].
    destruct (upload_row_period (Frame.has "signed_amount" df) (Frame.has "AMOUNT" df)
                (Frame.has "account_group" df) keep r0 Hkeep) as [Hy Hm].
    unfold Spec.valid_period. rewrite Hy, Hm. unfold Frame.keep_cell.
    destruct (PyStr.mem "year" keep); [| reflexivity].
    destruct (date r0) as [t|]; [| reflexivity]. cbn [option_map].
    pose proof (month_number_range (ts_month t)).
    apply andb_true_iff. split; apply Z.leb_le; lia. }
  split; [exact Hvalid |].
  intros y. apply forallb_forall. intros r Hin. specialize (Hvalid r Hin).
  unfold Spec.dated_in_year. destruct (num_eq (year r) y) eqn:Ey; [| reflexivity].
  apply num_eq_iff in Ey. unfold Spec.valid_period in Hvalid.
  rewrite Ey in Hvalid. exact Hvalid.
Qed.

Lemma load_tx_has_period (t : DataFrame) :
  Frame.has "date" (load_tx t) = true
  /\ Frame.has "year" (load_tx t) = true
  /\ Frame.has "month" (load_tx t) = true.
Proof.
  rewrite !has_iff. unfold load_tx. cbv zeta. unfold Frame.where_rows.
  cbn [columns]. rewrite !in_columns_assign.
  rewrite !has_assign_other by reflexivity.
  destruct (Frame.has "Short_CLASS" t);
    rewrite ?has_assign_other by reflexivity;
    destruct (Frame.has "CLASS" t);
    rewrite ?in_columns_assign; auto 10.
Qed.

Lemma dated_upload_has_calendar_months_witness :
  exists out,
    _normalize_uploaded_tx Sample.canonical Sample.canonical = Ok out
    /\ forall y, forallb (Spec.dated_in_year y) (rows out) = true.
Proof.
  destruct (dated_upload_has_calendar_months Sample.canonical Sample.canonical
              eq_refl eq_refl) as [out [Hout [_ Hdated]]].
  exists out. split; [exact Hout | exact Hdated].
Defined.

Lemma map_fixes {A : Type} (f : A -> A) (l : list A) :
  map f l = l -> forall x, In x l -> f x = x.
Proof.
  induction l as [|a l IH]; intros E x Hin; [contradiction |].
  cbn [map] in E. injection E as Ea El.
  destruct Hin as [<- | Hin]; [exact Ea | now apply IH].
Qed.

Lemma period_row_tx_row (hs hc : bool) (r0 : Row) :
  Rowwise.period_row (Rowwise.tx_row hs hc r0) = Rowwise.tx_row hs hc r0.
Proof. destruct hs, hc; reflexivity. Qed.

Lemma set_signed_amount_same (r : Row) :
  notna (signed_amount r) = true ->
  Frame.set_signed_amount (fillna0 (signed_amount r)) r = r.
Proof.
  destruct r as [a b c d e f g h i j k l s n]. cbn.
  destruct s; [reflexivity | discriminate].
Qed.

(** X21: uploading the loaded table itself with "Replace" changes nothing:
    the normalizer derives the same periods from the dates, keeps every
    column and every signed amount, and the session holds the table as it
    was loaded, whatever upload it held before; for a table whose rows
    have cells in its columns only. *)
Theorem replace_with_loaded_table (txn : DataFrame) (budget : option DataFrame)
        (tx bd : DataFrame) (tx_user : option DataFrame) :
  load_all txn budget = Ok (tx, bd) ->
  map (Frame.project (columns tx)) (rows tx) = rows tx ->
  apply_tx_upload "Replace" tx (Some tx) tx_user = Ok (Some tx).
Proof.
  intros Hload Hwf.
  assert (Hrows : forall r, In r (rows tx) ->
             Rowwise.period_row r = r /\ notna (signed_amount r) = true).
  { intros r Hin.
    destruct (load_all_kept_rows _ _ _ _ r Hload Hin) as [r0 [_ [-> Hk]]].
    split; [apply period_row_tx_row | exact Hk]. }
  pose proof (load_all_has_signed_amount _ _ _ _ Hload) as Hs.
  apply load_all_ok in Hload. destruct Hload as [Htx _].
  destruct (load_tx_has_period (_norm_cols txn)) as [Hd [Hy Hm]].
  rewrite <- Htx in Hd, Hy, Hm. clear Htx.
  unfold apply_tx_upload. rewrite normalize_uploaded_tx_rows. cbv zeta.
  cbn [bind String.eqb Ascii.eqb Bool.eqb]. rewrite Hd, Hs.
  assert (Hkeep : filter (fun c => Frame.has c tx) (derived_columns tx) = columns tx).
  { unfold derived_columns, _ensure_period_cols. cbv zeta. rewrite Hd.
    rewrite !has_assign_other by reflexivity. rewrite Hs. cbn [negb andb].
    unfold Frame.assign, Frame.has in *. cbn [columns]. rewrite Hd.
    cbn [columns]. rewrite Hy. cbn [columns]. rewrite Hm.
    apply filter_all. intros c Hc. now apply mem_iff. }
  rewrite Hkeep. destruct tx as [cols rs]. cbn [columns rows] in *.
  do 3 f_equal. transitivity (map (fun r : Row => r) rs); [| apply map_id].
  apply map_ext_in. intros r Hin.
  destruct (Hrows r Hin) as [Hp Hn].
  unfold Rowwise.upload_row. cbn [negb andb]. rewrite Hp.
  rewrite (map_fixes _ _ Hwf r Hin). unfold Frame.has in Hs. cbn [columns] in Hs.
  rewrite Hs. now apply set_signed_amount_same.
Qed.

Lemma replace_with_loaded_table_witness :
  apply_tx_upload "Replace" Sample.canonical (Some Sample.canonical) None
  = Ok (Some Sample.canonical).
Proof.
  exact (replace_with_loaded_table (Sample.scenario 3 10 28) None
           Sample.canonical _ None eq_refl eq_refl).
Defined.



End UploadsMore.
